(** * Statement ingestion pipeline: a shallow embedding and its properties

    The development follows [src/agents/statement_ingestion_agent.py],
    [src/schemas/statement_parser.py], [src/utils/database.py],
    [src/utils/pdf.py] and the response cleaning of [src/cli.py].

    Conventions of the embedding.
    - A Python [str] is a [string]; a character is a code point below 256.
      In that range the regular-expression class [\d] is exactly [0-9];
      texts with other characters (where [\d] has more members) are not
      covered.
    - A Python [dict] with string keys is a [gmap string _].
    - Code that raises is a computation in the monad [M]: it threads the
      world (database, staged files, output log) and returns either a value
      or the exception raised.  The world is never rolled back by an
      exception, as in Python.
    - Everything outside the repository (the two chat models, the PDF
      reader, [json.loads], [datetime.strptime], the operating system and
      the database server deciding whether an operation fails) is a field
      of the records [Lib] and [Oracle]; theorems hold for all of them. *)

From Stdlib Require Import ZArith Ascii String Lia.
From stdpp Require Import base option list strings gmap.

Open Scope Z_scope.

(** ** Python string operations *)

Module Py.

Definition is_digit (c : ascii) : bool :=
  let n := Ascii.nat_of_ascii c in
  (Nat.leb 48 n && Nat.leb n 57)%bool.

(** [str.isspace] on code points below 256, used by [str.strip]. *)
Definition is_space (c : ascii) : bool :=
  let n := Ascii.nat_of_ascii c in
  ((Nat.leb 9 n && Nat.leb n 13) || (Nat.leb 28 n && Nat.leb n 32)
   || Nat.eqb n 133 || Nat.eqb n 160)%bool.

(** [s.startswith(p)] *)
Fixpoint startswith (p s : string) : bool :=
  match p, s with
  | EmptyString, _ => true
  | String a p', String b s' => if Ascii.eqb a b then startswith p' s' else false
  | String _ _, EmptyString => false
  end.

(** [s.endswith(p)] *)
Definition endswith (p s : string) : bool :=
  startswith (String.rev p) (String.rev s).

(** [c in s] for a one-character [c] *)
Fixpoint contains (c : ascii) (s : string) : bool :=
  match s with
  | EmptyString => false
  | String a s' => if Ascii.eqb a c then true else contains c s'
  end.

(** [s.count(c)] for a one-character [c] *)
Fixpoint count (c : ascii) (s : string) : nat :=
  match s with
  | EmptyString => O
  | String a s' => if Ascii.eqb a c then S (count c s') else count c s'
  end.

(** [s.split(c)] for a one-character separator: the list is never empty. *)
Fixpoint split (c : ascii) (s : string) : list string :=
  match s with
  | EmptyString => [EmptyString]
  | String a s' =>
      if Ascii.eqb a c then EmptyString :: split c s'
      else match split c s' with
           | [] => [String a EmptyString]
           | w :: ws => String a w :: ws
           end
  end.

(** [l[0]] and [l[-1]] on the result of [split] (never empty). *)
Definition first (l : list string) : string :=
  match l with [] => EmptyString | w :: _ => w end.
Definition last (l : list string) : string := List.last l EmptyString.

Fixpoint drop (n : nat) (s : string) : string :=
  match n, s with
  | O, _ => s
  | S _, EmptyString => EmptyString
  | S n', String _ s' => drop n' s'
  end.

Fixpoint take (n : nat) (s : string) : string :=
  match n, s with
  | O, _ => EmptyString
  | S _, EmptyString => EmptyString
  | S n', String a s' => String a (take n' s')
  end.

(** [s[i:j]] for [0 <= i <= j] *)
Definition slice (i j : nat) (s : string) : string := take (j - i) (drop i s).

(** [s[-n:]] for [n > 0]: the last [n] characters, all of [s] if shorter. *)
Definition suffix (n : nat) (s : string) : string :=
  drop (String.length s - n) s.

(** [s.replace(old, new)] for a non-empty [old]: non-overlapping
    occurrences, leftmost first.  [skip] counts the characters of a
    matched occurrence still to be passed over. *)
Fixpoint replace_go (old new : string) (skip : nat) (s : string) : string :=
  match s with
  | EmptyString => EmptyString
  | String a s' =>
      match skip with
      | S k => replace_go old new k s'
      | O =>
          if startswith old s
          then new +:+ replace_go old new (String.length old - 1) s'
          else String a (replace_go old new O s')
      end
  end.
Definition replace (old new s : string) : string := replace_go old new O s.

Fixpoint lstrip (s : string) : string :=
  match s with
  | EmptyString => EmptyString
  | String a s' => if is_space a then lstrip s' else s
  end.
(** [s.strip()] *)
Definition strip (s : string) : string :=
  String.rev (lstrip (String.rev (lstrip s))).

End Py.

(** ** The regular expressions of the agent

    The three filename patterns are sequences of one-character atoms, so a
    match has a fixed length and [re.search] returns the leftmost start. *)

Module Re.

Inductive atom := Digit | Lit (c : ascii).

Definition atom_ok (a : atom) (c : ascii) : bool :=
  match a with
  | Digit => Py.is_digit c
  | Lit l => Ascii.eqb l c
  end.

Fixpoint match_here (p : list atom) (s : string) : bool :=
  match p, s with
  | [], _ => true
  | a :: p', String c s' => if atom_ok a c then match_here p' s' else false
  | _ :: _, EmptyString => false
  end.

(** [re.search(p, s)]: the text from the start of the leftmost match on
    (groups are read off it at fixed offsets), or [None]. *)
Fixpoint search (p : list atom) (s : string) : option string :=
  if match_here p s then Some s
  else match s with
       | EmptyString => None
       | String _ s' => search p s'
       end.

Fixpoint lits (s : string) : list atom :=
  match s with
  | EmptyString => []
  | String c s' => Lit c :: lits s'
  end.

Definition digits (n : nat) : list atom := List.repeat Digit n.

(** [(\d{8})-statements-(\d{4})-] *)
Definition pat_date8 : list atom :=
  digits 8 ++ lits "-statements-" ++ digits 4 ++ lits "-".
(** [(\d{4})(\d{2})\d{2}-statements-(\d{4})-] *)
Definition pat_ymd : list atom :=
  digits 4 ++ digits 2 ++ digits 2 ++ lits "-statements-" ++ digits 4 ++ lits "-".
(** [(\d{4})-statements-(\d{4})-] *)
Definition pat_year4 : list atom :=
  digits 4 ++ lits "-statements-" ++ digits 4 ++ lits "-".

(** The substitution of [process_statement]: [re.sub] with flag DOTALL,
    replacement group 1, and the pattern made of: start anchor, three
    backticks, an optional [json], a newline, group 1 (any characters,
    greedy), a newline, three backticks, end anchor.
    The pattern is anchored at both ends and group 1 is greedy up to the
    last newline-plus-fence, so there is at most one match and it covers
    [s]; the end anchor can also match before a final newline, which is
    then left in place. *)
Definition fence : string := "```".
Definition nl : string := String (Ascii.ascii_of_nat 10) EmptyString.

Definition strip_suffix (p s : string) : option string :=
  if Py.endswith p s
  then Some (Py.take (String.length s - String.length p) s)
  else None.

Definition after_open (s : string) : option string :=
  if Py.startswith (fence +:+ "json" +:+ nl) s then Some (Py.drop 8 s)
  else if Py.startswith (fence +:+ nl) s then Some (Py.drop 4 s)
  else None.

Definition unfence (s : string) : string :=
  match after_open s with
  | None => s
  | Some r =>
      match strip_suffix (nl +:+ fence) r with
      | Some body => body
      | None =>
          match strip_suffix (nl +:+ fence +:+ nl) r with
          | Some body => body +:+ nl
          | None => s
          end
      end
  end.

End Re.

(** ** Values

    What [json.loads] returns: [None], [bool], [int], [float], [str],
    [list] and [dict] (Python's parser also accepts [NaN] and [Infinity]). *)

Inductive pyfloat := Finite (m e : Z) (* m * 2^e *) | Inf (negative : bool) | NaN.
Inductive number := Int (z : Z) | Float (f : pyfloat).

#[warnings="-register-all"]
Inductive json :=
| JNull
| JBool (b : bool)
| JNum (n : number)
| JStr (s : string)
| JArr (l : list json)
| JObj (d : gmap string json).

(** [x > 0] *)
Definition gt0 (n : number) : bool :=
  match n with
  | Int z => 0 <? z
  | Float (Finite m _) => 0 <? m
  | Float (Inf negative) => negb negative
  | Float NaN => false
  end.

Definition is_finite (n : number) : bool :=
  match n with
  | Float (Inf _) | Float NaN => false
  | _ => true
  end.

Definition is_zero (n : number) : bool :=
  match n with
  | Int z => z =? 0
  | Float (Finite m _) => m =? 0
  | _ => false
  end.

(** [bool(v)], as tested by [if not v] *)
Definition truthy (v : json) : bool :=
  match v with
  | JNull => false
  | JBool b => b
  | JNum n => negb (is_zero n)
  | JStr s => negb (String.eqb s "")
  | JArr l => match l with [] => false | _ => true end
  | JObj d => negb (bool_decide (d = ∅))
  end.

(** ** Schema validation ([schemas/statement_parser.py], pydantic)

    The models are written for pydantic 2 (the keyword [pattern] is its
    spelling): a [str] field takes a string and nothing else, a pattern is
    searched with the anchors it carries, and a model collects the errors
    of all its fields, each with the path of the offending field.  Keys the
    model does not declare are ignored. *)

Inductive loc_item := Key (k : string) | Idx (i : nat).

Inductive vkind :=
| missing | string_type | string_pattern_mismatch | greater_than
| float_type | decimal_type | list_type | model_type.

Record verror := { loc : list loc_item; kind : vkind }.

Inductive vres (A : Type) := Valid (a : A) | Invalid (errs : list verror).
Arguments Valid {A} a.
Arguments Invalid {A} errs.

Definition errors_of {A} (r : vres A) : list verror :=
  match r with Valid _ => [] | Invalid errs => errs end.

Definition vap {A B} (f : vres (A -> B)) (x : vres A) : vres B :=
  match f, x with
  | Valid g, Valid a => Valid (g a)
  | Valid _, Invalid e => Invalid e
  | Invalid e, Valid _ => Invalid e
  | Invalid e1, Invalid e2 => Invalid (e1 ++ e2)
  end.
Infix "<*>" := vap (at level 61, left associativity).

Module DepositTransaction.
Record t := { date : string; description : string; amount : number }.
End DepositTransaction.

Module WithdrawalTransaction.
Record t := { date : string; description : string; amount : number;
              tax_category : string }.
End WithdrawalTransaction.

Module StatementData.
Record t := {
  account_number : string;
  statement_date : string;
  period_start : string;
  period_end : string;
  beginning_balance : number;
  ending_balance : number;
  total_fees : number;
  filename : string;
  important_notes : string;
  deposits : list DepositTransaction.t;
  withdrawals : list WithdrawalTransaction.t
}.
End StatementData.

(** The enumeration written in the [enum=] argument of
    [WithdrawalTransaction.tax_category] (and in [VALID_TAX_CATEGORIES]). *)
Definition tax_categories : list string :=
  [ "Domestic Business Expense"; "International Subcontractors"; "Tax Payment";
    "Transfer"; "Loan Payment"; "Utility Payment"; "Professional Services" ].

Module Pattern.

Definition in_range (lo hi : nat) (c : ascii) : bool :=
  let n := Ascii.nat_of_ascii c in (Nat.leb lo n && Nat.leb n hi)%bool.
Definition chr (x c : ascii) : bool := Ascii.eqb x c.

(** [(0[1-9]|1[0-2])] *)
Definition month2 (a b : ascii) : bool :=
  ((chr "0" a && in_range 49 57 b) || (chr "1" a && in_range 48 50 b))%bool.
(** [(0[1-9]|[12]\d|3[01])] *)
Definition day2 (a b : ascii) : bool :=
  ((chr "0" a && in_range 49 57 b)
   || (in_range 49 50 a && Py.is_digit b)
   || (chr "3" a && in_range 48 49 b))%bool.
(** [(/\d{4})?] up to the end of the text *)
Definition opt_year (s : string) : bool :=
  match s with
  | EmptyString => true
  | String s0 (String y1 (String y2 (String y3 (String y4 EmptyString)))) =>
      (chr "/" s0 && Py.is_digit y1 && Py.is_digit y2 && Py.is_digit y3
       && Py.is_digit y4)%bool
  | _ => false
  end.
(** The [pattern=] of the two [date] fields; the final anchor matches at
    the end of the text only. *)
Definition date (s : string) : bool :=
  match s with
  | String m1 (String m2 (String s0 (String d1 (String d2 rest)))) =>
      (month2 m1 m2 && chr "/" s0 && day2 d1 d2 && opt_year rest)%bool
  | _ => false
  end.

(** White space of the class [\s]. *)
Definition space (c : ascii) : bool :=
  let n := Ascii.nat_of_ascii c in
  ((Nat.leb 9 n && Nat.leb n 13) || Nat.eqb n 32 || Nat.eqb n 133
   || Nat.eqb n 160)%bool.
Definition description_char (c : ascii) : bool :=
  (in_range 97 122 c || in_range 65 90 c || Py.is_digit c || space c
   || chr "-" c || chr ":" c || chr "." c || chr "#" c || chr "/" c || chr "(" c
   || chr ")" c || chr "," c || chr "*" c || chr "_" c || chr "[" c || chr "]" c)%bool.
Fixpoint all_chars (p : ascii -> bool) (s : string) : bool :=
  match s with
  | EmptyString => true
  | String c s' => (p c && all_chars p s')%bool
  end.
(** The [pattern=] of the two [description] fields: one or more
    characters of the class. *)
Definition description (s : string) : bool :=
  (negb (String.eqb s "") && all_chars description_char s)%bool.

End Pattern.

Section Validation.

(** pydantic's conversion of an input that is not a float, for a [float]
    field (an integer becomes the float nearest to it, when it has one),
    and of an input that is not a number, for a [Decimal] field. *)
Variable lax_float : json -> option number.
Variable lax_decimal : json -> option number.

Definition err {A} (path : list loc_item) (k : vkind) : vres A :=
  Invalid [ {| loc := path; kind := k |} ].

(** [name: str] *)
Definition str_field (path : list loc_item) (v : option json) : vres string :=
  match v with
  | None => err path missing
  | Some (JStr s) => Valid s
  | Some _ => err path string_type
  end.

(** [name: str = ""] *)
Definition str_field_default (path : list loc_item) (v : option json) : vres string :=
  match v with
  | None => Valid EmptyString
  | Some (JStr s) => Valid s
  | Some _ => err path string_type
  end.

(** [name: str = Field(..., pattern=p)] *)
Definition pattern_field (p : string -> bool) (path : list loc_item)
    (v : option json) : vres string :=
  match v with
  | None => err path missing
  | Some (JStr s) => if p s then Valid s else err path string_pattern_mismatch
  | Some _ => err path string_type
  end.

(** [amount: float = Field(..., gt=0)] *)
Definition amount_field (path : list loc_item) (v : option json) : vres number :=
  let check n := if gt0 n then Valid n else err path greater_than in
  match v with
  | None => err path missing
  | Some (JNum (Float f)) => check (Float f)
  | Some j => match lax_float j with
              | Some n => check n
              | None => err path float_type
              end
  end.

(** [name: Decimal] *)
Definition decimal_field (path : list loc_item) (v : option json) : vres number :=
  let check n := if is_finite n then Valid n else err path decimal_type in
  match v with
  | None => err path missing
  | Some (JNum n) => check n
  | Some j => match lax_decimal j with
              | Some n => check n
              | None => err path decimal_type
              end
  end.

(** [tax_category: str = Field(..., enum=[...])]: the [enum] argument is
    not one of the constraints [Field] knows (such as [pattern] and
    [gt]); it is only copied to the JSON schema of the model, and the
    field is validated as a required [str]. *)
Definition tax_category_field (path : list loc_item) (v : option json) : vres string :=
  str_field path v.

Definition validate_deposit (path : list loc_item) (v : json)
    : vres DepositTransaction.t :=
  match v with
  | JObj d =>
      Valid DepositTransaction.Build_t
        <*> pattern_field Pattern.date (path ++ [Key "date"]) (d !! "date")
        <*> pattern_field Pattern.description (path ++ [Key "description"])
              (d !! "description")
        <*> amount_field (path ++ [Key "amount"]) (d !! "amount")
  | _ => err path model_type
  end.

Definition validate_withdrawal (path : list loc_item) (v : json)
    : vres WithdrawalTransaction.t :=
  match v with
  | JObj d =>
      Valid WithdrawalTransaction.Build_t
        <*> pattern_field Pattern.date (path ++ [Key "date"]) (d !! "date")
        <*> pattern_field Pattern.description (path ++ [Key "description"])
              (d !! "description")
        <*> amount_field (path ++ [Key "amount"]) (d !! "amount")
        <*> tax_category_field (path ++ [Key "tax_category"]) (d !! "tax_category")
  | _ => err path model_type
  end.

(** Items of a list, each at its index. *)
Fixpoint validate_items {A} (f : list loc_item -> json -> vres A)
    (path : list loc_item) (i : nat) (l : list json) : vres (list A) :=
  match l with
  | [] => Valid []
  | v :: l' => Valid cons <*> f (path ++ [Idx i]) v
                          <*> validate_items f path (S i) l'
  end.

(** [name: List[T] = []] *)
Definition list_field {A} (f : list loc_item -> json -> vres A)
    (path : list loc_item) (v : option json) : vres (list A) :=
  match v with
  | None => Valid []
  | Some (JArr l) => validate_items f path O l
  | Some _ => err path list_type
  end.

(** [StatementData] applied to the keyword-unpacked dictionary *)
Definition validate_statement (d : gmap string json) : vres StatementData.t :=
  Valid StatementData.Build_t
    <*> str_field [Key "account_number"] (d !! "account_number")
    <*> str_field [Key "statement_date"] (d !! "statement_date")
    <*> str_field [Key "period_start"] (d !! "period_start")
    <*> str_field [Key "period_end"] (d !! "period_end")
    <*> decimal_field [Key "beginning_balance"] (d !! "beginning_balance")
    <*> decimal_field [Key "ending_balance"] (d !! "ending_balance")
    <*> decimal_field [Key "total_fees"] (d !! "total_fees")
    <*> str_field [Key "filename"] (d !! "filename")
    <*> str_field_default [Key "important_notes"] (d !! "important_notes")
    <*> list_field validate_deposit [Key "deposits"] (d !! "deposits")
    <*> list_field validate_withdrawal [Key "withdrawals"] (d !! "withdrawals").

End Validation.

(** ** Exceptions and results *)

Inductive exn :=
| KeyError (k : string)
| TypeError
| AttributeError
| ValueError (msg : string)
| JSONDecodeError
| FileNotFoundError
| ValidationError (errs : list verror)
| OtherError (name : string).

Inductive res (A : Type) := Ok (a : A) | Raise (e : exn).
Arguments Ok {A} a.
Arguments Raise {A} e.

(** ** The database ([utils/database.py]) *)

Record date := { year : Z; month : Z; day : Z }.

Module AccountReference.
Record t := { id : Z; account_number : string; company_name : string;
              bank_name : string; account_type : string }.
End AccountReference.

(** The dictionary [statement_data], one row of [banking_statements]. *)
Module Statement.
Record t := {
  account_reference_id : Z;
  statement_date : date;
  period_start : date;
  period_end : date;
  beginning_balance : number;
  ending_balance : number;
  total_fees : number;
  filename : string;
  important_notes : string;
  raw_data : json
}.
End Statement.

Module Deposit.
Record t := { banking_statement_id : Z; transaction_date : date;
              description : string; amount : number }.
End Deposit.

Module Withdrawal.
Record t := { banking_statement_id : Z; transaction_date : date;
              description : string; amount : number; tax_category : string }.
End Withdrawal.

(** Committed rows; each carries the identifier the server gave it. *)
Record Db := {
  account_references : list AccountReference.t;
  banking_statements : list (Z * Statement.t);
  deposits : list (Z * Deposit.t);
  withdrawals : list (Z * Withdrawal.t)
}.

(** ** The world *)

(** A path below [FINANCIAL_STATEMENTS_DIR], as the components joined with
    the division operator of [pathlib]; components are taken as given.
    Equal lists name the same file; different lists name different files
    when their components are plain, since [pathlib] splits a component
    at its slashes and drops empty and [.] components, and the operating
    system resolves [..]. *)
Definition path := list string.

(** A component that [pathlib] and the operating system take as it is. *)
Definition plain (c : string) : bool :=
  (negb (String.eqb c "") && negb (Py.contains "/" c)
   && negb (String.eqb c ".") && negb (String.eqb c ".."))%bool.

Inductive model := Primary | Fallback.

(** Lines printed for the operator (progress lines are left out). *)
Inductive printed :=
| SkipInDatabase (pdf : string)
| SkipNoIdentity (pdf : string)
| SkipJsonExists (pdf : string) (json_name : string)
| ExistenceCheckFailed (e : exn)
| PrimaryFailed (e : exn)
| MoveWarning (e : exn) (stays_at : path)
| ErrorLine (e : exn).

Record World := {
  db : Db;
  fs : gmap path json;             (* the JSON artifacts on disk *)
  calls : list (model * string);   (* completion calls made, oldest first *)
  out : list printed;              (* printed lines, oldest first *)
  clock : nat                      (* external operations performed *)
}.

Definition set_db (f : Db -> Db) (w : World) : World :=
  {| db := f (db w); fs := fs w; calls := calls w; out := out w; clock := clock w |}.
Definition set_fs (f : gmap path json -> gmap path json) (w : World) : World :=
  {| db := db w; fs := f (fs w); calls := calls w; out := out w; clock := clock w |}.
Definition add_call (c : model * string) (w : World) : World :=
  {| db := db w; fs := fs w; calls := calls w ++ [c]; out := out w; clock := clock w |}.
Definition add_out (m : printed) (w : World) : World :=
  {| db := db w; fs := fs w; calls := calls w; out := out w ++ [m]; clock := clock w |}.
Definition tick (w : World) : World :=
  {| db := db w; fs := fs w; calls := calls w; out := out w; clock := S (clock w) |}.

(** Operations that the database server or the operating system may refuse. *)
Inductive op :=
| OpExists (name : string)
| OpFetchAccount (num : string)
| OpInsertStatement (r : Statement.t)
| OpInsertDeposit (r : Deposit.t)
| OpInsertWithdrawal (r : Withdrawal.t)
| OpMkdir (p : path)
| OpWrite (p : path)
| OpRead (p : path)
| OpRename (src dst : path)
| OpList (dir : path)
| OpStat (p : path).

(** Library functions the agent calls. *)
Record Lib := {
  json_loads : string -> option json;       (* [None]: [JSONDecodeError] *)
  strptime : string -> option date;         (* format [%m/%d/%Y]; [None]: [ValueError] *)
  lax_float : json -> option number;
  lax_decimal : json -> option number;
  py_str : json -> string;                  (* [str(v)] inside an f-string *)
  exn_str : exn -> string;                  (* [str(e)] *)
  human_prompt : string -> string -> res string  (* [human_prompt.format(filename=, text=)] *)
}.

(** The collaborators.  Each answer may depend on the whole world, whose
    clock advances at every operation, so that an answer may change from
    one call to the next. *)
Record Oracle := {
  invoke : World -> model -> string -> res string;   (* [response.content], or raises *)
  pdf_text : World -> path -> option string;          (* [extract_text_from_pdf] *)
  glob : World -> path -> string -> option (list string);
                                     (* names in a directory; [None]: no directory *)
  row_id : World -> op -> Z;         (* [RETURNING id] of an insert *)
  fails : World -> op -> option exn  (* [Some e]: the operation raises [e], no effect *)
}.

(** ** Computations *)

Definition M (A : Type) : Type := World -> res A * World.

Definition ret {A} (a : A) : M A := fun w => (Ok a, w).
Definition raise {A} (e : exn) : M A := fun w => (Raise e, w).
Definition lift {A} (r : res A) : M A := fun w => (r, w).
Definition bind {A B} (m : M A) (k : A -> M B) : M B :=
  fun w => match m w with
           | (Ok a, w') => k a w'
           | (Raise e, w') => (Raise e, w')
           end.
(** [try: m  except Exception as e: h e] *)
Definition try_except {A} (m : M A) (h : exn -> M A) : M A :=
  fun w => match m w with
           | (Ok a, w') => (Ok a, w')
           | (Raise e, w') => h e w'
           end.
Definition say (m : printed) : M unit := fun w => (Ok tt, add_out m w).

Declare Scope m_scope.
Delimit Scope m_scope with M.
Notation "x <- m ;; k" := (bind m (fun x => k))
  (at level 100, m at next level, right associativity) : m_scope.
Notation "m ;;; k" := (bind m (fun _ => k))
  (at level 100, right associativity) : m_scope.
Open Scope m_scope.

(** [for x in l: f x], stopping at the first exception. *)
Fixpoint for_each {A} (f : A -> M unit) (l : list A) : M unit :=
  match l with
  | [] => ret tt
  | x :: l' => f x ;;; for_each f l'
  end.

Definition of_option {A} (e : exn) (o : option A) : res A :=
  match o with Some a => Ok a | None => Raise e end.

Definition rbind {A B} (r : res A) (k : A -> res B) : res B :=
  match r with Ok a => k a | Raise e => Raise e end.
Notation "x <~ r ;; k" := (rbind r (fun x => k))
  (at level 100, r at next level, right associativity) : m_scope.

Fixpoint map_res {A B} (f : A -> res B) (l : list A) : res (list B) :=
  match l with
  | [] => Ok []
  | x :: l' => y <~ f x ;; ys <~ map_res f l' ;; Ok (y :: ys)
  end.

(** One record of the list a directory run returns. *)
Record result := { filename : string; status : string; message : string }.

(** ** Pure steps of the agent ([agents/statement_ingestion_agent.py]) *)

(** [v.split('/')]: only a [str] has the method. *)
Definition split_slash (v : json) : res (list string) :=
  match v with
  | JStr s => Ok (Py.split "/" s)
  | _ => Raise AttributeError
  end.

(** [data.get('statement_date', '').split('/')] *)
Definition statement_date_parts (data : json) : res (list string) :=
  match data with
  | JObj d => split_slash (default (JStr "") (d !! "statement_date"))
  | _ => Raise AttributeError
  end.

(** The name under which [_save_json_response] stores the response. *)
Definition json_filename_of (pdf_filename : string) (data : json) : res string :=
  match Re.search Re.pat_year4 pdf_filename with
  | Some m =>
      let year := Py.slice 0 4 m in
      let last_four := Py.slice 16 20 m in
      parts <~ statement_date_parts data ;;
      let month := Py.first parts in
      Ok (last_four +:+ month +:+ year +:+ ".json")
  | None =>
      (* Fallback to a default naming pattern *)
      Ok (Py.replace ".pdf" ".json" pdf_filename)
  end.

(** The match of [process_directory]: year, month and last four digits. *)
Definition identity_of (name : string) : option (string * string * string) :=
  match Re.search Re.pat_date8 name with
  | Some m =>
      let date_str := Py.slice 0 8 m in
      Some (Py.slice 0 4 date_str, Py.slice 4 6 date_str, Py.slice 20 24 m)
  | None =>
      (* Try alternative pattern *)
      match Re.search Re.pat_ymd name with
      | Some m => Some (Py.slice 0 4 m, Py.slice 4 6 m, Py.slice 20 24 m)
      | None => None
      end
  end.

(** [if '/' in v and len(v.split('/')) == 2]: the date to complete, if any.
    A list or a dictionary supports [in] but has no [split]. *)
Definition date_missing_year (v : json) : res (option string) :=
  match v with
  | JStr s =>
      Ok (if (Py.contains "/" s && Nat.eqb (length (Py.split "/" s)) 2)%bool
          then Some s else None)
  | JArr l =>
      if existsb (fun x => match x with JStr "/" => true | _ => false end) l
      then Raise AttributeError else Ok None
  | JObj t => if bool_decide (is_Some (t !! "/")) then Raise AttributeError else Ok None
  | _ => Raise TypeError
  end.

(** The body of the two loops: [item['date'] = f"{item['date']}/{year}"]. *)
Definition backfill_item (statement_year : string) (item : json) : res json :=
  match item with
  | JObj t =>
      match t !! "date" with
      | None => Raise (KeyError "date")
      | Some v =>
          o <~ date_missing_year v ;;
          match o with
          | Some s => Ok (JObj (<["date" := JStr (s +:+ "/" +:+ statement_year)]> t))
          | None => Ok item
          end
      end
  | _ => Raise TypeError
  end.

(** [if key in data: for item in data[key]: ...].  An empty string and an
    empty dictionary are iterated without a step; the items of any other
    string or dictionary are strings, which cannot be indexed by ['date']. *)
Definition backfill (key statement_year : string) (d : gmap string json)
    : res (gmap string json) :=
  match d !! key with
  | None => Ok d
  | Some (JArr l) =>
      l' <~ map_res (backfill_item statement_year) l ;;
      Ok (<[key := JArr l']> d)
  | Some (JStr s) => if String.eqb s "" then Ok d else Raise TypeError
  | Some (JObj t) => if bool_decide (t = ∅) then Ok d else Raise TypeError
  | Some _ => Raise TypeError
  end.

(** [x[-4:]] on a list *)
Definition last4 {A} (l : list A) : list A := drop (length l - 4)%nat l.

(** [data['filename'] = f"{last_four}-{statement_month}-{statement_year}.pdf"],
    executed when [data] has the key [account_number].  [str_of] renders a
    value that is not a string.  Only a string and a list can be sliced;
    for the other values the slice raises (a [TypeError], but for a
    dictionary, where recent interpreters raise a [KeyError]: the agent
    treats the two alike). *)
Definition set_filename (str_of : json -> string)
    (statement_month statement_year : string) (d : gmap string json)
    : res (gmap string json) :=
  let name last_four :=
    JStr (last_four +:+ "-" +:+ statement_month +:+ "-" +:+ statement_year +:+ ".pdf") in
  match d !! "account_number" with
  | None => Ok d
  | Some (JStr s) => Ok (<["filename" := name (Py.suffix 4 s)]> d)
  | Some (JArr l) => Ok (<["filename" := name (str_of (JArr (last4 l)))]> d)
  | Some _ => Raise TypeError
  end.

(** The first half of [_process_json_data]: the dictionary as it is when
    handed to the schema. *)
Definition prepare (str_of : json -> string) (data : json) : res (gmap string json) :=
  match data with
  | JObj d =>
      parts <~ statement_date_parts data ;;
      let statement_year := Py.last parts in
      let statement_month := Py.first parts in
      d1 <~ set_filename str_of statement_month statement_year d ;;
      d2 <~ backfill "deposits" statement_year d1 ;;
      backfill "withdrawals" statement_year d2
  | _ => Raise AttributeError
  end.

(** [content] after the code-fence test of [process_statement]. *)
Definition unwrap_content (content : string) : string :=
  if (Py.startswith Re.fence content && Py.endswith Re.fence content)%bool
  then Re.unfence (Py.strip content)
  else content.

(** [json_response['data']] if the response is a dictionary with that key. *)
Definition data_of (json_response : json) : json :=
  match json_response with
  | JObj d => default json_response (d !! "data")
  | _ => json_response
  end.

(** ** The agent and the database gateway *)

Section Agent.

Variable L : Lib.
Variable O : Oracle.

(** An operation that the outside may refuse. *)
Definition attempt (o : op) : M unit :=
  fun w => match fails O w o with
           | Some e => (Raise e, tick w)
           | None => (Ok tt, tick w)
           end.

Definition read_db {A} (f : Db -> A) : M A := fun w => (Ok (f (db w)), w).

(** *** [utils/database.py] *)

Definition fetch_account_reference (account_number : string)
    : M (option AccountReference.t) :=
  attempt (OpFetchAccount account_number) ;;;
  read_db (fun d =>
    List.find (fun a => String.eqb (AccountReference.account_number a) account_number)
              (account_references d)).

Definition has_filename (name : string) (d : Db) : bool :=
  existsb (fun r => String.eqb (Statement.filename (snd r)) name)
          (banking_statements d).

Definition check_statement_exists (statement_filename : string) : M bool :=
  try_except
    (attempt (OpExists statement_filename) ;;;
     read_db (has_filename statement_filename))
    (fun e => say (ExistenceCheckFailed e) ;;; ret false).

(** A new row, under the identifier the server has given to it. *)
Definition add_statement (id : Z) (r : Statement.t) (d : Db) : Db :=
  {| account_references := account_references d;
     banking_statements := banking_statements d ++ [(id, r)];
     deposits := deposits d;
     withdrawals := withdrawals d |}.
Definition add_deposit (id : Z) (r : Deposit.t) (d : Db) : Db :=
  {| account_references := account_references d;
     banking_statements := banking_statements d;
     deposits := deposits d ++ [(id, r)];
     withdrawals := withdrawals d |}.
Definition add_withdrawal (id : Z) (r : Withdrawal.t) (d : Db) : Db :=
  {| account_references := account_references d;
     banking_statements := banking_statements d;
     deposits := deposits d;
     withdrawals := withdrawals d ++ [(id, r)] |}.

(** Each insert opens its own connection and commits on success; the
    identifier of the row is the one the server returns. *)
Definition insert_statement (statement_data : Statement.t) : M Z :=
  attempt (OpInsertStatement statement_data) ;;;
  fun w => let id := row_id O w (OpInsertStatement statement_data) in
           (Ok id, set_db (add_statement id statement_data) w).

Definition insert_deposit (deposit_data : Deposit.t) : M Z :=
  attempt (OpInsertDeposit deposit_data) ;;;
  fun w => let id := row_id O w (OpInsertDeposit deposit_data) in
           (Ok id, set_db (add_deposit id deposit_data) w).

Definition insert_withdrawal (withdrawal_data : Withdrawal.t) : M Z :=
  attempt (OpInsertWithdrawal withdrawal_data) ;;;
  fun w => let id := row_id O w (OpInsertWithdrawal withdrawal_data) in
           (Ok id, set_db (add_withdrawal id withdrawal_data) w).

(** *** Files *)

(** [FINANCIAL_STATEMENTS_DIR / "json"] *)
Definition staging : path := ["json"].

(** [d.exists()] and, when it holds, [(d / name).exists()], for the file
    [p] at [d / name]: a file exists only in a directory that exists.  The
    tests ask the operating system, which may raise (an [OSError] other
    than "not found", such as [PermissionError]). *)
Definition exists_file (p : path) : M bool :=
  attempt (OpStat p) ;;;
  fun w => (Ok (bool_decide (is_Some (fs w !! p))), w).

Definition write_json (p : path) (v : json) : M unit :=
  attempt (OpWrite p) ;;; fun w => (Ok tt, set_fs (insert p v) w).

Definition read_json (p : path) : M json :=
  attempt (OpRead p) ;;;
  fun w => (of_option FileNotFoundError (fs w !! p), w).

(** [src.rename(dst)] *)
Definition rename (src dst : path) : M unit :=
  attempt (OpRename src dst) ;;;
  fun w => match fs w !! src with
           | None => (Raise FileNotFoundError, w)
           | Some v => (Ok tt, set_fs (fun f => <[dst := v]> (delete src f)) w)
           end.

(** [dir.exists()] and [list(dir.glob(...))]; both ask the operating
    system, which may raise. *)
Definition list_dir (dir : path) (ext : string) : M (option (list string)) :=
  fun w => match fails O w (OpList dir) with
           | Some e => (Raise e, tick w)
           | None => (Ok (glob O w dir ext), tick w)
           end.

(** *** [StatementIngestionAgent] *)

Definition _save_json_response (pdf_filename : string) (data : json) : M path :=
  json_filename <- lift (json_filename_of pdf_filename data) ;;
  let json_dir := staging in
  attempt (OpMkdir json_dir) ;;;
  let json_path := json_dir ++ [json_filename] in
  write_json json_path data ;;;
  ret json_path.

Definition parse_date (s : string) : M date :=
  lift (of_option (ValueError "time data does not match format") (strptime L s)).

Definition store_deposit (statement_id : Z) (deposit : DepositTransaction.t) : M unit :=
  d <- parse_date (DepositTransaction.date deposit) ;;
  insert_deposit
    {| Deposit.banking_statement_id := statement_id;
       Deposit.transaction_date := d;
       Deposit.description := DepositTransaction.description deposit;
       Deposit.amount := DepositTransaction.amount deposit |} ;;;
  ret tt.

Definition store_withdrawal (statement_id : Z) (withdrawal : WithdrawalTransaction.t)
    : M unit :=
  d <- parse_date (WithdrawalTransaction.date withdrawal) ;;
  insert_withdrawal
    {| Withdrawal.banking_statement_id := statement_id;
       Withdrawal.transaction_date := d;
       Withdrawal.description := WithdrawalTransaction.description withdrawal;
       Withdrawal.amount := WithdrawalTransaction.amount withdrawal;
       Withdrawal.tax_category := WithdrawalTransaction.tax_category withdrawal |} ;;;
  ret tt.

Definition validate (d : gmap string json) : M StatementData.t :=
  match validate_statement (lax_float L) (lax_decimal L) d with
  | Valid parsed_data => ret parsed_data
  | Invalid errs => raise (ValidationError errs)
  end.

(** "Get account reference" and "Prepare statement data": the dictionary
    [statement_data]. *)
Definition build_row (d : gmap string json) (parsed_data : StatementData.t)
    : M Statement.t :=
  account_ref <- fetch_account_reference (StatementData.account_number parsed_data) ;;
  match account_ref with
  | None =>
      raise (ValueError
               ("Account not found: " +:+ StatementData.account_number parsed_data))
  | Some account_ref =>
      statement_date <- parse_date (StatementData.statement_date parsed_data) ;;
      period_start <- parse_date (StatementData.period_start parsed_data) ;;
      period_end <- parse_date (StatementData.period_end parsed_data) ;;
      ret {| Statement.account_reference_id := AccountReference.id account_ref;
             Statement.statement_date := statement_date;
             Statement.period_start := period_start;
             Statement.period_end := period_end;
             Statement.beginning_balance := StatementData.beginning_balance parsed_data;
             Statement.ending_balance := StatementData.ending_balance parsed_data;
             Statement.total_fees := StatementData.total_fees parsed_data;
             Statement.filename := StatementData.filename parsed_data;
             Statement.important_notes := StatementData.important_notes parsed_data;
             Statement.raw_data := JObj d |}
  end.

(** "Insert deposits" and "Insert withdrawals" *)
Definition store_items (statement_id : Z) (parsed_data : StatementData.t) : M unit :=
  for_each (store_deposit statement_id) (StatementData.deposits parsed_data) ;;;
  for_each (store_withdrawal statement_id) (StatementData.withdrawals parsed_data).

(** The second half of [_process_json_data], from the validated data on. *)
Definition store (d : gmap string json) (parsed_data : StatementData.t) : M unit :=
  statement_data <- build_row d parsed_data ;;
  statement_id <- insert_statement statement_data ;;
  store_items statement_id parsed_data.

(** [_process_json_data] changes [data] in place; the caller keeps a
    reference to it, so the changed dictionary is returned here. *)
Definition _process_json_data (data : json) : M json :=
  try_except
    (d <- lift (prepare (py_str L) data) ;;
     parsed_data <- validate d ;;
     store d parsed_data ;;;
     ret (JObj d))
    (fun e => say (ErrorLine e) ;;; raise e).

(** [data.get(key)] followed by [if not value: raise ValueError(msg)] *)
Definition get_truthy (data : json) (key msg : string) : M json :=
  match data with
  | JObj d =>
      match d !! key with
      | Some v => if truthy v then ret v else raise (ValueError msg)
      | None => raise (ValueError msg)
      end
  | _ => raise AttributeError
  end.

(** The block "Move the JSON file to its organized location", written
    out once in [process_statement] and once in [process_json_file].
    An account number that is not a string cannot be a path component. *)
Definition move_body (data : json) (json_path : path) : M unit :=
  account_number <- get_truthy data "account_number"
                      "Account number not found in JSON data" ;;
  match account_number with
  | JStr account_number =>
      account_ref <- fetch_account_reference account_number ;;
      match account_ref with
      | None => raise (ValueError ("Account not found: " +:+ account_number))
      | Some account_ref =>
          statement_date <- get_truthy data "statement_date"
                              "Statement date not found in JSON data" ;;
          parts <- lift (split_slash statement_date) ;;
          let year := Py.last parts in
          let dest_dir :=
            [AccountReference.company_name account_ref; account_number; year;
             "json"] in
          attempt (OpMkdir dest_dir) ;;;
          let dest_path := dest_dir ++ [Py.last json_path] in
          rename json_path dest_path
      end
  | _ => raise TypeError
  end.

(** The [except] of the block prints a warning and goes on. *)
Definition move_json (data : json) (json_path : path) : M unit :=
  try_except (move_body data json_path)
    (fun e => say (MoveWarning e json_path) ;;; ret tt).

Definition call_model (m : model) (messages : string) : M string :=
  fun w => (invoke O w m messages, tick (add_call (m, messages) w)).

(** "Get response from OpenAI": the primary model, then the fallback. *)
Definition get_response (messages : string) : M string :=
  try_except (call_model Primary messages)
    (fun e => say (PrimaryFailed e) ;;; call_model Fallback messages).

(** From [response.content] to [data_content]. *)
Definition parse_response (content : string) : res json :=
  let content := unwrap_content content in
  json_response <~ of_option JSONDecodeError (json_loads L content) ;;
  Ok (data_of json_response).

Definition process_statement (filename text : string) : M unit :=
  formatted_human_prompt <- lift (human_prompt L filename text) ;;
  try_except
    (content <- get_response formatted_human_prompt ;;
     data_content <- lift (parse_response content) ;;
     json_path <- _save_json_response filename data_content ;;
     data_content <- _process_json_data data_content ;;
     move_json data_content json_path)
    (fun e => say (ErrorLine e) ;;; raise e).

Definition process_json_file (json_path : path) : M unit :=
  try_except
    (data <- read_json json_path ;;
     data <- _process_json_data data ;;
     move_json data json_path)
    (fun e => say (ErrorLine e) ;;; raise e).

Definition success (name : string) : result :=
  {| filename := name; status := "success";
     message := "Successfully processed and stored in database" |}.
Definition error (name msg : string) : result :=
  {| filename := name; status := "error"; message := msg |}.

(** The loops append to [results]; a step returns what it appends. *)
Fixpoint collect {A} (step : A -> M (list result)) (l : list A) : M (list result) :=
  match l with
  | [] => ret []
  | x :: l' => r <- step x ;; rs <- collect step l' ;; ret (r ++ rs)
  end.

Definition json_step (json_dir : path) (name : string) : M (list result) :=
  try_except
    (process_json_file (json_dir ++ [name]) ;;; ret [success name])
    (fun e => ret [error name (exn_str L e)]).

Definition process_json_directory (json_dir : option path) : M (list result) :=
  let json_dir := default staging json_dir in
  listing <- list_dir json_dir ".json" ;;
  match listing with
  | None => ret []
  | Some json_files => collect (json_step json_dir) json_files
  end.

(** The [exists] tests on the organized and on the staging directory;
    they stand outside every [try]. *)
Definition existing_json (organized temp : path) : M (option path) :=
  a <- exists_file organized ;;
  if a : bool then ret (Some organized)
  else b <- exists_file temp ;;
       if b : bool then ret (Some temp) else ret None.

Definition pdf_step (company account_number : string) (target_dir : path)
    (name : string) : M (list result) :=
  in_database <- check_statement_exists name ;;
  if in_database : bool then say (SkipInDatabase name) ;;; ret []
  else
    match identity_of name with
    | None => say (SkipNoIdentity name) ;;; ret []
    | Some (year, month, last_four) =>
        let json_pattern := last_four +:+ month +:+ year +:+ ".json" in
        let organized_json_dir := [company; account_number; year; "json"] in
        let temp_json_dir := staging in
        existing <- existing_json (organized_json_dir ++ [json_pattern])
                      (temp_json_dir ++ [json_pattern]) ;;
        match existing with
        | Some p => say (SkipJsonExists name (Py.last p)) ;;; ret []
        | None =>
            text_content <- (fun w => (Ok (pdf_text O w (target_dir ++ [name])), tick w)) ;;
            match text_content with
            | None => ret [error name "Could not extract text from the PDF"]
            | Some text =>
                if String.eqb text ""
                then ret [error name "Could not extract text from the PDF"]
                else
                  try_except
                    (process_statement name text ;;; ret [success name])
                    (fun e => ret [error name (exn_str L e)])
            end
        end
    end.

Definition process_directory (company account_number year : string)
    (test_mode : bool) : M (list result) :=
  let target_dir := [company; account_number; year] in
  listing <- list_dir target_dir ".pdf" ;;
  match listing with
  | None => ret []
  | Some pdf_files =>
      let pdf_files := if test_mode then take 1 pdf_files else pdf_files in
      collect (pdf_step company account_number target_dir) pdf_files
  end.

End Agent.

(** The name the claim about the stored filename speaks of: last four
    characters of the account number, month and year of the statement date. *)
Definition derived_filename (account_number statement_date : string) : string :=
  Py.suffix 4 account_number +:+ "-" +:+ Py.first (Py.split "/" statement_date)
    +:+ "-" +:+ Py.last (Py.split "/" statement_date) +:+ ".pdf".

(** A response wrapped in a code block: opening fence with an optional
    language tag, the text on its own lines, closing fence. *)
Definition fenced (tag text : string) : string :=
  Re.fence +:+ tag +:+ Re.nl +:+ text +:+ Re.nl +:+ Re.fence.

(** The year [_process_json_data] reads off the statement date. *)
Definition statement_year (d : gmap string json) : string :=
  match statement_date_parts (JObj d) with
  | Ok parts => Py.last parts
  | Raise _ => EmptyString
  end.

(** What the rule on dates without a year asks of one line item: a date of
    two slash-separated parts gets the statement's year appended, any other
    date is left as it is. *)
Definition with_year (statement_year : string) (item : json) : json :=
  match item with
  | JObj t =>
      match t !! "date" with
      | Some (JStr s) =>
          if Nat.eqb (length (Py.split "/" s)) 2
          then JObj (<["date" := JStr (s +:+ "/" +:+ statement_year)]> t)
          else item
      | _ => item
      end
  | _ => item
  end.

(** ** A concrete run *)

Module Sample.

Definition q : string := String (Ascii.ascii_of_nat 34) EmptyString.
Definition str (s : string) : string := q +:+ s +:+ q.
Definition member (k v : string) : string := str k +:+ ": " +:+ v.

(** The payload of one statement, as JSON text and as the value
    [json.loads] returns for it. *)
Definition payload_text : string :=
  "{" +:+ member "account_number" (str "000000954291234") +:+ ", "
      +:+ member "statement_date" (str "03/31/2024") +:+ ", "
      +:+ member "period_start" (str "03/01/2024") +:+ ", "
      +:+ member "period_end" (str "03/31/2024") +:+ ", "
      +:+ member "beginning_balance" "100" +:+ ", "
      +:+ member "ending_balance" "88" +:+ ", "
      +:+ member "total_fees" "0" +:+ ", "
      +:+ member "filename" (str "20240315-statements-1234-foo.pdf") +:+ ", "
      +:+ member "withdrawals"
            ("[{" +:+ member "date" (str "03/15") +:+ ", "
                  +:+ member "description" (str "ACME") +:+ ", "
                  +:+ member "amount" "12" +:+ ", "
                  +:+ member "tax_category" (str "Transfer") +:+ "}]")
      +:+ "}".

Definition withdrawal_value : json :=
  JObj (<["date" := JStr "03/15"]>
       (<["description" := JStr "ACME"]>
       (<["amount" := JNum (Int 12)]>
       (<["tax_category" := JStr "Transfer"]> ∅)))).

Definition payload_dict : gmap string json :=
  <["account_number" := JStr "000000954291234"]>
  (<["statement_date" := JStr "03/31/2024"]>
  (<["period_start" := JStr "03/01/2024"]>
  (<["period_end" := JStr "03/31/2024"]>
  (<["beginning_balance" := JNum (Int 100)]>
  (<["ending_balance" := JNum (Int 88)]>
  (<["total_fees" := JNum (Int 0)]>
  (<["filename" := JStr "20240315-statements-1234-foo.pdf"]>
  (<["withdrawals" := JArr [withdrawal_value]]> ∅)))))))).
Definition payload_value : json := JObj payload_dict.

Definition digit_val (c : ascii) : Z := Z.of_nat (Ascii.nat_of_ascii c) - 48.
Fixpoint number_of (acc : Z) (s : string) : option Z :=
  match s with
  | EmptyString => Some acc
  | String c s' =>
      if Py.is_digit c then number_of (10 * acc + digit_val c) s' else None
  end.

Definition leap (y : Z) : bool :=
  ((y mod 4 =? 0) && (negb (y mod 100 =? 0) || (y mod 400 =? 0)))%bool.
Definition days_in_month (y m : Z) : Z :=
  if m =? 2 then (if leap y then 29 else 28)
  else if ((m =? 4) || (m =? 6) || (m =? 9) || (m =? 11))%bool then 30 else 31.

(** [strptime] with format [%m/%d/%Y] on texts of the shape [MM/DD/YYYY]
    (two, two and four digits). *)
Definition strptime_mdY (s : string) : option date :=
  match Py.split "/" s with
  | [m; d; y] =>
      if (Nat.eqb (String.length m) 2 && Nat.eqb (String.length d) 2
          && Nat.eqb (String.length y) 4)%bool
      then
        match number_of 0 m, number_of 0 d, number_of 0 y with
        | Some m, Some d, Some y =>
            if ((1 <=? m) && (m <=? 12) && (1 <=? d) && (d <=? days_in_month y m)
                && (1 <=? y))%bool
            then Some {| year := y; month := m; day := d |} else None
        | _, _, _ => None
        end
      else None
  | _ => None
  end.

Definition loads (known : list (string * json)) (s : string) : option json :=
  snd <$> List.find (fun kv => String.eqb (fst kv) s) known.

(** The library of the sample: [json.loads] by table, and the conversion
    of an integer amount to a float, exact for the small integers used
    here. *)
Definition lib (known : list (string * json)) : Lib :=
  {| json_loads := loads known;
     strptime := strptime_mdY;
     lax_float := fun j => match j with
                           | JNum (Int z) => Some (Float (Finite z 0))
                           | _ => None
                           end;
     lax_decimal := fun _ => None;
     py_str := fun _ => "?";
     exn_str := fun e => match e with ValueError msg => msg | _ => "error" end;
     human_prompt := fun filename text => Ok (filename +:+ ": " +:+ text) |}.

(** Collaborators that answer the same at every call. *)
Definition oracle (primary fallback : res string) (listing : list string)
    (refused : op -> option exn) : Oracle :=
  {| invoke := fun _ m _ => match m with Primary => primary | Fallback => fallback end;
     pdf_text := fun _ _ => Some "text of the statement";
     glob := fun _ _ _ => Some listing;
     row_id := fun w o =>
       match o with
       | OpInsertStatement _ => Z.of_nat (length (banking_statements (db w))) + 1
       | OpInsertDeposit _ => Z.of_nat (length (deposits (db w))) + 1
       | OpInsertWithdrawal _ => Z.of_nat (length (withdrawals (db w))) + 1
       | _ => 0
       end;
     fails := fun _ => refused |}.

Definition account : AccountReference.t :=
  {| AccountReference.id := 7;
     AccountReference.account_number := "000000954291234";
     AccountReference.company_name := "Acme";
     AccountReference.bank_name := "Bank";
     AccountReference.account_type := "Checking" |}.

Definition world0 : World :=
  {| db := {| account_references := [account]; banking_statements := [];
              deposits := []; withdrawals := [] |};
     fs := ∅; calls := []; out := []; clock := O |}.

Definition pdf : string := "20240315-statements-1234-foo.pdf".

(** A withdrawal whose category is none of the seven. *)
Definition unknown_withdrawal : json :=
  JObj (<["date" := JStr "03/15/2024"]>
       (<["description" := JStr "ACME"]>
       (<["amount" := JNum (Float (Finite 25 (-1)))]>
       (<["tax_category" := JStr "Unknown"]> ∅)))).

(** A payload that has a key [data] of its own, bare and in an envelope. *)
Definition nested_text : string := "{" +:+ member "data" "1" +:+ "}".
Definition nested_value : json := JObj (<["data" := JNum (Int 1)]> ∅).
Definition envelope_text : string :=
  "{" +:+ member "status" (str "success") +:+ ", "
      +:+ member "data" nested_text +:+ ", "
      +:+ member "error" "null" +:+ "}".
Definition envelope_of (payload : json) : gmap string json :=
  <["status" := JStr "success"]> (<["data" := payload]> (<["error" := JNull]> ∅)).
Definition payload_envelope_text : string :=
  "{" +:+ member "status" (str "success") +:+ ", "
      +:+ member "data" payload_text +:+ ", "
      +:+ member "error" "null" +:+ "}".

(** The dictionary of [payload_value] as the schema receives it. *)
Definition prepared_dict : gmap string json :=
  <["filename" := JStr "1234-03-2024.pdf"]>
  (<["withdrawals" :=
       JArr [JObj (<["date" := JStr "03/15/2024"]>
                   (<["description" := JStr "ACME"]>
                   (<["amount" := JNum (Int 12)]>
                   (<["tax_category" := JStr "Transfer"]> ∅))))]]>
     payload_dict).

Definition L0 : Lib :=
  lib [(payload_text, payload_value);
       (payload_envelope_text, JObj (envelope_of payload_value));
       (nested_text, nested_value);
       (envelope_text, JObj (envelope_of nested_value))].

Definition never : op -> option exn := fun _ => None.
Definition rate_limit : exn := OtherError "RateLimitError".

(** Both models answer with the payload; nothing is refused. *)
Definition O_ok (listing : list string) : Oracle :=
  oracle (Ok payload_text) (Ok payload_text) listing never.
(** The server refuses every withdrawal row. *)
Definition integrity : exn := OtherError "IntegrityError".
Definition O_no_withdrawals : Oracle :=
  oracle (Ok payload_text) (Ok payload_text) [pdf]
    (fun o => match o with OpInsertWithdrawal _ => Some integrity | _ => None end).
(** The operating system refuses every rename. *)
Definition permission : exn := OtherError "PermissionError".
Definition O_no_rename : Oracle :=
  oracle (Ok payload_text) (Ok payload_text) [pdf]
    (fun o => match o with OpRename _ _ => Some permission | _ => None end).
(** The payload staged as a JSON artifact, nothing in the database yet. *)
Definition staged_name : string := "1234030315.json".
Definition world_staged : World :=
  {| db := db world0; fs := {[ staging ++ [staged_name] := payload_value ]};
     calls := []; out := []; clock := O |}.
(** Both models raise. *)
Definition O_down : Oracle :=
  oracle (Raise rate_limit) (Raise rate_limit) [pdf] never.

End Sample.

(** ** Text extraction ([utils/pdf.py])

    A reader (pdfplumber, then pypdf) is given by what it does on the
    document: opening it may raise, and so may every page; a page gives a
    text or none. *)

Module Pdf.

Definition page : Type := res (option string).
Definition document : Type := res (list page).

(** [text += page.extract_text() or "" + "\n"]: the sum binds tighter than
    [or], so a newline is added only for a page without text. *)
Definition add_page (text : string) (t : option string) : string :=
  match t with
  | Some s => if String.eqb s "" then text +:+ Re.nl else text +:+ s
  | None => text +:+ Re.nl
  end.

(** The loop over the pages: the text gathered, and the exception that
    ended the loop, if one did. *)
Fixpoint gather (text : string) (pages : list page) : string * option exn :=
  match pages with
  | [] => (text, None)
  | Ok t :: rest => gather (add_page text t) rest
  | Raise e :: _ => (text, Some e)
  end.

Definition read (text : string) (doc : document) : string * option exn :=
  match doc with
  | Ok pages => gather text pages
  | Raise e => (text, Some e)
  end.

(** [not text.strip()] *)
Definition blank (text : string) : bool := String.eqb (Py.strip text) "".

(** [extract_text_from_pdf]: the variable [text] is shared by the two
    attempts.  After the second reader, whether it raised or not, the text
    is returned stripped unless it is blank; the [ValueError] raised for a
    blank text is caught by the outer handler, which returns [None]. *)
Definition extract_text_from_pdf (pdfplumber pypdf : document) : option string :=
  let text := EmptyString in
  let (text, raised) := read text pdfplumber in
  if (bool_decide (raised = None) && negb (blank text))%bool
  then Some (Py.strip text)
  else
    let (text, _) := read text pypdf in
    if negb (blank text) then Some (Py.strip text) else None.

End Pdf.

(** ** The method [_store_statement_data] of the agent *)

(** [json.dumps(data.dict())]: the dictionary of a [StatementData] holds
    its three amounts as [Decimal] values, which the encoder of
    [json.dumps] does not know; it raises [TypeError]. *)
Definition dumps_dict (data : StatementData.t) : res json := Raise TypeError.

Section StoreStatementData.

Variable L : Lib.
Variable O : Oracle.

Definition _store_statement_data (data : StatementData.t) : M unit :=
  try_except
    (account_ref <- fetch_account_reference O (StatementData.account_number data) ;;
     match account_ref with
     | None =>
         raise (ValueError ("Account not found: " +:+ StatementData.account_number data))
     | Some account_ref =>
         statement_date <- parse_date L (StatementData.statement_date data) ;;
         period_start <- parse_date L (StatementData.period_start data) ;;
         period_end <- parse_date L (StatementData.period_end data) ;;
         raw_data <- lift (dumps_dict data) ;;
         statement_id <-
           insert_statement O
             {| Statement.account_reference_id := AccountReference.id account_ref;
                Statement.statement_date := statement_date;
                Statement.period_start := period_start;
                Statement.period_end := period_end;
                Statement.beginning_balance := StatementData.beginning_balance data;
                Statement.ending_balance := StatementData.ending_balance data;
                Statement.total_fees := StatementData.total_fees data;
                Statement.filename := StatementData.filename data;
                Statement.important_notes := StatementData.important_notes data;
                Statement.raw_data := raw_data |} ;;
         store_items L O statement_id data
     end)
    (fun e => say (ErrorLine e) ;;; raise e).

End StoreStatementData.

(** ** Observations of a run *)

(** The tables after a run hold the rows they held before, in the same
    places, and possibly more; the accounts are the same. *)
Definition grows (w w' : World) : Prop :=
  account_references (db w') = account_references (db w)
  /\ banking_statements (db w) `prefix_of` banking_statements (db w')
  /\ deposits (db w) `prefix_of` deposits (db w')
  /\ withdrawals (db w) `prefix_of` withdrawals (db w').

(** At most [n] completion calls were added, and none was forgotten. *)
Definition calls_within (n : nat) (w w' : World) : Prop :=
  exists cs, calls w' = calls w ++ cs /\ (length cs <= n)%nat.

(** A computation respects a relation when the relation holds between the
    world before and the world after, whether it returns or raises. *)
Definition respects {A} (R : World -> World -> Prop) (m : M A) : Prop :=
  forall w, R w (m w).2.

Definition within {A} (n : nat) (m : M A) : Prop :=
  forall w, calls_within n w (m w).2.

(** What is stored of a line item, apart from its statement and its date. *)
Definition deposit_content (r : Z * Deposit.t) : string * number :=
  (Deposit.description r.2, Deposit.amount r.2).
Definition withdrawal_content (r : Z * Withdrawal.t) : string * number * string :=
  (Withdrawal.description r.2, Withdrawal.amount r.2, Withdrawal.tax_category r.2).
Definition deposit_validated (x : DepositTransaction.t) : string * number :=
  (DepositTransaction.description x, DepositTransaction.amount x).
Definition withdrawal_validated (x : WithdrawalTransaction.t) : string * number * string :=
  (WithdrawalTransaction.description x, WithdrawalTransaction.amount x,
   WithdrawalTransaction.tax_category x).

(** ** More sample data *)

Module Cases.

(** No account is known. *)
Definition world_no_account : World :=
  {| db := {| account_references := []; banking_statements := [];
              deposits := []; withdrawals := [] |};
     fs := ∅; calls := []; out := []; clock := O |}.

(** The model answers with a payload that is no statement. *)
Definition O_nested : Oracle :=
  Sample.oracle (Ok Sample.nested_text) (Ok Sample.nested_text) ["notes.pdf"]
    Sample.never.

(** The database does not answer the existence query. *)
Definition timeout : exn := OtherError "OperationalError".
Definition O_no_query : Oracle :=
  Sample.oracle (Ok Sample.payload_text) (Ok Sample.payload_text) [Sample.pdf]
    (fun o => match o with OpExists _ => Some timeout | _ => None end).

(** No reader gets a text out of any document. *)
Definition O_unreadable : Oracle :=
  {| invoke := fun _ _ _ => Ok Sample.payload_text;
     pdf_text := fun _ _ => None;
     glob := fun _ _ _ => Some [Sample.pdf];
     row_id := fun _ _ => 1;
     fails := fun _ => Sample.never |}.

(** The statement of the sample, validated. *)
Definition parsed : StatementData.t :=
  {| StatementData.account_number := "000000954291234";
     StatementData.statement_date := "03/31/2024";
     StatementData.period_start := "03/01/2024";
     StatementData.period_end := "03/31/2024";
     StatementData.beginning_balance := Int 100;
     StatementData.ending_balance := Int 88;
     StatementData.total_fees := Int 0;
     StatementData.filename := "1234-03-2024.pdf";
     StatementData.important_notes := "";
     StatementData.deposits := [];
     StatementData.withdrawals :=
       [ {| WithdrawalTransaction.date := "03/15/2024";
            WithdrawalTransaction.description := "ACME";
            WithdrawalTransaction.amount := Float (Finite 12 0);
            WithdrawalTransaction.tax_category := "Transfer" |} ] |}.

End Cases.

(** ** The schema, read as a contract *)

(** The fields of [StatementData] declared without a default. *)
Definition required_fields : list string :=
  [ "account_number"; "statement_date"; "period_start"; "period_end";
    "beginning_balance"; "ending_balance"; "total_fees"; "filename" ].

(** The constraints the two line-item models put on their fields. *)
Definition deposit_ok (x : DepositTransaction.t) : Prop :=
  Pattern.date (DepositTransaction.date x) = true
  /\ Pattern.description (DepositTransaction.description x) = true
  /\ gt0 (DepositTransaction.amount x) = true.
Definition withdrawal_ok (x : WithdrawalTransaction.t) : Prop :=
  Pattern.date (WithdrawalTransaction.date x) = true
  /\ Pattern.description (WithdrawalTransaction.description x) = true
  /\ gt0 (WithdrawalTransaction.amount x) = true.

(** ** The command line ([cli.py]) *)

Module Cli.

(** The cleaning of the response in [create_json_files]: when the content
    starts with a fence, three replacements in a row. *)
Definition clean (content : string) : string :=
  if Py.startswith Re.fence content
  then Py.replace Re.fence ""
         (Py.replace (Re.fence +:+ Re.nl) ""
            (Py.replace (Re.fence +:+ "json" +:+ Re.nl) "" content))
  else content.

End Cli.

(** * Properties *)

(** ** Strings *)

Module PyFacts.

Example split_ex : Py.split "/" "03/31/2024" = ["03"; "31"; "2024"].
Proof. reflexivity. Qed.
Example search_ex :
  Re.search Re.pat_date8 "x20240315-statements-1234-foo.pdf"
  = Some "20240315-statements-1234-foo.pdf".
Proof. reflexivity. Qed.
Example replace_ex : Py.replace ".pdf" ".json" "a.pdf.pdfx" = "a.json.jsonx".
Proof. reflexivity. Qed.
Example unfence_ex :
  Re.unfence ("```json" +:+ Re.nl +:+ "{}" +:+ Re.nl +:+ "```") = "{}".
Proof. reflexivity. Qed.

Lemma split_nonempty c s : Py.split c s <> [].
Proof.
  destruct s as [|a s]; simpl; [discriminate|].
  destruct (Ascii.eqb a c); [discriminate|].
  destruct (Py.split c s); discriminate.
Qed.

Lemma split_length c s : length (Py.split c s) = S (Py.count c s).
Proof.
  induction s as [|a s IH]; simpl; [reflexivity|].
  destruct (Ascii.eqb a c); simpl; [by rewrite IH|].
  destruct (Py.split c s) eqn:E; simpl in *; [discriminate | exact IH].
Qed.

Lemma contains_count c s : Py.contains c s = negb (Nat.eqb (Py.count c s) 0).
Proof.
  induction s as [|a s IH]; simpl; [reflexivity|].
  destruct (Ascii.eqb a c); [reflexivity | exact IH].
Qed.

Lemma app_cons a (s t : string) : String a s +:+ t = String a (s +:+ t).
Proof. reflexivity. Qed.

Lemma app_nil (t : string) : "" +:+ t = t.
Proof. reflexivity. Qed.

Lemma count_app c s t : Py.count c (s +:+ t) = (Py.count c s + Py.count c t)%nat.
Proof.
  induction s as [|a s IH]; [reflexivity|].
  rewrite app_cons. simpl. destruct (Ascii.eqb a c); simpl; by rewrite IH.
Qed.

(** The last component of a split holds no separator. *)
Lemma count_last_split c s : Py.count c (Py.last (Py.split c s)) = O.
Proof.
  unfold Py.last.
  induction s as [|a s IH]; simpl; [reflexivity|].
  destruct (Ascii.eqb a c) eqn:Ea.
  - destruct (Py.split c s) eqn:E; [by apply split_nonempty in E | exact IH].
  - destruct (Py.split c s) as [|w ws] eqn:E; [by apply split_nonempty in E|].
    destruct ws as [|w' ws]; simpl in *; [by rewrite Ea | exact IH].
Qed.

(** [x in s and len(s.split(x)) == 2] holds when [s] has one separator. *)
Lemma two_parts c s :
  (Py.contains c s && Nat.eqb (length (Py.split c s)) 2)%bool
  = Nat.eqb (Py.count c s) 1.
Proof.
  rewrite contains_count, split_length.
  destruct (Py.count c s) as [|[|n]]; reflexivity.
Qed.

Lemma app_assoc (s t u : string) : (s +:+ t) +:+ u = s +:+ t +:+ u.
Proof. induction s as [|a s IH]; [reflexivity | by rewrite !app_cons, IH]. Qed.

Lemma app_empty_r (s : string) : s +:+ "" = s.
Proof. induction s as [|a s IH]; [reflexivity | by rewrite app_cons, IH]. Qed.

Lemma length_app (s t : string) :
  String.length (s +:+ t) = (String.length s + String.length t)%nat.
Proof.
  induction s as [|a s IH]; [reflexivity|].
  rewrite app_cons. simpl. by rewrite IH.
Qed.

Lemma rev_app_spec (s acc : string) : String.rev_app s acc = String.rev s +:+ acc.
Proof.
  unfold String.rev. revert acc.
  induction s as [|a s IH]; intros acc; simpl; [reflexivity|].
  rewrite (IH (String a acc)), (IH (String a "")), app_assoc. reflexivity.
Qed.

Lemma rev_cons a (s : string) : String.rev (String a s) = String.rev s +:+ String a "".
Proof. unfold String.rev at 1. simpl. apply rev_app_spec. Qed.

Lemma rev_app (s t : string) : String.rev (s +:+ t) = String.rev t +:+ String.rev s.
Proof.
  induction s as [|a s IH].
  - by rewrite app_nil, app_empty_r.
  - by rewrite app_cons, !rev_cons, IH, app_assoc.
Qed.

Lemma rev_involutive (s : string) : String.rev (String.rev s) = s.
Proof.
  induction s as [|a s IH]; [reflexivity|].
  by rewrite rev_cons, rev_app, IH.
Qed.

Lemma startswith_app (p s : string) : Py.startswith p (p +:+ s) = true.
Proof.
  induction p as [|a p IH]; [reflexivity|].
  rewrite app_cons. simpl. by rewrite Ascii.eqb_refl.
Qed.

Lemma endswith_app (p s : string) : Py.endswith p (s +:+ p) = true.
Proof. unfold Py.endswith. rewrite rev_app. apply startswith_app. Qed.

Lemma take_app (s t : string) : Py.take (String.length s) (s +:+ t) = s.
Proof.
  induction s as [|a s IH]; [by destruct t|].
  rewrite app_cons. simpl. by rewrite IH.
Qed.

Lemma strip_suffix_app (p s : string) : Re.strip_suffix p (s +:+ p) = Some s.
Proof.
  unfold Re.strip_suffix. rewrite endswith_app, length_app.
  replace (String.length s + String.length p - String.length p)%nat
    with (String.length s) by lia.
  by rewrite take_app.
Qed.

(** A text that begins and ends with a character that is no white space
    is its own [strip]. *)
Lemma strip_id a b (s : string) :
  Py.is_space a = false -> Py.is_space b = false ->
  Py.strip (String a (s +:+ String b "")) = String a (s +:+ String b "").
Proof.
  intros Ha Hb.
  assert (Hl : forall c t, Py.is_space c = false ->
                           Py.lstrip (String c t) = String c t).
  { intros c t Hc. simpl. by rewrite Hc. }
  unfold Py.strip. rewrite Hl by done.
  rewrite rev_cons, rev_app.
  change (String.rev (String b "")) with (String b "").
  rewrite app_assoc, app_cons, app_nil, Hl by done.
  rewrite rev_cons, rev_app, rev_involutive.
  change (String.rev (String a "")) with (String a "").
  by rewrite app_assoc.
Qed.

End PyFacts.

(** ** Computations *)

Lemma bind_ok {A B} (m : M A) (k : A -> M B) w a w' :
  m w = (Ok a, w') -> bind m k w = k a w'.
Proof. intros H. unfold bind. by rewrite H. Qed.

Lemma bind_raise {A B} (m : M A) (k : A -> M B) w e w' :
  m w = (Raise e, w') -> bind m k w = (Raise e, w').
Proof. intros H. unfold bind. by rewrite H. Qed.

Lemma try_ok {A} (m : M A) h w a w' :
  m w = (Ok a, w') -> try_except m h w = (Ok a, w').
Proof. intros H. unfold try_except. by rewrite H. Qed.

Lemma try_raise {A} (m : M A) h w e w' :
  m w = (Raise e, w') -> try_except m h w = h e w'.
Proof. intros H. unfold try_except. by rewrite H. Qed.

(** A computation keeps an observation [f] of the world when [f] reads the
    same before and after, whether the computation returns or raises. *)
Definition keeps {A B} (f : World -> B) (m : M A) : Prop :=
  forall w, f (snd (m w)) = f w.

(** Observations that do not look at the log or the clock. *)
Definition quiet {B} (f : World -> B) : Prop :=
  (forall w, f (tick w) = f w) /\ (forall m w, f (add_out m w) = f w).

Section Keeps.

Context {B : Type} (f : World -> B).

Lemma keeps_ret {A} (a : A) : keeps f (ret a).
Proof. by intros w. Qed.

Lemma keeps_raise {A} e : keeps f (@raise A e).
Proof. by intros w. Qed.

Lemma keeps_lift {A} (r : res A) : keeps f (lift r).
Proof. by intros w. Qed.

Lemma keeps_bind {A C} (m : M A) (k : A -> M C) :
  keeps f m -> (forall a, keeps f (k a)) -> keeps f (bind m k).
Proof.
  intros Hm Hk w. unfold bind. specialize (Hm w).
  destruct (m w) as [[a|e] w1]; simpl in *; [|done].
  by rewrite Hk.
Qed.

Lemma keeps_try {A} (m : M A) h :
  keeps f m -> (forall e, keeps f (h e)) -> keeps f (try_except m h).
Proof.
  intros Hm Hh w. unfold try_except. specialize (Hm w).
  destruct (m w) as [[a|e] w1]; simpl in *; [done|].
  by rewrite Hh.
Qed.

Lemma keeps_for_each {A} (g : A -> M unit) l :
  (forall x, keeps f (g x)) -> keeps f (for_each g l).
Proof.
  intros Hg. induction l as [|x l IH]; simpl; [apply keeps_ret|].
  apply keeps_bind; [apply Hg | intros _; apply IH].
Qed.

Hypothesis Hq : quiet f.

Lemma keeps_say m : keeps f (say m).
Proof. intros w. apply Hq. Qed.

Lemma keeps_attempt O o : keeps f (attempt O o).
Proof. intros w. unfold attempt. destruct (fails O w o); apply Hq. Qed.

Lemma keeps_read_db {A} (g : Db -> A) : keeps f (read_db g).
Proof. by intros w. Qed.

Lemma keeps_fetch O n : keeps f (fetch_account_reference O n).
Proof.
  apply keeps_bind; [apply keeps_attempt | intros _; apply keeps_read_db].
Qed.

Lemma keeps_check O n : keeps f (check_statement_exists O n).
Proof.
  apply keeps_try.
  - apply keeps_bind; [apply keeps_attempt | intros _; apply keeps_read_db].
  - intros e. apply keeps_bind; [apply keeps_say | intros _; apply keeps_ret].
Qed.

Lemma keeps_list_dir O d e : keeps f (list_dir O d e).
Proof. intros w. unfold list_dir. destruct (fails O w (OpList d)); apply Hq. Qed.

Lemma keeps_exists_file O p : keeps f (exists_file O p).
Proof. apply keeps_bind; [apply keeps_attempt | by intros _ w]. Qed.

Lemma keeps_build_row L O d p : keeps f (build_row L O d p).
Proof.
  apply keeps_bind; [apply keeps_fetch|]. intros [a|]; [|apply keeps_raise].
  repeat (apply keeps_bind; [apply keeps_lift | intros ?]). apply keeps_ret.
Qed.

End Keeps.

Lemma quiet_calls : quiet calls.
Proof. by split. Qed.
Lemma quiet_fs : quiet fs.
Proof. by split. Qed.
Lemma quiet_db : quiet db.
Proof. by split. Qed.
Lemma quiet_statements : quiet (fun w => banking_statements (db w)).
Proof. by split. Qed.

(** What writes to a table or to the disk leaves the other observations. *)
Section KeepsWrites.

Context {B : Type} (f : World -> B).
Hypothesis Hq : quiet f.

Section Db.
Hypothesis Hdb : forall g w, f (set_db g w) = f w.

Lemma keeps_insert_statement O r : keeps f (insert_statement O r).
Proof.
  apply keeps_bind; [by apply keeps_attempt | intros _ w; apply Hdb].
Qed.
Lemma keeps_insert_deposit O r : keeps f (insert_deposit O r).
Proof.
  apply keeps_bind; [by apply keeps_attempt | intros _ w; apply Hdb].
Qed.
Lemma keeps_insert_withdrawal O r : keeps f (insert_withdrawal O r).
Proof.
  apply keeps_bind; [by apply keeps_attempt | intros _ w; apply Hdb].
Qed.
End Db.

Section Fs.
Hypothesis Hfs : forall g w, f (set_fs g w) = f w.

Lemma keeps_write O p v : keeps f (write_json O p v).
Proof.
  apply keeps_bind; [by apply keeps_attempt | intros _ w; apply Hfs].
Qed.
Lemma keeps_rename O p p' : keeps f (rename O p p').
Proof.
  apply keeps_bind; [by apply keeps_attempt | intros _ w].
  destruct (fs w !! p) eqn:E; [apply Hfs | done].
Qed.
End Fs.

End KeepsWrites.

Section KeepsAgent.

Context {B : Type} (f : World -> B).
Hypothesis Hq : quiet f.
Variable L : Lib.
Variable O : Oracle.

Lemma keeps_get_truthy data key msg : keeps f (get_truthy data key msg).
Proof.
  unfold get_truthy. destruct data; try apply keeps_raise.
  destruct (d !! key) as [v|]; [|apply keeps_raise].
  destruct (truthy v); [apply keeps_ret | apply keeps_raise].
Qed.

Section NoDb.
Hypothesis Hdb : forall g w, f (set_db g w) = f w.

Lemma keeps_store_items id p : keeps f (store_items L O id p).
Proof.
  apply keeps_bind; [|intros _]; apply keeps_for_each; intros x;
    (apply keeps_bind; [apply keeps_lift | intros ?]);
    (apply keeps_bind; [|intros _; apply keeps_ret]).
  - by apply keeps_insert_deposit.
  - by apply keeps_insert_withdrawal.
Qed.

Lemma keeps_store d p : keeps f (store L O d p).
Proof.
  apply keeps_bind; [by apply keeps_build_row | intros row].
  apply keeps_bind; [by apply keeps_insert_statement | intros id].
  apply keeps_store_items.
Qed.

Lemma keeps_process_json_data data : keeps f (_process_json_data L O data).
Proof.
  apply keeps_try.
  - apply keeps_bind; [apply keeps_lift | intros d].
    apply keeps_bind.
    + unfold validate. destruct validate_statement; [apply keeps_ret | apply keeps_raise].
    + intros p. apply keeps_bind; [apply keeps_store | intros _; apply keeps_ret].
  - intros e. apply keeps_bind; [by apply keeps_say | intros _; apply keeps_raise].
Qed.
End NoDb.

Section NoFs.
Hypothesis Hfs : forall g w, f (set_fs g w) = f w.

Lemma keeps_move_body data p : keeps f (move_body O data p).
Proof.
  apply keeps_bind; [apply keeps_get_truthy | intros v].
  destruct v; try apply keeps_raise.
  apply keeps_bind; [by apply keeps_fetch | intros [a|]]; [|apply keeps_raise].
  apply keeps_bind; [apply keeps_get_truthy | intros sd].
  apply keeps_bind; [apply keeps_lift | intros parts].
  apply keeps_bind; [by apply keeps_attempt | intros _].
  by apply keeps_rename.
Qed.

Lemma keeps_move_json data p : keeps f (move_json O data p).
Proof.
  apply keeps_try; [apply keeps_move_body | intros e].
  apply keeps_bind; [by apply keeps_say | intros _; apply keeps_ret].
Qed.

Lemma keeps_save name data : keeps f (_save_json_response O name data).
Proof.
  apply keeps_bind; [apply keeps_lift | intros n].
  apply keeps_bind; [by apply keeps_attempt | intros _].
  apply keeps_bind; [by apply keeps_write | intros _; apply keeps_ret].
Qed.
End NoFs.

End KeepsAgent.

(** Line items are written to their own tables. *)
Lemma store_items_keeps_statements L O id p :
  keeps (fun w => banking_statements (db w)) (store_items L O id p).
Proof.
  pose proof quiet_statements as Hq.
  apply keeps_bind; [|intros _]; apply keeps_for_each; intros x;
    (apply keeps_bind; [apply keeps_lift | intros ?]);
    (apply keeps_bind; [|intros _; apply keeps_ret]);
    (apply keeps_bind; [by apply keeps_attempt | by intros _ w]).
Qed.

(** After the response has arrived, no model is called. *)
Lemma after_response_keeps_calls L O filename content :
  keeps calls
    (data_content <- lift (parse_response L content) ;;
     json_path <- _save_json_response O filename data_content ;;
     data_content <- _process_json_data L O data_content ;;
     move_json O data_content json_path).
Proof.
  pose proof quiet_calls as Hq.
  apply keeps_bind; [apply keeps_lift | intros d].
  apply keeps_bind; [by apply keeps_save | intros p].
  apply keeps_bind; [by apply keeps_process_json_data | intros d'].
  by apply keeps_move_json.
Qed.

(** C4. When the call of the primary model raises, [process_statement]
    calls the fallback model once, with the same messages, and calls no
    model after it; when that call raises too, its exception leaves
    [process_statement] and neither the database nor the disk was written. *)
Theorem C4_fallback_once_then_failure L O filename text prompt e w :
  human_prompt L filename text = Ok prompt ->
  invoke O w Primary prompt = Raise e ->
  let w1 := add_out (PrimaryFailed e) (tick (add_call (Primary, prompt) w)) in
  let run := process_statement L O filename text w in
  calls run.2 = calls w ++ [(Primary, prompt); (Fallback, prompt)]
  /\ (forall e2, invoke O w1 Fallback prompt = Raise e2 ->
        run.1 = Raise e2 /\ db run.2 = db w /\ fs run.2 = fs w).
Proof.
  intros Hp He w1 run. subst run.
  unfold process_statement. rewrite Hp.
  change (bind (lift (Ok prompt)) ?k w) with (k prompt w). cbv beta.
  set (rest := fun content : string => bind (lift (parse_response L content)) _).
  set (handler := fun e0 : exn => bind (say (ErrorLine e0)) _).
  assert (Hresp : get_response O prompt w
                  = (invoke O w1 Fallback prompt, tick (add_call (Fallback, prompt) w1))).
  { unfold get_response, try_except, call_model. rewrite He. reflexivity. }
  unfold try_except, bind. rewrite Hresp.
  destruct (invoke O w1 Fallback prompt) as [content|e2] eqn:Hf.
  - split; [|intros e2 [=]].
    pose proof (after_response_keeps_calls L O filename content
                  (tick (add_call (Fallback, prompt) w1))) as Hk.
    fold (rest content) in Hk.
    destruct (rest content _) as [[[]|e3] w3]; simpl in *;
      rewrite Hk, <- app_assoc; reflexivity.
  - split; [simpl; by rewrite <- app_assoc|].
    intros e3 [= <-]. subst handler. unfold bind, say, raise. simpl. done.
Qed.

(** An observation kept by every run that ends in an exception. *)
Definition keeps_on_raise {A B} (f : World -> B) (m : M A) : Prop :=
  forall w e w', m w = (Raise e, w') -> f w' = f w.

Lemma keeps_on_raise_of_keeps {A B} (f : World -> B) (m : M A) :
  keeps f m -> keeps_on_raise f m.
Proof. intros H w e w' E. specialize (H w). by rewrite E in H. Qed.

Lemma keeps_on_raise_bind {A C B} (f : World -> B) (m : M A) (k : A -> M C) :
  keeps f m -> (forall a, keeps_on_raise f (k a)) -> keeps_on_raise f (bind m k).
Proof.
  intros Hm Hk w e w' E. unfold bind in E. specialize (Hm w).
  destruct (m w) as [[a|e1] w1]; simpl in *.
  - rewrite <- Hm. by eapply Hk.
  - by injection E as <- <-.
Qed.

(** A refused or impossible [rename] moves nothing. *)
Lemma rename_keeps_fs_on_raise O src dst : keeps_on_raise fs (rename O src dst).
Proof.
  intros w e w' E. unfold rename, bind, attempt in E.
  destruct (fails O w (OpRename src dst)); [by injection E as <- <-|].
  simpl in E. destruct (fs w !! src); [discriminate | by injection E as <- <-].
Qed.

Lemma move_body_keeps_fs_on_raise O data p : keeps_on_raise fs (move_body O data p).
Proof.
  pose proof quiet_fs as Hq. unfold move_body.
  apply keeps_on_raise_bind; [by apply keeps_get_truthy | intros v].
  destruct v; try (apply keeps_on_raise_of_keeps, keeps_raise).
  apply keeps_on_raise_bind; [by apply keeps_fetch | intros [a|]];
    [|apply keeps_on_raise_of_keeps, keeps_raise].
  apply keeps_on_raise_bind; [by apply keeps_get_truthy | intros sd].
  apply keeps_on_raise_bind; [apply keeps_lift | intros parts].
  apply keeps_on_raise_bind; [by apply keeps_attempt | intros _].
  apply rename_keeps_fs_on_raise.
Qed.

Lemma insert_statement_ok O row w id w' :
  insert_statement O row w = (Ok id, w') ->
  banking_statements (db w') = banking_statements (db w) ++ [(id, row)].
Proof.
  unfold insert_statement, bind, attempt.
  destruct (fails O w (OpInsertStatement row)); [discriminate|].
  simpl. by intros [= <- <-].
Qed.

Lemma save_ok O name data w p w' :
  _save_json_response O name data w = (Ok p, w') ->
  fs w' !! p = Some data /\ exists n, p = staging ++ [n].
Proof.
  unfold _save_json_response, write_json, attempt, bind, lift, ret.
  destruct (json_filename_of name data) as [n|]; [|discriminate].
  destruct (fails O w (OpMkdir staging)); simpl; [discriminate|].
  destruct (fails O (tick w) _); simpl; [discriminate|].
  intros [= <- <-]. split; [|by exists n].
  simpl. apply lookup_insert_eq.
Qed.

(** How [_process_json_data] runs once its first half has succeeded. *)
Lemma process_json_data_unfold L O data d parsed w :
  prepare (py_str L) data = Ok d ->
  validate_statement (lax_float L) (lax_decimal L) d = Valid parsed ->
  _process_json_data L O data w
  = try_except (store L O d parsed ;;; ret (JObj d))
      (fun e => say (ErrorLine e) ;;; raise e) w.
Proof.
  intros Hp Hv. unfold _process_json_data, try_except, bind at 1 2, lift, validate.
  rewrite Hp, Hv. reflexivity.
Qed.

(** C7. Once [insert_statement] has returned, a line-item insert that
    raises leaves the statement row in its table: the exception leaves
    [_process_json_data], and the directory loop turns it into an [error]
    record for that document. *)
Theorem C7_statement_row_survives_line_item_failure
    L O data d parsed row id e w w0 w1 w2 :
  prepare (py_str L) data = Ok d ->
  validate_statement (lax_float L) (lax_decimal L) d = Valid parsed ->
  build_row L O d parsed w = (Ok row, w0) ->
  insert_statement O row w0 = (Ok id, w1) ->
  store_items L O id parsed w1 = (Raise e, w2) ->
  let run := _process_json_data L O data w in
  run.1 = Raise e
  /\ banking_statements (db run.2) = banking_statements (db w) ++ [(id, row)]
  /\ (forall json_dir name wa,
        read_json O (json_dir ++ [name]) wa = (Ok data, w) ->
        let step := json_step L O json_dir name wa in
        step.1 = Ok [error name (exn_str L e)]
        /\ banking_statements (db step.2) = banking_statements (db w) ++ [(id, row)]).
Proof.
  intros Hp Hv Hb Hi Hs run.
  assert (Hrun : run = (Raise e, add_out (ErrorLine e) w2)).
  { subst run. rewrite (process_json_data_unfold _ _ _ _ _ _ Hp Hv).
    erewrite try_raise; [reflexivity|].
    apply bind_raise. unfold store.
    erewrite bind_ok by exact Hb. erewrite bind_ok by exact Hi. exact Hs. }
  assert (Hrows : banking_statements (db w2) = banking_statements (db w) ++ [(id, row)]).
  { pose proof (store_items_keeps_statements L O id parsed w1) as H2.
    rewrite Hs in H2. simpl in H2. rewrite H2.
    rewrite (insert_statement_ok _ _ _ _ _ Hi).
    pose proof (keeps_build_row db quiet_db L O d parsed w) as H0.
    rewrite Hb in H0. simpl in H0. by rewrite H0. }
  rewrite Hrun. split; [done|]. split; [exact Hrows|].
  intros json_dir name wa Hr step. subst step.
  unfold json_step, process_json_file.
  erewrite try_raise.
  2:{ apply bind_raise. erewrite try_raise.
      2:{ erewrite bind_ok by exact Hr. apply bind_raise. exact Hrun. }
      reflexivity. }
  simpl. done.
Qed.

Lemma read_ok O p w data w' :
  read_json O p w = (Ok data, w') -> fs w' !! p = Some data.
Proof.
  unfold read_json, bind, attempt.
  destruct (fails O w (OpRead p)); [discriminate|]. simpl.
  destruct (fs w !! p) eqn:E; simpl; [|discriminate].
  by intros [= <- <-].
Qed.

(** C9. When the move of the staged artifact raises, after the database
    write has succeeded, only a warning is printed: [process_statement]
    and [process_json_file] return normally, the directory loops record
    [success], and the artifact is still at its staging path. *)
Theorem C9_failed_move_is_only_a_warning L O data data' json_path e w1 w2 w3 :
  _process_json_data L O data w1 = (Ok data', w2) ->
  move_body O data' json_path w2 = (Raise e, w3) ->
  (move_json O data' json_path w2 = (Ok tt, add_out (MoveWarning e json_path) w3)
   /\ fs w3 = fs w1)
  /\ (forall filename text prompt content wa wb,
        human_prompt L filename text = Ok prompt ->
        get_response O prompt wa = (Ok content, wb) ->
        parse_response L content = Ok data ->
        _save_json_response O filename data wb = (Ok json_path, w1) ->
        let w' := add_out (MoveWarning e json_path) w3 in
        process_statement L O filename text wa = (Ok tt, w')
        /\ try_except (process_statement L O filename text ;;; ret [success filename])
             (fun e => ret [error filename (exn_str L e)]) wa
           = (Ok [success filename], w')
        /\ fs w' !! json_path = Some data
        /\ exists n, json_path = staging ++ [n])
  /\ (forall json_dir name wa,
        json_path = json_dir ++ [name] ->
        read_json O json_path wa = (Ok data, w1) ->
        let w' := add_out (MoveWarning e json_path) w3 in
        process_json_file L O json_path wa = (Ok tt, w')
        /\ json_step L O json_dir name wa = (Ok [success name], w')
        /\ fs w' !! json_path = Some data).
Proof.
  intros Hd Hm.
  assert (Hmove : move_json O data' json_path w2
                  = (Ok tt, add_out (MoveWarning e json_path) w3)).
  { unfold move_json. erewrite try_raise by exact Hm. reflexivity. }
  assert (Hfs : fs w3 = fs w1).
  { rewrite (move_body_keeps_fs_on_raise _ _ _ _ _ _ Hm).
    pose proof (keeps_process_json_data fs quiet_fs L O (fun _ _ => eq_refl) data w1) as H.
    by rewrite Hd in H. }
  split; [done|]. split.
  - intros filename text prompt content wa wb Hp Hr Hc Hs w'. subst w'.
    assert (Hrun : process_statement L O filename text wa
                   = (Ok tt, add_out (MoveWarning e json_path) w3)).
    { unfold process_statement.
      erewrite bind_ok by (unfold lift; rewrite Hp; reflexivity).
      erewrite try_ok; [reflexivity|].
      erewrite bind_ok by exact Hr.
      erewrite bind_ok by (unfold lift; rewrite Hc; reflexivity).
      erewrite bind_ok by exact Hs.
      erewrite bind_ok by exact Hd.
      exact Hmove. }
    destruct (save_ok _ _ _ _ _ _ Hs) as [Hat Hn].
    split; [exact Hrun|]. split; [|split; [simpl; by rewrite Hfs | exact Hn]].
    erewrite try_ok; [reflexivity|]. erewrite bind_ok by exact Hrun. reflexivity.
  - intros json_dir name wa -> Hr w'. subst w'.
    assert (Hrun : process_json_file L O (json_dir ++ [name]) wa
                   = (Ok tt, add_out (MoveWarning e (json_dir ++ [name])) w3)).
    { unfold process_json_file.
      erewrite try_ok; [reflexivity|].
      erewrite bind_ok by exact Hr.
      erewrite bind_ok by exact Hd.
      exact Hmove. }
    split; [exact Hrun|]. split.
    + unfold json_step. erewrite try_ok; [reflexivity|].
      erewrite bind_ok by exact Hrun. reflexivity.
    + simpl. rewrite Hfs. by eapply read_ok.
Qed.


(** ** The filename of the statement row *)

Lemma vap_valid {A B} (f : vres (A -> B)) (x : vres A) b :
  f <*> x = Valid b -> exists g a, f = Valid g /\ x = Valid a /\ b = g a.
Proof. destruct f, x; simpl; intros [=]; eauto. Qed.

Lemma str_field_valid path v s :
  str_field path v = Valid s -> v = Some (JStr s).
Proof. destruct v as [[]|]; simpl; intros [=]; by subst. Qed.

(** A validated statement carries the strings found under its keys. *)
Lemma validate_statement_strings lf ld d p :
  validate_statement lf ld d = Valid p ->
  d !! "account_number" = Some (JStr (StatementData.account_number p))
  /\ d !! "statement_date" = Some (JStr (StatementData.statement_date p))
  /\ d !! "filename" = Some (JStr (StatementData.filename p)).
Proof.
  unfold validate_statement. intros H.
  repeat (apply vap_valid in H as (? & ? & H & ? & ->)).
  injection H as <-. simpl. repeat split; by eapply str_field_valid.
Qed.

Lemma backfill_other key y d d' k :
  backfill key y d = Ok d' -> k <> key -> d' !! k = d !! k.
Proof.
  unfold backfill. intros H Hk.
  destruct (d !! key) as [[]|]; simplify_eq; try done.
  - destruct (s =? "")%string; by simplify_eq.
  - destruct (map_res _ _); simpl in H; simplify_eq.
    by rewrite lookup_insert_ne.
  - case_bool_decide; by simplify_eq.
Qed.

Lemma build_row_filename L O d p w row w' :
  build_row L O d p w = (Ok row, w') ->
  Statement.filename row = StatementData.filename p.
Proof.
  unfold build_row, fetch_account_reference, parse_date, attempt, read_db,
    bind, lift, ret, raise.
  destruct (fails O w _); simpl; [discriminate|].
  destruct (find _ _); simpl; [|discriminate].
  repeat (destruct (strptime L _); simpl; [|discriminate]).
  by intros [= <- <-].
Qed.

Lemma insert_statement_raise O row w e w' :
  insert_statement O row w = (Raise e, w') -> db w' = db w.
Proof.
  unfold insert_statement, bind, attempt.
  destruct (fails O w (OpInsertStatement row)); [by intros [= <- <-] | discriminate].
Qed.

(** The statement rows after [_process_json_data]: none is added, and the
    call raises; or one is added, built from the validated data. *)
Lemma process_json_data_rows L O data w :
  let run := _process_json_data L O data w in
  (banking_statements (db run.2) = banking_statements (db w)
   /\ exists e, run.1 = Raise e)
  \/ (exists d p row id w0,
        prepare (py_str L) data = Ok d
        /\ validate_statement (lax_float L) (lax_decimal L) d = Valid p
        /\ build_row L O d p w = (Ok row, w0)
        /\ banking_statements (db run.2) = banking_statements (db w) ++ [(id, row)]).
Proof.
  intros run. subst run.
  destruct (prepare (py_str L) data) as [d|e] eqn:Hp.
  2:{ left. unfold _process_json_data, try_except, bind, lift. rewrite Hp. simpl. eauto. }
  destruct (validate_statement (lax_float L) (lax_decimal L) d) as [p|errs] eqn:Hv.
  2:{ left. unfold _process_json_data, try_except, bind, lift, validate.
      rewrite Hp, Hv. simpl. eauto. }
  rewrite (process_json_data_unfold _ _ _ _ _ _ Hp Hv).
  destruct (build_row L O d p w) as [[row|e] w0] eqn:Hb.
  2:{ left. erewrite try_raise.
      2:{ apply bind_raise. unfold store. apply bind_raise. exact Hb. }
      simpl. pose proof (keeps_build_row db quiet_db L O d p w) as H.
      rewrite Hb in H. simpl in H. rewrite H. eauto. }
  assert (H0 : db w0 = db w).
  { pose proof (keeps_build_row db quiet_db L O d p w) as H. by rewrite Hb in H. }
  destruct (insert_statement O row w0) as [[id|e] w1] eqn:Hi.
  2:{ left. erewrite try_raise.
      2:{ apply bind_raise. unfold store. erewrite bind_ok by exact Hb.
          apply bind_raise. exact Hi. }
      simpl. rewrite (insert_statement_raise _ _ _ _ _ Hi), H0. eauto. }
  right. exists d, p, row, id, w0. repeat split; try done.
  pose proof (store_items_keeps_statements L O id p w1) as Hk.
  rewrite <- H0, <- (insert_statement_ok _ _ _ _ _ Hi), <- Hk.
  destruct (store_items L O id p w1) as [[[]|e] w2] eqn:Hs; simpl.
  - erewrite try_ok; [reflexivity|].
    erewrite bind_ok; [reflexivity|]. unfold store.
    erewrite bind_ok by exact Hb. erewrite bind_ok by exact Hi. exact Hs.
  - erewrite try_raise.
    2:{ apply bind_raise. unfold store.
        erewrite bind_ok by exact Hb. erewrite bind_ok by exact Hi. exact Hs. }
    reflexivity.
Qed.

Lemma prepare_strings str_of data d' :
  prepare str_of data = Ok d' ->
  exists d, data = JObj d
    /\ d' !! "account_number" = d !! "account_number"
    /\ d' !! "statement_date" = d !! "statement_date"
    /\ (forall acct sd,
          d !! "account_number" = Some (JStr acct) ->
          d !! "statement_date" = Some (JStr sd) ->
          d' !! "filename" = Some (JStr (derived_filename acct sd))).
Proof.
  unfold prepare. destruct data as [| | | | |d]; try discriminate.
  intros H. exists d. split; [done|].
  destruct (statement_date_parts (JObj d)) as [parts|] eqn:Hparts; [|discriminate].
  simpl in H.
  destruct (set_filename _ _ _ d) as [d1|] eqn:H1; [|discriminate]. simpl in H.
  destruct (backfill "deposits" _ d1) as [d2|] eqn:H2; [|discriminate]. simpl in H.
  rewrite !(backfill_other _ _ _ _ _ H) by done.
  rewrite !(backfill_other _ _ _ _ _ H2) by done.
  unfold set_filename in H1.
  destruct (d !! "account_number") as [[]|] eqn:Ha; simplify_eq;
    rewrite ?lookup_insert_ne by done; try done.
  split; [done|]. split; [done|].
  intros acct sd [= <-] Hsd. rewrite lookup_insert_eq.
  unfold statement_date_parts in Hparts. rewrite Hsd in Hparts.
  simpl in Hparts. by injection Hparts as <-.
Qed.

(** C10. Every statement row that [_process_json_data] adds carries the
    derived name -- last four characters of the account number, month and
    year of the statement date -- whatever [filename] the payload had; the
    name is written into the dictionary before the schema sees it, and it
    is the name under which [check_statement_exists] then finds the row. *)
Theorem C10_stored_filename_is_derived L O data w :
  let run := _process_json_data L O data w in
  (forall d d' acct sd,
     data = JObj d ->
     d !! "account_number" = Some (JStr acct) ->
     d !! "statement_date" = Some (JStr sd) ->
     prepare (py_str L) data = Ok d' ->
     d' !! "filename" = Some (JStr (derived_filename acct sd)))
  /\ exists rows,
       banking_statements (db run.2) = banking_statements (db w) ++ rows
       /\ (forall v, run.1 = Ok v -> length rows = 1%nat)
       /\ (forall r, In r rows ->
             exists d acct sd,
               data = JObj d
               /\ d !! "account_number" = Some (JStr acct)
               /\ d !! "statement_date" = Some (JStr sd)
               /\ Statement.filename r.2 = derived_filename acct sd
               /\ has_filename (derived_filename acct sd) (db run.2) = true).
Proof.
  intros run. subst run. split.
  { intros d d' acct sd -> Ha Hsd Hp.
    destruct (prepare_strings _ _ _ Hp) as (d0 & [= <-] & _ & _ & H). by apply H. }
  pose proof (process_json_data_rows L O data w) as H. cbv zeta in H.
  set (run := _process_json_data L O data w) in *.
  destruct H as [[Hsame [e He]]|H].
  { exists []. rewrite app_nil_r. split; [done|]. split; [|by intros r []].
    intros v Hv. congruence. }
  destruct H as (d' & p & row & id & w0 & Hp & Hv & Hb & Hrows).
  exists [(id, row)]. split; [done|]. split; [done|].
  intros r [<-|[]]. simpl.
  destruct (prepare_strings _ _ _ Hp) as (d & -> & Ha & Hsd & Hname).
  destruct (validate_statement_strings _ _ _ _ Hv) as (Ha' & Hsd' & Hf').
  rewrite Ha in Ha'. rewrite Hsd in Hsd'.
  specialize (Hname _ _ Ha' Hsd'). rewrite Hname in Hf'. injection Hf' as Hf'.
  exists d, (StatementData.account_number p), (StatementData.statement_date p).
  rewrite (build_row_filename _ _ _ _ _ _ _ Hb), <- Hf'.
  repeat split; try done.
  unfold has_filename. rewrite Hrows, existsb_app. simpl.
  rewrite (build_row_filename _ _ _ _ _ _ _ Hb), <- Hf', String.eqb_refl.
  by rewrite orb_true_r.
Qed.

(** ** The schema *)

(** C2 (the code departs from the claim).  The category ["Unknown"] is
    none of the seven, and the withdrawal that carries it passes
    validation: no error is reported, for [tax_category] or any other
    field. *)
Theorem C2_unknown_category_passes lf :
  ~ In "Unknown" tax_categories
  /\ validate_withdrawal lf [Key "withdrawals"; Idx 0] Sample.unknown_withdrawal
     = Valid {| WithdrawalTransaction.date := "03/15/2024";
                WithdrawalTransaction.description := "ACME";
                WithdrawalTransaction.amount := Float (Finite 25 (-1));
                WithdrawalTransaction.tax_category := "Unknown" |}
  /\ errors_of (validate_withdrawal lf [Key "withdrawals"; Idx 0]
                  Sample.unknown_withdrawal) = [].
Proof.
  split; [|split].
  - unfold tax_categories. simpl. intros H.
    repeat (destruct H as [H|H]; [discriminate|]). exact H.
  - vm_compute. reflexivity.
  - vm_compute. reflexivity.
Qed.

(** Whatever the string, the field [tax_category] is accepted. *)
Lemma tax_category_any_string path s :
  tax_category_field path (Some (JStr s)) = Valid s.
Proof. reflexivity. Qed.

(** ** The response of the model *)

Lemma unwrap_fenced tag text :
  tag = "json" \/ tag = "" -> unwrap_content (fenced tag text) = text.
Proof.
  intros Htag.
  assert (Hshape : fenced tag text
                   = String "`" (("``" +:+ tag +:+ Re.nl +:+ text +:+ Re.nl +:+ "``")
                                 +:+ String "`" "")).
  { unfold fenced, Re.fence. rewrite !PyFacts.app_assoc. reflexivity. }
  unfold unwrap_content.
  assert (Hs : Py.startswith Re.fence (fenced tag text) = true)
    by apply PyFacts.startswith_app.
  assert (He : Py.endswith Re.fence (fenced tag text) = true).
  { unfold fenced. rewrite <- !PyFacts.app_assoc. apply PyFacts.endswith_app. }
  rewrite Hs, He. simpl.
  rewrite Hshape, PyFacts.strip_id by reflexivity. rewrite <- Hshape.
  unfold Re.unfence.
  assert (Ho : Re.after_open (fenced tag text) = Some (text +:+ Re.nl +:+ Re.fence)).
  { destruct Htag as [-> | ->]; reflexivity. }
  rewrite Ho. by rewrite PyFacts.strip_suffix_app.
Qed.

Lemma unwrap_bare text :
  Py.startswith Re.fence text = false -> unwrap_content text = text.
Proof. intros H. unfold unwrap_content. by rewrite H. Qed.

(** C5 (as amended).  A response that is a fenced envelope with a key
    [data] and a response that is the bare payload give the same
    [data_content], the payload, provided the payload is not itself a
    dictionary with a key [data]. *)
Theorem C5_fenced_envelope_like_bare L tag envelope_text payload_text envelope payload :
  tag = "json" \/ tag = "" ->
  json_loads L envelope_text = Some (JObj envelope) ->
  envelope !! "data" = Some payload ->
  json_loads L payload_text = Some payload ->
  Py.startswith Re.fence payload_text = false ->
  (forall d, payload = JObj d -> d !! "data" = None) ->
  parse_response L (fenced tag envelope_text) = Ok payload
  /\ parse_response L payload_text = Ok payload.
Proof.
  intros Htag He Hd Hp Hbare Hnot. unfold parse_response.
  rewrite (unwrap_fenced _ _ Htag), (unwrap_bare _ Hbare), He, Hp.
  unfold of_option, rbind, data_of. rewrite Hd. split; [reflexivity|].
  destruct payload; try reflexivity. by rewrite (Hnot _ eq_refl).
Qed.

(** C5 (as stated) fails for a payload with a key [data] of its own: in
    the envelope it comes out whole, bare it is unwrapped once more. *)
Lemma C5_counterexample :
  json_loads Sample.L0 Sample.envelope_text
    = Some (JObj (Sample.envelope_of Sample.nested_value))
  /\ Sample.envelope_of Sample.nested_value !! "data" = Some Sample.nested_value
  /\ json_loads Sample.L0 Sample.nested_text = Some Sample.nested_value
  /\ parse_response Sample.L0 (fenced "json" Sample.envelope_text) = Ok Sample.nested_value
  /\ parse_response Sample.L0 Sample.nested_text = Ok (JNum (Int 1))
  /\ parse_response Sample.L0 (fenced "json" Sample.envelope_text)
     <> parse_response Sample.L0 Sample.nested_text.
Proof.
  assert (H1 : parse_response Sample.L0 (fenced "json" Sample.envelope_text)
               = Ok Sample.nested_value) by (vm_compute; reflexivity).
  assert (H2 : parse_response Sample.L0 Sample.nested_text = Ok (JNum (Int 1)))
    by (vm_compute; reflexivity).
  repeat split; try (vm_compute; reflexivity); try assumption.
  rewrite H1, H2. discriminate.
Qed.

Lemma C5_witness :
  parse_response Sample.L0 (fenced "json" Sample.payload_envelope_text)
    = Ok Sample.payload_value
  /\ parse_response Sample.L0 Sample.payload_text = Ok Sample.payload_value.
Proof.
  apply (C5_fenced_envelope_like_bare Sample.L0 "json" Sample.payload_envelope_text
           Sample.payload_text (Sample.envelope_of Sample.payload_value)
           Sample.payload_value).
  - by left.
  - vm_compute; reflexivity.
  - vm_compute; reflexivity.
  - vm_compute; reflexivity.
  - vm_compute; reflexivity.
  - intros d [= <-]. vm_compute; reflexivity.
Defined.

(** ** Dates without a year *)

Lemma statement_year_no_slash d : Py.count "/" (statement_year d) = O.
Proof.
  unfold statement_year, statement_date_parts, split_slash.
  destruct (default (JStr "") (d !! "statement_date")); try reflexivity.
  apply PyFacts.count_last_split.
Qed.

Lemma two_parts_length s :
  Nat.eqb (length (Py.split "/" s)) 2 = Nat.eqb (Py.count "/" s) 1.
Proof. by rewrite PyFacts.split_length. Qed.

(** The loop body does to an item what the rule asks. *)
Lemma backfill_item_with_year y item item' :
  backfill_item y item = Ok item' -> item' = with_year y item.
Proof.
  unfold backfill_item, with_year.
  destruct item as [| | | | |t]; try discriminate.
  destruct (t !! "date") as [v|]; [|discriminate].
  destruct v as [| | |s|l|t']; simpl; try discriminate.
  - rewrite PyFacts.two_parts, two_parts_length.
    destruct (Nat.eqb (Py.count "/" s) 1); by intros [= <-].
  - destruct (existsb _ l); simpl; [discriminate | by intros [= <-]].
  - case_bool_decide; simpl; [discriminate | by intros [= <-]].
Qed.

Lemma map_res_with_year y items items' :
  map_res (backfill_item y) items = Ok items' -> items' = map (with_year y) items.
Proof.
  revert items'. induction items as [|item items IH]; intros items'; simpl.
  - by intros [= <-].
  - destruct (backfill_item y item) as [item'|] eqn:Hi; simpl; [|discriminate].
    destruct (map_res _ items) as [rest|]; simpl; [|discriminate].
    intros [= <-]. by rewrite (backfill_item_with_year _ _ _ Hi), (IH rest).
Qed.

(** A second pass of the loop body changes nothing, the year holding no
    slash. *)
Lemma backfill_item_once y item :
  Py.count "/" y = O ->
  backfill_item y item = Ok (with_year y item) ->
  backfill_item y (with_year y item) = Ok (with_year y item).
Proof.
  intros Hy Hi. unfold with_year in *.
  destruct item as [| | | | |t]; try done.
  destruct (t !! "date") as [v|] eqn:Hd; [|done].
  destruct v as [| | |s|l|t']; try done.
  rewrite two_parts_length in *.
  destruct (Nat.eqb (Py.count "/" s) 1) eqn:Hc; [|done].
  unfold backfill_item. rewrite lookup_insert_eq. simpl.
  rewrite PyFacts.two_parts, !PyFacts.count_app, Hy.
  apply Nat.eqb_eq in Hc. rewrite Hc. reflexivity.
Qed.

Lemma set_filename_other str_of m y d d' k :
  set_filename str_of m y d = Ok d' -> k <> "filename" -> d' !! k = d !! k.
Proof.
  unfold set_filename. intros H Hk.
  destruct (d !! "account_number") as [[]|]; simplify_eq; try done;
    by rewrite lookup_insert_ne.
Qed.

Lemma backfill_same key y d d' items :
  backfill key y d = Ok d' -> d !! key = Some (JArr items) ->
  d' !! key = Some (JArr (map (with_year y) items))
  /\ map_res (backfill_item y) items = Ok (map (with_year y) items).
Proof.
  unfold backfill. intros H Hk. rewrite Hk in H.
  destruct (map_res _ items) as [items'|] eqn:Hm; simpl in H; [|discriminate].
  injection H as <-. rewrite (map_res_with_year _ _ _ Hm).
  by rewrite lookup_insert_eq.
Qed.

Lemma map_res_ok {A B} (f : A -> res B) l l' :
  map_res f l = Ok l' -> Forall2 (fun x y => f x = Ok y) l l'.
Proof.
  revert l'. induction l as [|x l IH]; intros l'; simpl.
  - intros [= <-]. constructor.
  - destruct (f x) eqn:Hx; simpl; [|discriminate].
    destruct (map_res f l); simpl; [|discriminate].
    intros [= <-]. constructor; [done | by apply IH].
Qed.

(** C6. In the dictionary that [_process_json_data] hands to the schema,
    every deposit and withdrawal whose date has two slash-separated parts
    has the statement's year appended, and every other date is as it
    came; running the loop body again on the result changes nothing, so
    the year is appended once. *)
Theorem C6_year_appended_once_before_validation L O key d d' items w :
  key = "deposits" \/ key = "withdrawals" ->
  d !! key = Some (JArr items) ->
  prepare (py_str L) (JObj d) = Ok d' ->
  d' !! key = Some (JArr (map (with_year (statement_year d)) items))
  /\ Forall (fun item =>
       backfill_item (statement_year d) (with_year (statement_year d) item)
       = Ok (with_year (statement_year d) item)) items
  /\ _process_json_data L O (JObj d) w
     = try_except
         (parsed_data <- validate L d' ;;
          store L O d' parsed_data ;;;
          ret (JObj d'))
         (fun e => say (ErrorLine e) ;;; raise e) w.
Proof.
  intros Hkey Hitems Hp.
  assert (Hrun : _process_json_data L O (JObj d) w
                 = try_except
                     (parsed_data <- validate L d' ;;
                      store L O d' parsed_data ;;;
                      ret (JObj d'))
                     (fun e => say (ErrorLine e) ;;; raise e) w).
  { unfold _process_json_data, try_except. unfold bind at 1, lift.
    rewrite Hp. reflexivity. }
  unfold prepare in Hp.
  assert (Hy : forall parts, statement_date_parts (JObj d) = Ok parts ->
                             Py.last parts = statement_year d).
  { intros parts E. unfold statement_year. by rewrite E. }
  destruct (statement_date_parts (JObj d)) as [parts|] eqn:Hparts; [|discriminate].
  simpl in Hp. rewrite (Hy parts eq_refl) in Hp.
  destruct (set_filename _ _ _ d) as [d1|] eqn:H1; [|discriminate]. simpl in Hp.
  destruct (backfill "deposits" _ d1) as [d2|] eqn:H2; [|discriminate]. simpl in Hp.
  assert (Hboth : d' !! key = Some (JArr (map (with_year (statement_year d)) items))
                  /\ map_res (backfill_item (statement_year d)) items
                     = Ok (map (with_year (statement_year d)) items)).
  { destruct Hkey as [-> | ->].
    - rewrite (backfill_other _ _ _ _ "deposits" Hp) by done.
      apply (backfill_same _ _ _ _ _ H2).
      by rewrite (set_filename_other _ _ _ _ _ "deposits" H1).
    - apply (backfill_same _ _ _ _ _ Hp).
      rewrite (backfill_other _ _ _ _ "withdrawals" H2) by done.
      by rewrite (set_filename_other _ _ _ _ _ "withdrawals" H1). }
  destruct Hboth as [Hlook Hmap]. split; [exact Hlook|]. split; [|exact Hrun].
  apply map_res_ok in Hmap.
  apply Forall_forall. intros item Hin.
  apply backfill_item_once; [apply statement_year_no_slash|].
  clear -Hmap Hin. induction items as [|x items IH]; [by apply elem_of_nil in Hin|].
  simpl in Hmap. apply Forall2_cons in Hmap as [Hx Hrest].
  apply elem_of_cons in Hin as [-> | Hin]; [exact Hx | by apply IH].
Qed.

Example date_example :
  with_year "2024" (JObj (<["date" := JStr "03/15"]> ∅))
  = JObj (<["date" := JStr "03/15/2024"]> ∅)
  /\ with_year "2024" (JObj (<["date" := JStr "03/15/2024"]> ∅))
     = JObj (<["date" := JStr "03/15/2024"]> ∅).
Proof. split; vm_compute; reflexivity. Qed.

Lemma C6_witness :
  Sample.prepared_dict !! "withdrawals"
  = Some (JArr (map (with_year (statement_year Sample.payload_dict))
                    [Sample.withdrawal_value])).
Proof.
  assert (Hp : prepare (py_str Sample.L0) (JObj Sample.payload_dict)
               = Ok Sample.prepared_dict) by (vm_compute; reflexivity).
  exact (proj1 (C6_year_appended_once_before_validation Sample.L0
                  (Sample.O_ok [Sample.pdf]) "withdrawals" Sample.payload_dict
                  Sample.prepared_dict [Sample.withdrawal_value] Sample.world0
                  (or_intror eq_refl) eq_refl Hp)).
Defined.
(** ** Directory runs *)

Lemma check_statement_exists_returns O name w :
  exists b w', check_statement_exists O name w = (Ok b, w')
    /\ calls w' = calls w /\ fs w' = fs w /\ db w' = db w.
Proof.
  unfold check_statement_exists, try_except, attempt, read_db, bind, say, ret.
  destruct (fails O w (OpExists name)); simpl; eauto 10.
Qed.



Lemma existing_json_answered O organized temp w :
  fails O w (OpStat organized) = None ->
  fails O (tick w) (OpStat temp) = None ->
  existing_json O organized temp w
  = if bool_decide (is_Some (fs w !! organized)) then (Ok (Some organized), tick w)
    else if bool_decide (is_Some (fs w !! temp)) then (Ok (Some temp), tick (tick w))
    else (Ok None, tick (tick w)).
Proof.
  intros H1 H2. unfold existing_json, exists_file, bind, attempt. rewrite H1. simpl.
  case_bool_decide; [reflexivity|]. rewrite H2. simpl.
  case_bool_decide; reflexivity.
Qed.









(** ** The filename patterns *)

Lemma search_some p s t :
  Re.search p s = Some t ->
  Re.match_here p t = true /\ exists pre, s = pre +:+ t.
Proof.
  induction s as [|a s IH]; simpl.
  - destruct (Re.match_here p "") eqn:E; [|discriminate].
    intros [= <-]. split; [done | by exists ""].
  - destruct (Re.match_here p (String a s)) eqn:E.
    + intros [= <-]. split; [done | by exists ""].
    + intros H. destruct (IH H) as [Hm [pre ->]]. split; [done|].
      by exists (String a pre).
Qed.

Lemma search_here p s : Re.match_here p s = true -> Re.search p s = Some s.
Proof. intros H. destruct s; simpl; by rewrite H. Qed.

(** A match somewhere in the text is found, if not an earlier one. *)
Lemma search_finds p pre t :
  Re.match_here p t = true -> exists r, Re.search p (pre +:+ t) = Some r.
Proof.
  intros H. induction pre as [|a pre IH].
  - exists t. by apply search_here.
  - rewrite PyFacts.app_cons. simpl.
    destruct (Re.match_here p (String a (pre +:+ t))); [by eexists | exact IH].
Qed.

Lemma match_digit_tail p c s :
  Re.match_here (Re.Digit :: p) (String c s) = true -> Re.match_here p s = true.
Proof. simpl. by destruct (Py.is_digit c). Qed.

(** Eight digits before the word hold the four digits the third pattern
    asks for. *)
Lemma date8_has_year4 t :
  Re.match_here Re.pat_date8 t = true ->
  exists front back,
    t = front +:+ back /\ Re.match_here Re.pat_year4 back = true.
Proof.
  intros H.
  change Re.pat_date8
    with (Re.Digit :: Re.Digit :: Re.Digit :: Re.Digit :: Re.pat_year4) in H.
  destruct t as [|c1 t]; [discriminate H|]. apply match_digit_tail in H.
  destruct t as [|c2 t]; [discriminate H|]. apply match_digit_tail in H.
  destruct t as [|c3 t]; [discriminate H|]. apply match_digit_tail in H.
  destruct t as [|c4 t]; [discriminate H|]. apply match_digit_tail in H.
  exists (String c1 (String c2 (String c3 (String c4 EmptyString)))), t.
  split; [reflexivity | exact H].
Qed.

(** A name with an identity holds the pattern of [_save_json_response]. *)
Lemma identity_has_year4 name y m l :
  identity_of name = Some (y, m, l) ->
  exists t, Re.search Re.pat_year4 name = Some t.
Proof.
  unfold identity_of. intros H.
  destruct (Re.search Re.pat_date8 name) as [t|] eqn:E.
  2:{ change Re.pat_ymd with Re.pat_date8 in H. by rewrite E in H. }
  destruct (search_some _ _ _ E) as [Hm [pre ->]].
  destruct (date8_has_year4 t Hm) as (front & back & -> & Hb).
  rewrite <- PyFacts.app_assoc. by apply search_finds.
Qed.

(** The name [_save_json_response] gives to the artifact when its pattern
    is not found, and what it then does. *)
Lemma save_under_fallback_name O name data w :
  Re.search Re.pat_year4 name = None ->
  fails O w (OpMkdir staging) = None ->
  fails O (tick w) (OpWrite (staging ++ [Py.replace ".pdf" ".json" name])) = None ->
  _save_json_response O name data w
  = (Ok (staging ++ [Py.replace ".pdf" ".json" name]),
     set_fs (insert (staging ++ [Py.replace ".pdf" ".json" name]) data)
       (tick (tick w))).
Proof.
  intros Hy Hm Hw.
  unfold _save_json_response, json_filename_of, write_json, attempt, bind, lift, ret.
  rewrite Hy, Hm. cbv beta iota zeta. by rewrite Hw.
Qed.



(** C3 (as amended).  [process_directory] reads year 2024, month 03 and
    suffix 1234 off the example name.  A name in which neither pattern is
    found is passed over with a printed line -- no record, no model call,
    nothing written.  A name in which one is found also holds the third
    pattern, the one of [_save_json_response], so within a directory run
    the artifact is never stored under a fallback name.  The fallback is
    there all the same: when [process_statement] is called with a name
    that lacks the third pattern, [_save_json_response] raises nothing
    and stores the response under the name with [.pdf] replaced by
    [.json], and [process_statement] goes on to validation, the database
    and the move. *)
Theorem C3_identity_or_skip L O company account_number target_dir name w :
  identity_of "20240315-statements-1234-foo.pdf" = Some ("2024", "03", "1234")
  (* no identity: the document is passed over *)
  /\ (identity_of name = None ->
      let step := pdf_step L O company account_number target_dir name w in
      step.1 = Ok []
      /\ calls step.2 = calls w /\ fs step.2 = fs w /\ db step.2 = db w
      /\ (last (out step.2) = Some (SkipNoIdentity name)
          \/ last (out step.2) = Some (SkipInDatabase name)))
  (* an identity: no fallback name *)
  /\ (forall y m l, identity_of name = Some (y, m, l) ->
      exists t,
        Re.search Re.pat_year4 name = Some t
        /\ forall data,
             json_filename_of name data
             = (parts <~ statement_date_parts data ;;
                Ok (Py.slice 16 20 t +:+ Py.first parts +:+ Py.slice 0 4 t +:+ ".json")))
  (* the third pattern not found: the fallback name *)
  /\ (Re.search Re.pat_year4 name = None ->
      (forall data, json_filename_of name data = Ok (Py.replace ".pdf" ".json" name))
      /\ forall text prompt content data wa wb,
           human_prompt L name text = Ok prompt ->
           get_response O prompt wa = (Ok content, wb) ->
           parse_response L content = Ok data ->
           let json_path := staging ++ [Py.replace ".pdf" ".json" name] in
           fails O wb (OpMkdir staging) = None ->
           fails O (tick wb) (OpWrite json_path) = None ->
           process_statement L O name text wa
           = try_except
               (data' <- _process_json_data L O data ;;
                move_json O data' json_path)
               (fun e => say (ErrorLine e) ;;; raise e)
               (set_fs (insert json_path data) (tick (tick wb)))).
Proof.
  split; [vm_compute; reflexivity|]. split; [|split].
  - intros Hid. cbv zeta. unfold pdf_step.
    destruct (check_statement_exists_returns O name w) as (b & w1 & Hc & H1 & H2 & H3).
    erewrite bind_ok by exact Hc. rewrite Hid.
    destruct b; simpl; rewrite last_snoc; auto 10.
  - intros y m l Hid. destruct (identity_has_year4 _ _ _ _ Hid) as [t Ht].
    exists t. split; [exact Ht|]. intros data. unfold json_filename_of. by rewrite Ht.
  - intros Hy. split.
    { intros data. unfold json_filename_of. by rewrite Hy. }
    intros text prompt content data wa wb Hp Hr Hd json_path Hm Hw.
    unfold process_statement. rewrite Hp.
    change (bind (lift (Ok prompt)) ?k wa) with (k prompt wa). cbv beta.
    unfold try_except.
    erewrite bind_ok by exact Hr. rewrite Hd.
    change (bind (lift (Ok data)) ?k wb) with (k data wb). cbv beta.
    erewrite bind_ok by exact (save_under_fallback_name O name data wb Hy Hm Hw).
    reflexivity.
Qed.

(** C3 (as stated) fails: given a name with no identity,
    [process_statement] neither raises nor stops; it stores the response
    under the fallback name and writes the statement to the database. *)
Lemma C3_counterexample :
  identity_of "notes.pdf" = None
  /\ Re.search Re.pat_year4 "notes.pdf" = None
  /\ (process_statement Sample.L0 (Sample.O_ok []) "notes.pdf" "text" Sample.world0).1
     = Ok tt
  /\ out (process_statement Sample.L0 (Sample.O_ok []) "notes.pdf" "text"
            Sample.world0).2 = []
  /\ dom (fs (process_statement Sample.L0 (Sample.O_ok []) "notes.pdf" "text"
                Sample.world0).2)
     = {[ ["Acme"; "000000954291234"; "2024"; "json"; "notes.json"] ]}
  /\ length (banking_statements
               (db (process_statement Sample.L0 (Sample.O_ok []) "notes.pdf" "text"
                      Sample.world0).2)) = 1%nat.
Proof. repeat split; vm_compute; reflexivity. Qed.

Lemma C3_witness :
  (pdf_step Sample.L0 (Sample.O_ok []) "Acme" "000000954291234"
     ["Acme"; "000000954291234"; "2024"] "notes.pdf" Sample.world0).1 = Ok []
  /\ json_filename_of "notes.pdf" JNull = Ok (Py.replace ".pdf" ".json" "notes.pdf")
  /\ exists t, Re.search Re.pat_year4 Sample.pdf = Some t.
Proof.
  split; [|split].
  - exact (proj1 (proj1 (proj2 (C3_identity_or_skip Sample.L0 (Sample.O_ok []) "Acme"
                                  "000000954291234" ["Acme"; "000000954291234"; "2024"]
                                  "notes.pdf" Sample.world0)) eq_refl)).
  - exact (proj1 (proj2 (proj2 (proj2 (C3_identity_or_skip Sample.L0 (Sample.O_ok [])
                                         "Acme" "000000954291234" [] "notes.pdf"
                                         Sample.world0))) eq_refl) JNull).
  - destruct (proj1 (proj2 (proj2 (C3_identity_or_skip Sample.L0 (Sample.O_ok [])
                                     "Acme" "000000954291234" [] Sample.pdf
                                     Sample.world0))) "2024" "03" "1234" eq_refl)
      as (t & Ht & _).
    by exists t.
Defined.

(** C1 (the code departs from the claim).  One document, run twice with
    nothing deleted in between: the first run stores the statement under
    the derived name and the artifact under a name built from the month
    and day of the file name; the second run finds neither under the keys
    it looks up, prints no skip line, calls the model again and inserts
    the statement a second time. *)
Theorem C1_second_run_repeats_the_work :
  let run1 := process_directory Sample.L0 (Sample.O_ok [Sample.pdf])
                "Acme" "000000954291234" "2024" false Sample.world0 in
  let run2 := process_directory Sample.L0 (Sample.O_ok [Sample.pdf])
                "Acme" "000000954291234" "2024" false run1.2 in
  run1.1 = Ok [success Sample.pdf]
  /\ map (fun r => Statement.filename r.2) (banking_statements (db run1.2))
     = ["1234-03-2024.pdf"]
  /\ dom (fs run1.2) = {[ ["Acme"; "000000954291234"; "2024"; "json"; "1234030315.json"] ]}
  /\ has_filename Sample.pdf (db run1.2) = false
  /\ run2.1 = Ok [success Sample.pdf]
  /\ out run2.2 = []
  /\ map fst (calls run2.2) = [Primary; Primary]
  /\ map (fun r => Statement.filename r.2) (banking_statements (db run2.2))
     = ["1234-03-2024.pdf"; "1234-03-2024.pdf"].
Proof. cbv zeta. repeat split; vm_compute; reflexivity. Qed.

(** ** The theorems at work on the sample *)

Lemma C4_witness :
  let run := process_statement Sample.L0 Sample.O_down Sample.pdf "text"
               Sample.world0 in
  calls run.2 = [(Primary, Sample.pdf +:+ ": text"); (Fallback, Sample.pdf +:+ ": text")]
  /\ run.1 = Raise Sample.rate_limit
  /\ db run.2 = db Sample.world0.
Proof.
  destruct (C4_fallback_once_then_failure Sample.L0 Sample.O_down Sample.pdf "text"
              (Sample.pdf +:+ ": text") Sample.rate_limit Sample.world0
              eq_refl eq_refl) as [Hcalls Hfail].
  destruct (Hfail Sample.rate_limit eq_refl) as (Hr & Hdb & _).
  split; [exact Hcalls|]. split; [exact Hr | exact Hdb].
Defined.

Lemma C7_witness :
  let run := _process_json_data Sample.L0 Sample.O_no_withdrawals
               Sample.payload_value Sample.world0 in
  run.1 = Raise Sample.integrity
  /\ map (fun r => Statement.filename r.2) (banking_statements (db run.2))
     = ["1234-03-2024.pdf"]
  /\ withdrawals (db run.2) = [].
Proof.
  edestruct (C7_statement_row_survives_line_item_failure Sample.L0
               Sample.O_no_withdrawals Sample.payload_value) with (w := Sample.world0)
    as (Hr & Hrows & _); [reflexivity ..|].
  cbv zeta. split; [exact Hr|]. split; [rewrite Hrows|]; vm_compute; reflexivity.
Defined.

Lemma C9_witness :
  let step := json_step Sample.L0 Sample.O_no_rename staging Sample.staged_name
                Sample.world_staged in
  step.1 = Ok [success Sample.staged_name]
  /\ fs step.2 !! (staging ++ [Sample.staged_name]) = Some Sample.payload_value
  /\ out step.2 = [MoveWarning Sample.permission (staging ++ [Sample.staged_name])].
Proof.
  set (json_path := staging ++ [Sample.staged_name]).
  set (run := _process_json_data Sample.L0 Sample.O_no_rename Sample.payload_value
                (tick Sample.world_staged)).
  assert (Hd : run = (Ok (JObj Sample.prepared_dict), run.2)).
  { rewrite (surjective_pairing run) at 1. f_equal; vm_compute; reflexivity. }
  set (move := move_body Sample.O_no_rename (JObj Sample.prepared_dict) json_path run.2).
  assert (Hm : move = (Raise Sample.permission, move.2)).
  { rewrite (surjective_pairing move) at 1. f_equal; vm_compute; reflexivity. }
  destruct (C9_failed_move_is_only_a_warning Sample.L0 Sample.O_no_rename
              Sample.payload_value (JObj Sample.prepared_dict) json_path
              Sample.permission (tick Sample.world_staged) run.2 move.2 Hd Hm)
    as (_ & _ & Hjson).
  destruct (Hjson staging Sample.staged_name Sample.world_staged eq_refl eq_refl)
    as (_ & Hstep & Hfs).
  cbv zeta. rewrite Hstep. split; [reflexivity|]. split; [exact Hfs|].
  vm_compute; reflexivity.
Defined.

Lemma C10_witness :
  Sample.prepared_dict !! "filename"
  = Some (JStr (derived_filename "000000954291234" "03/31/2024")).
Proof.
  assert (Hp : prepare (py_str Sample.L0) Sample.payload_value
               = Ok Sample.prepared_dict) by (vm_compute; reflexivity).
  exact (proj1 (C10_stored_filename_is_derived Sample.L0 (Sample.O_ok [])
                  Sample.payload_value Sample.world0)
           Sample.payload_dict Sample.prepared_dict _ _ eq_refl eq_refl eq_refl Hp).
Defined.

(** * Further properties of the code *)

(** ** Text extraction *)

Lemma gather_from text pages :
  Pdf.gather text pages
  = (text +:+ (Pdf.gather "" pages).1, (Pdf.gather "" pages).2).
Proof.
  revert text. induction pages as [|[t|e] pages IH]; intros text; simpl.
  - by rewrite PyFacts.app_empty_r.
  - rewrite (IH (Pdf.add_page text t)), (IH (Pdf.add_page "" t)). simpl.
    f_equal. rewrite <- PyFacts.app_assoc. f_equal.
    unfold Pdf.add_page. destruct t as [s|]; [destruct (String.eqb s "")|]; reflexivity.
  - by rewrite PyFacts.app_empty_r.
Qed.

Lemma read_from text doc :
  Pdf.read text doc = (text +:+ (Pdf.read "" doc).1, (Pdf.read "" doc).2).
Proof.
  destruct doc as [pages|e]; simpl; [apply gather_from|].
  by rewrite PyFacts.app_empty_r.
Qed.

Lemma gather_all_pages text pages :
  Forall (fun p => exists t, p = Ok t) pages -> (Pdf.gather text pages).2 = None.
Proof.
  intros H. revert text.
  induction H as [|p pages [t ->] _ IH]; intros text; simpl; [done | apply IH].
Qed.

(** X1.  The result is never an empty text: either [None], and then all that
    the two readers gave is blank, or a text that is not empty.  The test
    [if not text_content] of the caller can thus only meet [None]. *)
Theorem extracted_text_is_never_empty pdfplumber pypdf :
  match Pdf.extract_text_from_pdf pdfplumber pypdf with
  | Some text => text <> ""
  | None =>
      Pdf.blank ((Pdf.read "" pdfplumber).1 +:+ (Pdf.read "" pypdf).1) = true
  end.
Proof.
  unfold Pdf.extract_text_from_pdf.
  destruct (Pdf.read "" pdfplumber) as [t1 r1] eqn:E1.
  destruct (bool_decide (r1 = None) && negb (Pdf.blank t1))%bool eqn:Hfirst.
  - apply andb_true_iff in Hfirst as [_ Hb]. unfold Pdf.blank in Hb.
    apply negb_true_iff in Hb. by apply String.eqb_neq in Hb.
  - rewrite (read_from t1 pypdf). simpl.
    destruct (Pdf.blank (t1 +:+ (Pdf.read "" pypdf).1)) eqn:Hb; simpl; [done|].
    unfold Pdf.blank in Hb. by apply String.eqb_neq in Hb.
Qed.

(** X2.  When pdfplumber reads every page and its text is not blank, that text,
    stripped, is the result, whatever pypdf would do. *)
Theorem first_reader_suffices pdfplumber pypdf pages :
  pdfplumber = Ok pages ->
  Forall (fun p => exists t, p = Ok t) pages ->
  Pdf.blank (Pdf.gather "" pages).1 = false ->
  Pdf.extract_text_from_pdf pdfplumber pypdf = Some (Py.strip (Pdf.gather "" pages).1).
Proof.
  intros -> Hpages Hb. unfold Pdf.extract_text_from_pdf. simpl.
  pose proof (gather_all_pages "" pages Hpages) as Hnone.
  destruct (Pdf.gather "" pages) as [t1 r1]. simpl in *. subst r1.
  by rewrite Hb.
Qed.

(** X3.  When pdfplumber raises, what it had gathered is kept, and the text of
    pypdf is appended to it: the pages read by both appear twice. *)
Theorem partial_text_is_kept pdfplumber pypdf part e :
  Pdf.read "" pdfplumber = (part, Some e) ->
  Pdf.extract_text_from_pdf pdfplumber pypdf
  = if Pdf.blank (part +:+ (Pdf.read "" pypdf).1) then None
    else Some (Py.strip (part +:+ (Pdf.read "" pypdf).1)).
Proof.
  intros H. unfold Pdf.extract_text_from_pdf. rewrite H. simpl.
  rewrite (read_from part pypdf). simpl.
  by destruct (Pdf.blank _).
Qed.

Lemma first_reader_suffices_witness :
  Pdf.extract_text_from_pdf (Ok [Ok (Some "Page one "); Ok None]) (Raise FileNotFoundError)
  = Some (Py.strip (Pdf.gather "" [Ok (Some "Page one "); Ok None]).1).
Proof.
  apply (first_reader_suffices _ _ [Ok (Some "Page one "); Ok None] eq_refl).
  - repeat constructor; eauto.
  - vm_compute; reflexivity.
Defined.

Lemma partial_text_is_kept_witness :
  Pdf.extract_text_from_pdf
    (Ok [Ok (Some "Page one"); Raise (OtherError "PDFSyntaxError")])
    (Ok [Ok (Some "Page one"); Ok (Some "Page two")])
  = Some "Page onePage onePage two".
Proof.
  rewrite (partial_text_is_kept
             (Ok [Ok (Some "Page one"); Raise (OtherError "PDFSyntaxError")])
             (Ok [Ok (Some "Page one"); Ok (Some "Page two")])
             "Page one" (OtherError "PDFSyntaxError") eq_refl).
  vm_compute; reflexivity.
Defined.

(** ** The identity read off a filename *)

Lemma digit_is_no_dash c : Py.is_digit c = true -> Ascii.eqb "-" c = false.
Proof. destruct c as [[] [] [] [] [] [] [] []]; vm_compute; congruence. Qed.

(** X4.  The alternative pattern of [process_directory] asks for the same
    texts as the first one (eight digits, the word, four digits): a name
    in which the first is not found has no identity. *)
Theorem alternative_pattern_finds_nothing_new name :
  Re.search Re.pat_date8 name = None -> identity_of name = None.
Proof.
  intros H. unfold identity_of. rewrite H.
  change Re.pat_ymd with Re.pat_date8. by rewrite H.
Qed.

Lemma alternative_pattern_finds_nothing_new_witness :
  identity_of "2024-03-statements-1234-.pdf" = None.
Proof.
  apply alternative_pattern_finds_nothing_new. vm_compute; reflexivity.
Defined.

Local Arguments Py.is_digit : simpl never.
Local Arguments Ascii.eqb : simpl never.

(** Reading one character of a match off its hypothesis. *)
Ltac eat H t :=
  destruct t as [|? t]; simpl in H; [discriminate H|];
  lazymatch type of H with
  | (if Py.is_digit ?c then _ else _) = true =>
      destruct (Py.is_digit c) eqn:?; [|discriminate H]
  | (if Ascii.eqb ?l ?c then _ else _) = true =>
      destruct (Ascii.eqb_spec l c); [subst c|discriminate H]
  end.

(** The text of a match of the first pattern. *)
Lemma match_date8_shape t :
  Re.match_here Re.pat_date8 t = true ->
  let y := Py.slice 0 4 t in
  let m := Py.slice 4 6 t in
  let l := Py.slice 20 24 t in
  (String.length y = 4%nat /\ Pattern.all_chars Py.is_digit y = true)
  /\ (String.length m = 2%nat /\ Pattern.all_chars Py.is_digit m = true)
  /\ (String.length l = 4%nat /\ Pattern.all_chars Py.is_digit l = true)
  /\ t = y +:+ m +:+ Py.slice 6 8 t +:+ "-statements-" +:+ l +:+ "-" +:+ Py.drop 25 t
  /\ Py.slice 0 4 (Py.slice 0 8 t) = y
  /\ Py.slice 4 6 (Py.slice 0 8 t) = m
  /\ (String.length (Py.slice 6 8 t) = 2%nat
      /\ Pattern.all_chars Py.is_digit (Py.slice 6 8 t) = true).
Proof.
  intros H. unfold Re.pat_date8 in H. simpl in H.
  do 25 (eat H t).
  cbv zeta. unfold Py.slice. simpl.
  repeat match goal with E : Py.is_digit _ = true |- _ => rewrite E; clear E end.
  repeat split; reflexivity.
Qed.

(** X5.  An identity is made of digits: four for the year, two for the month,
    four for the account suffix, and the name holds them, with two more
    digits for the day, around the word [-statements-].  (Digits are the
    members of the class [\d]; for the texts of this development, of
    code points below 256, these are [0] to [9].) *)
Theorem identity_is_made_of_digits name y m l :
  identity_of name = Some (y, m, l) ->
  (String.length y = 4%nat /\ Pattern.all_chars Py.is_digit y = true)
  /\ (String.length m = 2%nat /\ Pattern.all_chars Py.is_digit m = true)
  /\ (String.length l = 4%nat /\ Pattern.all_chars Py.is_digit l = true)
  /\ exists before day rest,
       String.length day = 2%nat
       /\ Pattern.all_chars Py.is_digit day = true
       /\ name = before +:+ y +:+ m +:+ day +:+ "-statements-" +:+ l +:+ "-" +:+ rest.
Proof.
  unfold identity_of. intros H.
  destruct (Re.search Re.pat_date8 name) as [t|] eqn:E.
  2:{ change Re.pat_ymd with Re.pat_date8 in H. by rewrite E in H. }
  destruct (search_some _ _ _ E) as [Hm [pre ->]].
  destruct (match_date8_shape t Hm) as (Hy & Hmo & Hl & Ht & Hy8 & Hm8 & Hd1 & Hd2).
  injection H as <- <- <-. rewrite Hy8, Hm8.
  split; [done|]. split; [done|]. split; [done|].
  exists pre, (Py.slice 6 8 t), (Py.drop 25 t).
  split; [exact Hd1|]. split; [exact Hd2|]. by rewrite <- Ht.
Qed.

Lemma identity_is_made_of_digits_witness :
  exists before day rest,
    String.length day = 2%nat
    /\ Pattern.all_chars Py.is_digit day = true
    /\ Sample.pdf = before +:+ "2024" +:+ "03" +:+ day +:+ "-statements-" +:+ "1234"
                      +:+ "-" +:+ rest.
Proof.
  exact (proj2 (proj2 (proj2 (identity_is_made_of_digits Sample.pdf "2024" "03" "1234"
                                eq_refl)))).
Defined.

(** X6.  For a name that begins with eight digits, the word and four digits,
    the two places that build the name of the JSON artifact disagree:
    [process_directory] looks for suffix, characters 4 to 6 and characters
    0 to 4 of the name; [_save_json_response] writes suffix, month of the
    statement date and characters 4 to 8 of the name. *)
Theorem artifact_name_written_and_looked_up name d statement_date :
  Re.match_here Re.pat_date8 name = true ->
  d !! "statement_date" = Some (JStr statement_date) ->
  identity_of name
  = Some (Py.slice 0 4 name, Py.slice 4 6 name, Py.slice 20 24 name)
  /\ json_filename_of name (JObj d)
     = Ok (Py.slice 20 24 name +:+ Py.first (Py.split "/" statement_date)
           +:+ Py.slice 4 8 name +:+ ".json").
Proof.
  intros H Hd. split.
  - unfold identity_of.
    rewrite (search_here _ _ H). destruct (match_date8_shape name H) as (_ & _ & _ & _ & -> & -> & _).
    reflexivity.
  - unfold json_filename_of, statement_date_parts. rewrite Hd.
    assert (Hs : Re.search Re.pat_year4 name = Some (Py.drop 4 name)).
    { unfold Re.pat_date8 in H. simpl in H. do 25 (eat H name).
      unfold Re.pat_year4. simpl.
      repeat match goal with
             | E : Py.is_digit ?c = true |- _ =>
                 rewrite ?E, ?(digit_is_no_dash c E); simpl; clear E
             end.
      reflexivity. }
    rewrite Hs. simpl. f_equal.
    unfold Re.pat_date8 in H. simpl in H. do 25 (eat H name). reflexivity.
Qed.

Lemma artifact_name_written_and_looked_up_witness :
  json_filename_of Sample.pdf Sample.payload_value = Ok "1234030315.json"
  /\ identity_of Sample.pdf = Some ("2024", "03", "1234").
Proof.
  destruct (artifact_name_written_and_looked_up Sample.pdf Sample.payload_dict
              "03/31/2024" eq_refl eq_refl) as [Hi Hj].
  split; [exact Hj | exact Hi].
Defined.

(** ** The database gateway *)

Lemma bind_ok_inv {A B} (m : M A) (k : A -> M B) w b w' :
  bind m k w = (Ok b, w') ->
  exists a w1, m w = (Ok a, w1) /\ k a w1 = (Ok b, w').
Proof.
  unfold bind. destruct (m w) as [[a|e] w1]; [eauto | discriminate].
Qed.

(** X7.  Insert, then look up: a statement just inserted is found under its
    file name, as soon as the query itself is answered. *)
Theorem inserted_statement_is_found O row w id w1 :
  insert_statement O row w = (Ok id, w1) ->
  fails O w1 (OpExists (Statement.filename row)) = None ->
  check_statement_exists O (Statement.filename row) w1 = (Ok true, tick w1).
Proof.
  intros Hi Hq. pose proof (insert_statement_ok _ _ _ _ _ Hi) as Hrows.
  unfold check_statement_exists, try_except, bind, attempt, read_db.
  rewrite Hq. simpl. unfold has_filename. rewrite Hrows, existsb_app. simpl.
  by rewrite String.eqb_refl, orb_true_r.
Qed.

(** X8.  A query that fails is answered "not there": no exception leaves
    [check_statement_exists], a line is printed, and the answer is [False]
    even when the statement is in the table. *)
Theorem failed_query_reads_as_absent O name e w :
  fails O w (OpExists name) = Some e ->
  check_statement_exists O name w
  = (Ok false, add_out (ExistenceCheckFailed e) (tick w)).
Proof.
  intros H. unfold check_statement_exists, try_except, bind, attempt.
  by rewrite H.
Qed.

Lemma inserted_statement_is_found_witness :
  let row := {| Statement.account_reference_id := 7;
                Statement.statement_date := {| year := 2024; month := 3; day := 31 |};
                Statement.period_start := {| year := 2024; month := 3; day := 1 |};
                Statement.period_end := {| year := 2024; month := 3; day := 31 |};
                Statement.beginning_balance := Int 100;
                Statement.ending_balance := Int 88;
                Statement.total_fees := Int 0;
                Statement.filename := "1234-03-2024.pdf";
                Statement.important_notes := "";
                Statement.raw_data := JNull |} in
  let w1 := (insert_statement (Sample.O_ok []) row Sample.world0).2 in
  check_statement_exists (Sample.O_ok []) "1234-03-2024.pdf" w1 = (Ok true, tick w1).
Proof.
  intros row w1.
  exact (inserted_statement_is_found (Sample.O_ok []) row Sample.world0 1 w1
           eq_refl eq_refl).
Defined.

Lemma failed_query_reads_as_absent_witness :
  check_statement_exists Cases.O_no_query Sample.pdf Sample.world0
  = (Ok false, add_out (ExistenceCheckFailed Cases.timeout) (tick Sample.world0)).
Proof.
  exact (failed_query_reads_as_absent Cases.O_no_query Sample.pdf Cases.timeout
           Sample.world0 eq_refl).
Defined.

(** ** Invariants of a run *)

Section Respects.

Context (R : World -> World -> Prop).
Hypothesis Rrefl : forall w, R w w.
Hypothesis Rtrans : forall a b c, R a b -> R b c -> R a c.

Lemma respects_ret {A} (a : A) : respects R (ret a).
Proof. intros w. apply Rrefl. Qed.

Lemma respects_raise {A} e : respects R (@raise A e).
Proof. intros w. apply Rrefl. Qed.

Lemma respects_bind {A C} (m : M A) (k : A -> M C) :
  respects R m -> (forall a, respects R (k a)) -> respects R (bind m k).
Proof.
  intros Hm Hk w. unfold bind. specialize (Hm w).
  destruct (m w) as [[a|e] w1]; simpl in *; [|done].
  eapply Rtrans; [exact Hm | apply Hk].
Qed.

Lemma respects_try {A} (m : M A) h :
  respects R m -> (forall e, respects R (h e)) -> respects R (try_except m h).
Proof.
  intros Hm Hh w. unfold try_except. specialize (Hm w).
  destruct (m w) as [[a|e] w1]; simpl in *; [done|].
  eapply Rtrans; [exact Hm | apply Hh].
Qed.

Lemma respects_for_each {A} (g : A -> M unit) l :
  (forall x, respects R (g x)) -> respects R (for_each g l).
Proof.
  intros Hg. induction l as [|x l IH]; simpl; [apply respects_ret|].
  apply respects_bind; [apply Hg | intros _; apply IH].
Qed.

Lemma respects_collect {A} (step : A -> M (list result)) l :
  (forall x, respects R (step x)) -> respects R (collect step l).
Proof.
  intros Hg. induction l as [|x l IH]; simpl; [apply respects_ret|].
  apply respects_bind; [apply Hg | intros r].
  apply respects_bind; [apply IH | intros rs; apply respects_ret].
Qed.

End Respects.

Lemma grows_refl w : grows w w.
Proof. by repeat split. Qed.

Lemma grows_trans a b c : grows a b -> grows b c -> grows a c.
Proof.
  intros (H1 & H2 & H3 & H4) (K1 & K2 & K3 & K4).
  repeat split; [congruence | by etrans | by etrans | by etrans].
Qed.

Lemma grows_of_keeps {A} (m : M A) : keeps db m -> respects grows m.
Proof. intros H w. unfold grows. rewrite (H w). by repeat split. Qed.

Lemma grows_insert_statement O r : respects grows (insert_statement O r).
Proof.
  intros w. unfold insert_statement, bind, attempt.
  destruct (fails O w _); simpl; [by repeat split|].
  repeat split; simpl; try done. by apply prefix_app_r.
Qed.

Lemma grows_insert_deposit O r : respects grows (insert_deposit O r).
Proof.
  intros w. unfold insert_deposit, bind, attempt.
  destruct (fails O w _); simpl; [by repeat split|].
  repeat split; simpl; try done. by apply prefix_app_r.
Qed.

Lemma grows_insert_withdrawal O r : respects grows (insert_withdrawal O r).
Proof.
  intros w. unfold insert_withdrawal, bind, attempt.
  destruct (fails O w _); simpl; [by repeat split|].
  repeat split; simpl; try done. by apply prefix_app_r.
Qed.

Lemma keeps_read_json {B} (f : World -> B) O p : quiet f -> keeps f (read_json O p).
Proof.
  intros Hq. apply keeps_bind; [by apply keeps_attempt | by intros _ w].
Qed.

Lemma keeps_existing_json {B} (f : World -> B) O a b :
  quiet f -> keeps f (existing_json O a b).
Proof.
  intros Hq.
  apply keeps_bind; [by apply keeps_exists_file | intros [|]]; [apply keeps_ret|].
  apply keeps_bind; [by apply keeps_exists_file | intros [|]]; apply keeps_ret.
Qed.

Lemma keeps_get_response {B} (f : World -> B) O messages :
  quiet f -> (forall c w, f (add_call c w) = f w) -> keeps f (get_response O messages).
Proof.
  intros Hq Hc.
  assert (Hm : forall m, keeps f (call_model O m messages)).
  { intros m w. unfold call_model. simpl. destruct Hq as [Ht _]. by rewrite Ht, Hc. }
  apply keeps_try; [apply Hm | intros e].
  apply keeps_bind; [by apply keeps_say | intros _; apply Hm].
Qed.

Section Grows.

Variable L : Lib.
Variable O : Oracle.

Let Gbind {A C} := @respects_bind grows grows_trans A C.
Let Gtry {A} := @respects_try grows grows_trans A.
Let Gret {A} := @respects_ret grows grows_refl A.
Let Graise {A} := @respects_raise grows grows_refl A.

Lemma grows_store_items id p : respects grows (store_items L O id p).
Proof.
  apply Gbind; [|intros _];
    apply (respects_for_each grows grows_refl grows_trans); intros x;
    (apply Gbind; [apply grows_of_keeps, keeps_lift | intros ?]);
    (apply Gbind; [|intros _; apply Gret]).
  - apply grows_insert_deposit.
  - apply grows_insert_withdrawal.
Qed.

Lemma grows_process_json_data data : respects grows (_process_json_data L O data).
Proof.
  pose proof quiet_db as Hq.
  apply Gtry.
  - apply Gbind; [apply grows_of_keeps, keeps_lift | intros d].
    apply Gbind.
    + unfold validate. destruct validate_statement; [apply Gret | apply Graise].
    + intros p. apply Gbind; [|intros _; apply Gret].
      apply Gbind; [by apply grows_of_keeps, keeps_build_row | intros row].
      apply Gbind; [apply grows_insert_statement | intros id].
      apply grows_store_items.
  - intros e. apply grows_of_keeps.
    apply keeps_bind; [by apply keeps_say | intros _; apply keeps_raise].
Qed.

Lemma grows_process_statement name text : respects grows (process_statement L O name text).
Proof.
  pose proof quiet_db as Hq.
  apply Gbind; [apply grows_of_keeps, keeps_lift | intros prompt].
  apply Gtry.
  - apply Gbind; [by apply grows_of_keeps, keeps_get_response | intros content].
    apply Gbind; [apply grows_of_keeps, keeps_lift | intros d].
    apply Gbind; [by apply grows_of_keeps, keeps_save | intros p].
    apply Gbind; [apply grows_process_json_data | intros d'].
    by apply grows_of_keeps, keeps_move_json.
  - intros e. apply grows_of_keeps.
    apply keeps_bind; [by apply keeps_say | intros _; apply keeps_raise].
Qed.

Lemma grows_process_json_file p : respects grows (process_json_file L O p).
Proof.
  pose proof quiet_db as Hq.
  apply Gtry.
  - apply Gbind; [by apply grows_of_keeps, keeps_read_json | intros d].
    apply Gbind; [apply grows_process_json_data | intros d'].
    by apply grows_of_keeps, keeps_move_json.
  - intros e. apply grows_of_keeps.
    apply keeps_bind; [by apply keeps_say | intros _; apply keeps_raise].
Qed.

Lemma grows_pdf_step company account_number target_dir name :
  respects grows (pdf_step L O company account_number target_dir name).
Proof.
  pose proof quiet_db as Hq.
  assert (Hsay : forall m, respects grows (say m ;;; ret (@nil result))).
  { intros m. apply grows_of_keeps.
    apply keeps_bind; [by apply keeps_say | intros _; apply keeps_ret]. }
  apply Gbind; [by apply grows_of_keeps, keeps_check | intros [|]]; [apply Hsay|].
  destruct (identity_of name) as [[[y m] l]|]; [|apply Hsay].
  apply Gbind; [by apply grows_of_keeps, keeps_existing_json | intros [p|]];
    [apply Hsay|].
  apply Gbind; [by intros w; repeat split | intros [text|]]; [|apply Gret].
  destruct (String.eqb text ""); [apply Gret|].
  apply Gtry; [|intros e; apply Gret].
  apply Gbind; [apply grows_process_statement | intros _; apply Gret].
Qed.

End Grows.

(** X9.  Whatever the model, the disk and the database server do, a run over a
    directory of documents or of staged artifacts only adds rows: the rows
    that were in the three tables are still there, in the same places, and
    the table of accounts is the one it was. *)
Theorem tables_only_grow L O company account_number year test_mode json_dir w :
  grows w (process_directory L O company account_number year test_mode w).2
  /\ grows w (process_json_directory L O json_dir w).2.
Proof.
  pose proof quiet_db as Hq. split.
  - apply (respects_bind grows grows_trans);
      [by apply grows_of_keeps, keeps_list_dir | intros [files|]];
      [|apply (respects_ret grows grows_refl)].
    apply (respects_collect grows grows_refl grows_trans). intros x.
    apply grows_pdf_step.
  - apply (respects_bind grows grows_trans);
      [by apply grows_of_keeps, keeps_list_dir | intros [files|]];
      [|apply (respects_ret grows grows_refl)].
    apply (respects_collect grows grows_refl grows_trans). intros x.
    apply (respects_try grows grows_trans); [|intros e; apply (respects_ret grows grows_refl)].
    apply (respects_bind grows grows_trans);
      [apply grows_process_json_file | intros _; apply (respects_ret grows grows_refl)].
Qed.

(** ** Completion calls *)

Lemma within_of_keeps {A} (m : M A) : keeps calls m -> within 0 m.
Proof. intros H w. exists []. by rewrite (H w), app_nil_r. Qed.

Lemma within_mono {A} n k (m : M A) : (n <= k)%nat -> within n m -> within k m.
Proof. intros Hle H w. destruct (H w) as (cs & E & Hn). exists cs. split; [done | lia]. Qed.

Lemma calls_within_trans n k a b c :
  calls_within n a b -> calls_within k b c -> calls_within (n + k) a c.
Proof.
  intros (cs & E & Hn) (cs' & E' & Hk). exists (cs ++ cs').
  rewrite E', E, <- app_assoc, length_app. split; [done | lia].
Qed.

Lemma within_bind {A C} n k (m : M A) (f : A -> M C) :
  within n m -> (forall a, within k (f a)) -> within (n + k) (bind m f).
Proof.
  intros Hm Hf w. unfold bind. specialize (Hm w).
  destruct (m w) as [[a|e] w1]; simpl in *.
  - eapply calls_within_trans; [exact Hm | apply Hf].
  - destruct Hm as (cs & E & Hn). exists cs. split; [done | lia].
Qed.

Lemma within_try {A} n k (m : M A) h :
  within n m -> (forall e, within k (h e)) -> within (n + k) (try_except m h).
Proof.
  intros Hm Hh w. unfold try_except. specialize (Hm w).
  destruct (m w) as [[a|e] w1]; simpl in *.
  - destruct Hm as (cs & E & Hn). exists cs. split; [done | lia].
  - eapply calls_within_trans; [exact Hm | apply Hh].
Qed.

Lemma within_call_model O m messages : within 1 (call_model O m messages).
Proof. intros w. exists [(m, messages)]. by split. Qed.

Lemma within_get_response O messages : within 2 (get_response O messages).
Proof.
  apply (within_try 1 1); [apply within_call_model | intros e].
  apply (within_bind 0 1); [|intros _; apply within_call_model].
  apply within_of_keeps, keeps_say, quiet_calls.
Qed.

Lemma within_process_statement L O name text : within 2 (process_statement L O name text).
Proof.
  pose proof quiet_calls as Hq.
  apply (within_bind 0 2); [apply within_of_keeps, keeps_lift | intros prompt].
  apply (within_try 2 0).
  - apply (within_bind 2 0); [apply within_get_response | intros content].
    apply within_of_keeps, after_response_keeps_calls.
  - intros e. apply within_of_keeps.
    apply keeps_bind; [by apply keeps_say | intros _; apply keeps_raise].
Qed.

Lemma within_pdf_step L O company account_number target_dir name :
  within 2 (pdf_step L O company account_number target_dir name).
Proof.
  pose proof quiet_calls as Hq.
  assert (Hsay : forall m, within 2 (say m ;;; ret (@nil result))).
  { intros m. apply (within_mono 0); [lia|]. apply within_of_keeps.
    apply keeps_bind; [by apply keeps_say | intros _; apply keeps_ret]. }
  assert (Hret : forall r : list result, within 2 (ret r)).
  { intros r. apply (within_mono 0); [lia|]. apply within_of_keeps, keeps_ret. }
  apply (within_bind 0 2); [by apply within_of_keeps, keeps_check | intros [|]];
    [apply Hsay|].
  destruct (identity_of name) as [[[y m] l]|]; [|apply Hsay].
  apply (within_bind 0 2); [by apply within_of_keeps, keeps_existing_json | intros [p|]];
    [apply Hsay|].
  apply (within_bind 0 2); [by apply within_of_keeps; intros w | intros [text|]];
    [|apply Hret].
  destruct (String.eqb text ""); [apply Hret|].
  apply (within_try 2 0);
    [|intros e; apply within_of_keeps, keeps_ret].
  apply (within_bind 2 0); [apply within_process_statement | intros _].
  apply within_of_keeps, keeps_ret.
Qed.

Lemma within_collect {A} n (step : A -> M (list result)) l :
  (forall x, within n (step x)) -> within (n * length l) (collect step l).
Proof.
  intros Hs. induction l as [|x l IH]; simpl.
  - apply (within_mono 0); [lia|]. apply within_of_keeps, keeps_ret.
  - apply (within_mono (n + (n * length l + 0))); [lia|].
    apply within_bind; [apply Hs | intros r].
    apply within_bind; [apply IH | intros rs; apply within_of_keeps, keeps_ret].
Qed.

(** X10.  A run over a directory calls a model at most twice for each document
    it considers -- the files listed, or the first of them in test mode --
    and keeps the record of the calls made before. *)
Theorem at_most_two_calls_per_document
    L O company account_number year (test_mode : bool) (pdf_files : list string) w :
  glob O w [company; account_number; year] ".pdf" = Some pdf_files ->
  let considered := if test_mode then take 1 pdf_files else pdf_files in
  calls_within (2 * length considered) w
    (process_directory L O company account_number year test_mode w).2.
Proof.
  intros Hg considered. unfold process_directory, bind, list_dir.
  destruct (fails O w (OpList [company; account_number; year])) as [e|].
  { exists []. simpl. split; [by rewrite app_nil_r | lia]. }
  rewrite Hg.
  destruct (within_collect 2 (pdf_step L O company account_number
                                 [company; account_number; year]) considered
              (within_pdf_step L O company account_number _) (tick w))
    as (cs & E & Hn).
  exists cs. split; [exact E | exact Hn].
Qed.

Lemma at_most_two_calls_per_document_witness :
  calls_within 2 Sample.world0
    (process_directory Sample.L0 (Sample.O_ok [Sample.pdf]) "Acme" "000000954291234"
       "2024" false Sample.world0).2.
Proof.
  exact (at_most_two_calls_per_document Sample.L0 (Sample.O_ok [Sample.pdf])
           "Acme" "000000954291234" "2024" false [Sample.pdf] Sample.world0 eq_refl).
Defined.

(** X11.  Staged artifacts are stored without a model: a run of
    [process_json_directory] makes no completion call. *)
Theorem staged_artifacts_need_no_model L O json_dir :
  keeps calls (process_json_directory L O json_dir).
Proof.
  pose proof quiet_calls as Hq.
  apply keeps_bind; [by apply keeps_list_dir | intros [files|]]; [|apply keeps_ret].
  induction files as [|x l IH]; simpl; [apply keeps_ret|].
  apply keeps_bind; [|intros r; apply keeps_bind; [apply IH | intros rs; apply keeps_ret]].
  apply keeps_try; [|intros e; apply keeps_ret].
  apply keeps_bind; [|intros _; apply keeps_ret].
  apply keeps_try.
  - apply keeps_bind; [by apply keeps_read_json | intros d].
    apply keeps_bind; [by apply keeps_process_json_data | intros d'].
    by apply keeps_move_json.
  - intros e. apply keeps_bind; [by apply keeps_say | intros _; apply keeps_raise].
Qed.

(** ** What is written to the tables *)

Lemma store_deposits_rows L O id l w :
  let run := for_each (store_deposit L O id) l w in
  exists ds,
    deposits (db run.2) = deposits (db w) ++ ds
    /\ withdrawals (db run.2) = withdrawals (db w)
    /\ Forall (fun r => Deposit.banking_statement_id r.2 = id) ds
    /\ map deposit_content ds = take (length ds) (map deposit_validated l)
    /\ (run.1 = Ok tt -> length ds = length l).
Proof.
  revert w. induction l as [|x l IH]; intros w; simpl.
  { exists []. by rewrite app_nil_r. }
  set (loop := for_each (store_deposit L O id) l) in *.
  unfold store_deposit, parse_date, insert_deposit, bind, lift, attempt, ret.
  destruct (strptime L (DepositTransaction.date x)) as [d|]; simpl.
  2:{ exists []. rewrite app_nil_r. by repeat split. }
  destruct (fails O w _); simpl.
  { exists []. rewrite app_nil_r. by repeat split. }
  match goal with |- context [loop ?w1] =>
    destruct (IH w1) as (ds & Hd & Hw & Hid & Hc & Hlen) end.
  simpl in Hd, Hw.
  eexists (_ :: ds). rewrite Hd, Hw, <- app_assoc. simpl.
  split; [reflexivity|]. split; [reflexivity|].
  split; [by constructor|]. split; [by rewrite Hc|].
  intros Hok. by rewrite Hlen.
Qed.

Lemma store_withdrawals_rows L O id l w :
  let run := for_each (store_withdrawal L O id) l w in
  exists ws,
    withdrawals (db run.2) = withdrawals (db w) ++ ws
    /\ deposits (db run.2) = deposits (db w)
    /\ Forall (fun r => Withdrawal.banking_statement_id r.2 = id) ws
    /\ map withdrawal_content ws = take (length ws) (map withdrawal_validated l)
    /\ (run.1 = Ok tt -> length ws = length l).
Proof.
  revert w. induction l as [|x l IH]; intros w; simpl.
  { exists []. by rewrite app_nil_r. }
  set (loop := for_each (store_withdrawal L O id) l) in *.
  unfold store_withdrawal, parse_date, insert_withdrawal, bind, lift, attempt, ret.
  destruct (strptime L (WithdrawalTransaction.date x)) as [d|]; simpl.
  2:{ exists []. rewrite app_nil_r. by repeat split. }
  destruct (fails O w _); simpl.
  { exists []. rewrite app_nil_r. by repeat split. }
  match goal with |- context [loop ?w1] =>
    destruct (IH w1) as (ws & Hw & Hd & Hid & Hc & Hlen) end.
  simpl in Hd, Hw.
  eexists (_ :: ws). rewrite Hd, Hw, <- app_assoc. simpl.
  split; [reflexivity|]. split; [reflexivity|].
  split; [by constructor|]. split; [by rewrite Hc|].
  intros Hok. by rewrite Hlen.
Qed.

(** X12.  The line items of a statement are stored in the order of the payload,
    every row under the identifier of the statement row: the rows added
    are a beginning of the validated deposits followed by a beginning of
    the validated withdrawals, no withdrawal is stored before all deposits
    are, and when [store_items] returns all of them are stored. *)
Theorem line_items_follow_the_payload L O id p w :
  let run := store_items L O id p w in
  exists ds ws,
    deposits (db run.2) = deposits (db w) ++ ds
    /\ withdrawals (db run.2) = withdrawals (db w) ++ ws
    /\ Forall (fun r => Deposit.banking_statement_id r.2 = id) ds
    /\ Forall (fun r => Withdrawal.banking_statement_id r.2 = id) ws
    /\ map deposit_content ds
       = take (length ds) (map deposit_validated (StatementData.deposits p))
    /\ map withdrawal_content ws
       = take (length ws) (map withdrawal_validated (StatementData.withdrawals p))
    /\ (ws <> [] -> length ds = length (StatementData.deposits p))
    /\ (run.1 = Ok tt ->
        length ds = length (StatementData.deposits p)
        /\ length ws = length (StatementData.withdrawals p)).
Proof.
  intros run. subst run. unfold store_items, bind.
  destruct (store_deposits_rows L O id (StatementData.deposits p) w)
    as (ds & Hd & Hw & Hid & Hc & Hlen).
  destruct (for_each (store_deposit L O id) _ w) as [[[]|e] w1]; simpl in *.
  - destruct (store_withdrawals_rows L O id (StatementData.withdrawals p) w1)
      as (ws & Hw' & Hd' & Hid' & Hc' & Hlen').
    exists ds, ws. rewrite Hw', Hd', Hd, Hw. repeat split; try done; auto.
  - exists ds, []. rewrite app_nil_r. repeat split; try done.
Qed.

(** X13.  A statement whose account is not in the table of accounts, or one of
    whose three dates [strptime] does not read -- the schema takes any
    string for them -- is refused after validation with a [ValueError]:
    one line is printed and nothing is written to the database. *)
Theorem no_account_or_no_date_stores_nothing L O data d p w :
  prepare (py_str L) data = Ok d ->
  validate_statement (lax_float L) (lax_decimal L) d = Valid p ->
  fails O w (OpFetchAccount (StatementData.account_number p)) = None ->
  List.find (fun a => String.eqb (AccountReference.account_number a)
                        (StatementData.account_number p))
    (account_references (db w)) = None
  \/ strptime L (StatementData.statement_date p) = None
  \/ strptime L (StatementData.period_start p) = None
  \/ strptime L (StatementData.period_end p) = None ->
  exists msg,
    _process_json_data L O data w
    = (Raise (ValueError msg), add_out (ErrorLine (ValueError msg)) (tick w)).
Proof.
  intros Hp Hv Hf Hcase.
  rewrite (process_json_data_unfold _ _ _ _ _ _ Hp Hv).
  assert (Hb : exists msg, build_row L O d p w = (Raise (ValueError msg), tick w)).
  { unfold build_row, fetch_account_reference, bind, attempt, read_db, parse_date, lift.
    rewrite Hf. simpl.
    destruct (List.find _ _) as [a|]; [|by eexists].
    destruct Hcase as [Hc|[Hc|[Hc|Hc]]]; [done | ..].
    - rewrite Hc. by eexists.
    - destruct (strptime L (StatementData.statement_date p)); [|by eexists].
      rewrite Hc. by eexists.
    - destruct (strptime L (StatementData.statement_date p)); [|by eexists].
      destruct (strptime L (StatementData.period_start p)); [|by eexists].
      rewrite Hc. by eexists. }
  destruct Hb as [msg Hb]. exists msg.
  erewrite try_raise; [reflexivity|].
  apply bind_raise. unfold store. apply bind_raise. exact Hb.
Qed.

Lemma no_account_or_no_date_stores_nothing_witness :
  exists msg,
    _process_json_data Sample.L0 (Sample.O_ok []) Sample.payload_value
      Cases.world_no_account
    = (Raise (ValueError msg),
       add_out (ErrorLine (ValueError msg)) (tick Cases.world_no_account)).
Proof.
  assert (Hp : prepare (py_str Sample.L0) Sample.payload_value
               = Ok Sample.prepared_dict) by (vm_compute; reflexivity).
  assert (Hv : validate_statement (lax_float Sample.L0) (lax_decimal Sample.L0)
                 Sample.prepared_dict = Valid Cases.parsed)
    by (vm_compute; reflexivity).
  exact (no_account_or_no_date_stores_nothing Sample.L0 (Sample.O_ok [])
           Sample.payload_value Sample.prepared_dict Cases.parsed
           Cases.world_no_account Hp Hv eq_refl (or_introl eq_refl)).
Defined.

(** X14.  [_store_statement_data] never returns and never writes: with the
    account found and the dates read it still raises, at [json.dumps],
    before its first insert. *)
Theorem store_statement_data_always_raises L O data w :
  exists e w',
    _store_statement_data L O data w = (Raise e, w')
    /\ db w' = db w /\ fs w' = fs w /\ calls w' = calls w
    /\ last (out w') = Some (ErrorLine e).
Proof.
  unfold _store_statement_data, fetch_account_reference, parse_date, try_except,
    bind, attempt, read_db, lift, dumps_dict, say, raise.
  destruct (fails O w (OpFetchAccount (StatementData.account_number data))); simpl.
  { eexists _, _. split; [reflexivity|]. simpl. by rewrite last_snoc. }
  destruct (List.find _ _) as [a|]; simpl.
  2:{ eexists _, _. split; [reflexivity|]. simpl. by rewrite last_snoc. }
  destruct (strptime L (StatementData.statement_date data)); simpl.
  2:{ eexists _, _. split; [reflexivity|]. simpl. by rewrite last_snoc. }
  destruct (strptime L (StatementData.period_start data)); simpl.
  2:{ eexists _, _. split; [reflexivity|]. simpl. by rewrite last_snoc. }
  destruct (strptime L (StatementData.period_end data)); simpl.
  2:{ eexists _, _. split; [reflexivity|]. simpl. by rewrite last_snoc. }
  eexists _, _. split; [reflexivity|]. simpl. by rewrite last_snoc.
Qed.

(** ** What is written to the disk *)

(** X15.  A payload that is staged and then refused by [_process_json_data]
    stays staged: [process_statement] raises the exception of the refusal,
    and the artifact is in the staging directory, with the payload as the
    model gave it. *)
Theorem refused_payload_stays_staged
    L O filename text prompt content data json_path e wa wb w1 w2 :
  human_prompt L filename text = Ok prompt ->
  get_response O prompt wa = (Ok content, wb) ->
  parse_response L content = Ok data ->
  _save_json_response O filename data wb = (Ok json_path, w1) ->
  _process_json_data L O data w1 = (Raise e, w2) ->
  let run := process_statement L O filename text wa in
  run = (Raise e, add_out (ErrorLine e) w2)
  /\ fs run.2 !! json_path = Some data
  /\ exists n, json_path = staging ++ [n].
Proof.
  intros Hp Hr Hd Hs Hj run.
  assert (Hrun : run = (Raise e, add_out (ErrorLine e) w2)).
  { subst run. unfold process_statement. rewrite Hp.
    change (bind (lift (Ok prompt)) ?k wa) with (k prompt wa). cbv beta.
    erewrite try_raise; [reflexivity|].
    erewrite bind_ok by exact Hr. rewrite Hd.
    change (bind (lift (Ok data)) ?k wb) with (k data wb). cbv beta.
    erewrite bind_ok by exact Hs. apply bind_raise. exact Hj. }
  rewrite Hrun. split; [done|]. simpl.
  destruct (save_ok _ _ _ _ _ _ Hs) as [Hfs Hn]. split; [|exact Hn].
  pose proof (keeps_process_json_data fs quiet_fs L O (fun _ _ => eq_refl) data w1) as Hk.
  rewrite Hj in Hk. simpl in Hk. by rewrite Hk.
Qed.

Lemma refused_payload_stays_staged_witness :
  let run := process_statement Sample.L0 Cases.O_nested "notes.pdf" "text"
               Sample.world0 in
  run.1 = Raise AttributeError
  /\ fs run.2 !! (staging ++ ["notes.json"]) = Some (JNum (Int 1)).
Proof.
  set (prompt := "notes.pdf" +:+ ": text").
  set (data := JNum (Int 1)).
  set (resp := get_response Cases.O_nested prompt Sample.world0).
  assert (Hr : resp = (Ok Sample.nested_text, resp.2)).
  { rewrite (surjective_pairing resp) at 1. f_equal; vm_compute; reflexivity. }
  set (save := _save_json_response Cases.O_nested "notes.pdf" data resp.2).
  assert (Hs : save = (Ok (staging ++ ["notes.json"]), save.2)).
  { rewrite (surjective_pairing save) at 1. f_equal; vm_compute; reflexivity. }
  set (store := _process_json_data Sample.L0 Cases.O_nested data save.2).
  assert (Hj : store = (Raise AttributeError, store.2)).
  { rewrite (surjective_pairing store) at 1. f_equal; vm_compute; reflexivity. }
  assert (Hd : parse_response Sample.L0 Sample.nested_text = Ok data)
    by (vm_compute; reflexivity).
  destruct (refused_payload_stays_staged Sample.L0 Cases.O_nested "notes.pdf" "text"
              prompt Sample.nested_text data (staging ++ ["notes.json"])
              AttributeError Sample.world0 resp.2 save.2 store.2
              eq_refl Hr Hd Hs Hj) as (Hrun & Hfs & _).
  cbv zeta. split; [by rewrite Hrun | exact Hfs].
Defined.

(** X16.  A move that succeeds, between paths of plain components (not
    empty, without a slash, neither [.] nor [..]), is a move and not a
    copy: the artifact is at [company/account/year/json] under its own
    name, with its content; when that is another path than the old one the
    artifact is no longer at the old path, and when it is the old path
    itself -- a file processed from its organized directory -- the disk is
    as it was; every other file is untouched, and so is the database. *)
Theorem moved_artifact_leaves_staging O data json_path w w' :
  move_body O data json_path w = (Ok tt, w') ->
  exists d account_number statement_date account_ref v,
    data = JObj d
    /\ d !! "account_number" = Some (JStr account_number)
    /\ d !! "statement_date" = Some (JStr statement_date)
    /\ List.find (fun a => String.eqb (AccountReference.account_number a) account_number)
         (account_references (db w)) = Some account_ref
    /\ fs w !! json_path = Some v
    /\ let dest := [AccountReference.company_name account_ref; account_number;
                    Py.last (Py.split "/" statement_date); "json";
                    Py.last json_path] in
       forallb plain dest = true ->
       forallb plain json_path = true ->
       fs w' !! dest = Some v
       /\ (dest <> json_path -> fs w' !! json_path = None)
       /\ (dest = json_path -> fs w' = fs w)
       /\ (forall p, forallb plain p = true -> p <> dest -> p <> json_path ->
             fs w' !! p = fs w !! p)
       /\ db w' = db w.
Proof.
  intros H. unfold move_body in H.
  apply bind_ok_inv in H as (acct & w1 & Ha & H).
  unfold get_truthy in Ha. destruct data as [| | | | |d]; try discriminate.
  destruct (d !! "account_number") as [va|] eqn:Eacct; [|discriminate].
  destruct (truthy va); [|discriminate]. injection Ha as <- <-.
  destruct va as [| | |account_number| |]; try discriminate.
  apply bind_ok_inv in H as (ref & w2 & Hf & H).
  unfold fetch_account_reference, bind, attempt, read_db in Hf.
  destruct (fails O w _); [discriminate|]. injection Hf as <- <-.
  destruct (List.find _ _) as [account_ref|] eqn:Efind; [|discriminate].
  apply bind_ok_inv in H as (sd & w3 & Hsd & H).
  unfold get_truthy in Hsd.
  destruct (d !! "statement_date") as [vs|] eqn:Esd; [|discriminate].
  destruct (truthy vs); [|discriminate]. injection Hsd as <- <-.
  apply bind_ok_inv in H as (parts & w4 & Hparts & H).
  unfold lift in Hparts. destruct vs as [| | |statement_date| |]; try discriminate.
  injection Hparts as <- <-.
  apply bind_ok_inv in H as ([] & w5 & Hmk & H).
  unfold attempt in Hmk. destruct (fails O (tick w) _); [discriminate|].
  injection Hmk as <-.
  unfold rename, bind, attempt in H.
  destruct (fails O (tick (tick w)) _); [discriminate|].
  simpl in H. simpl in Efind.
  destruct (fs w !! json_path) as [v|] eqn:Ev; [|discriminate].
  injection H as <-.
  exists d, account_number, statement_date, account_ref, v.
  do 5 (split; [done|]). intros dest _ _.
  split; [apply lookup_insert_eq|]. split; [|split; [|split; [|done]]].
  - intros Hne. simpl. rewrite lookup_insert_ne by done. apply lookup_delete_eq.
  - intros Heq. simpl. fold dest. rewrite Heq, insert_delete_eq. by apply insert_id.
  - intros p _ Hp1 Hp2. simpl. rewrite lookup_insert_ne by done.
    by rewrite lookup_delete_ne.
Qed.

Lemma moved_artifact_leaves_staging_witness :
  let w' := (move_body (Sample.O_ok []) (JObj Sample.prepared_dict)
               (staging ++ [Sample.staged_name]) Sample.world_staged).2 in
  fs w' !! ["Acme"; "000000954291234"; "2024"; "json"; Sample.staged_name]
  = Some Sample.payload_value
  /\ fs w' !! (staging ++ [Sample.staged_name]) = None.
Proof.
  intros w'.
  set (move := move_body (Sample.O_ok []) (JObj Sample.prepared_dict)
                 (staging ++ [Sample.staged_name]) Sample.world_staged).
  assert (Hm : move = (Ok tt, w')).
  { rewrite (surjective_pairing move) at 1. f_equal; vm_compute; reflexivity. }
  destruct (moved_artifact_leaves_staging _ _ _ _ _ Hm)
    as (d & acct & sd & a & v & Hd & Hacct & Hsd & Hfind & Hv & Hmoved).
  injection Hd as <-.
  assert (acct = "000000954291234") as -> by (vm_compute in Hacct; congruence).
  assert (sd = "03/31/2024") as -> by (vm_compute in Hsd; congruence).
  assert (a = Sample.account) as ->
    by (vm_compute in Hfind; injection Hfind as <-; reflexivity).
  assert (v = Sample.payload_value) as ->
    by (vm_compute in Hv; injection Hv as <-; vm_compute; reflexivity).
  destruct (Hmoved eq_refl eq_refl) as (Hdest & Hgone & _).
  split; [exact Hdest | apply Hgone; discriminate].
Defined.

(** ** The schema as a contract *)

Lemma errors_of_vap {A B} (f : vres (A -> B)) (x : vres A) :
  errors_of (f <*> x) = errors_of f ++ errors_of x.
Proof. destruct f, x; simpl; by rewrite ?app_nil_r. Qed.

(** X17.  Validation does not stop at the first error: each required field that
    the dictionary lacks is reported as missing, at its own key, whatever
    else is wrong with the payload. *)
Theorem every_missing_field_is_reported lf ld d k :
  In k required_fields ->
  d !! k = None ->
  In {| loc := [Key k]; kind := missing |} (errors_of (validate_statement lf ld d))
  /\ forall p, validate_statement lf ld d <> Valid p.
Proof.
  intros Hk Hnone.
  assert (Hin : In {| loc := [Key k]; kind := missing |}
                  (errors_of (validate_statement lf ld d))).
  { unfold validate_statement. rewrite !errors_of_vap. simpl.
    unfold required_fields in Hk. simpl in Hk.
    repeat (destruct Hk as [<-|Hk];
            [rewrite Hnone; simpl; rewrite !in_app_iff; simpl; tauto|]).
    destruct Hk. }
  split; [exact Hin|]. intros p Hp. rewrite Hp in Hin. destruct Hin.
Qed.

Lemma every_missing_field_is_reported_witness :
  In {| loc := [Key "period_end"]; kind := missing |}
    (errors_of (validate_statement (lax_float Sample.L0) (lax_decimal Sample.L0)
                  (delete "period_end" Sample.payload_dict))).
Proof.
  refine (proj1 (every_missing_field_is_reported (lax_float Sample.L0)
                   (lax_decimal Sample.L0) (delete "period_end" Sample.payload_dict)
                   "period_end" _ _)).
  - unfold required_fields. simpl. tauto.
  - vm_compute. reflexivity.
Defined.

Lemma pattern_field_valid p path v s :
  pattern_field p path v = Valid s -> v = Some (JStr s) /\ p s = true.
Proof.
  destruct v as [[]|]; simpl; try discriminate.
  destruct (p s0) eqn:E; [|discriminate]. by intros [= <-].
Qed.

Lemma amount_field_valid lf path v n : amount_field lf path v = Valid n -> gt0 n = true.
Proof.
  unfold amount_field.
  assert (Hc : forall m,
             (if gt0 m then Valid m else @err number path greater_than) = Valid n
             -> gt0 n = true).
  { intros m. destruct (gt0 m) eqn:E; [by intros [= <-] | discriminate]. }
  destruct v as [j|]; [|discriminate].
  destruct j as [| |[z|f]| | |]; cbv beta iota zeta;
    try (destruct (lf _) as [m|]; [|discriminate]); apply Hc.
Qed.

Lemma decimal_field_valid ld path v n :
  decimal_field ld path v = Valid n -> is_finite n = true.
Proof.
  unfold decimal_field.
  destruct v as [j|]; [|discriminate].
  destruct j; simpl;
    try (destruct (ld _) as [m|]; [|discriminate]);
    match goal with |- (if is_finite ?m then _ else _) = _ -> _ =>
      destruct (is_finite m) eqn:E; [by intros [= <-] | discriminate] end.
Qed.

Lemma validate_deposit_valid lf path v x :
  validate_deposit lf path v = Valid x ->
  deposit_ok x
  /\ exists t, v = JObj t /\ t !! "date" = Some (JStr (DepositTransaction.date x)).
Proof.
  unfold validate_deposit. destruct v as [| | | | |t]; try discriminate.
  intros H. repeat (apply vap_valid in H as (? & ? & H & ? & ->)).
  injection H as <-. simpl.
  repeat match goal with
         | H : pattern_field _ _ _ = Valid _ |- _ =>
             apply pattern_field_valid in H as [? ?]
         | H : amount_field _ _ _ = Valid _ |- _ => apply amount_field_valid in H
         end.
  split; [by repeat split | by exists t].
Qed.

Lemma validate_withdrawal_valid lf path v x :
  validate_withdrawal lf path v = Valid x ->
  withdrawal_ok x
  /\ exists t, v = JObj t /\ t !! "date" = Some (JStr (WithdrawalTransaction.date x)).
Proof.
  unfold validate_withdrawal. destruct v as [| | | | |t]; try discriminate.
  intros H. repeat (apply vap_valid in H as (? & ? & H & ? & ->)).
  injection H as <-. simpl.
  repeat match goal with
         | H : pattern_field _ _ _ = Valid _ |- _ =>
             apply pattern_field_valid in H as [? ?]
         | H : amount_field _ _ _ = Valid _ |- _ => apply amount_field_valid in H
         end.
  split; [by repeat split | by exists t].
Qed.

Lemma validate_items_valid {A} (f : list loc_item -> json -> vres A) path i l xs :
  validate_items f path i l = Valid xs ->
  Forall2 (fun v x => exists path', f path' v = Valid x) l xs.
Proof.
  revert i xs. induction l as [|v l IH]; intros i xs H.
  - injection H as <-. constructor.
  - change (Valid cons <*> f (path ++ [Idx i]) v <*> validate_items f path (S i) l
            = Valid xs) in H.
    repeat (apply vap_valid in H as (? & ? & H & ? & ->)).
    injection H as <-. constructor; [by eexists | by eapply IH].
Qed.

Lemma list_field_valid {A} (f : list loc_item -> json -> vres A) path v xs :
  list_field f path v = Valid xs ->
  (v = None /\ xs = [])
  \/ exists l, v = Some (JArr l)
       /\ Forall2 (fun v x => exists path', f path' v = Valid x) l xs.
Proof.
  unfold list_field. destruct v as [j|]; [|intros [= <-]; by left].
  destruct j; try discriminate.
  intros H. right. eexists. split; [done|]. by eapply validate_items_valid.
Qed.

Lemma validate_statement_lists lf ld d p :
  validate_statement lf ld d = Valid p ->
  list_field (validate_deposit lf) [Key "deposits"] (d !! "deposits")
  = Valid (StatementData.deposits p)
  /\ list_field (validate_withdrawal lf) [Key "withdrawals"] (d !! "withdrawals")
     = Valid (StatementData.withdrawals p)
  /\ is_finite (StatementData.beginning_balance p) = true
  /\ is_finite (StatementData.ending_balance p) = true
  /\ is_finite (StatementData.total_fees p) = true.
Proof.
  unfold validate_statement. intros H.
  repeat (apply vap_valid in H as (? & ? & H & ? & ->)).
  injection H as <-. simpl.
  repeat match goal with
         | H : decimal_field _ _ _ = Valid _ |- _ => apply decimal_field_valid in H
         end.
  by repeat split.
Qed.

(** X18.  What a validated statement holds has passed the constraints of the
    schema: every line item has a date and a description of the declared
    patterns and an amount above zero, and the three balances are finite. *)
Theorem validated_statement_meets_the_constraints lf ld d p :
  validate_statement lf ld d = Valid p ->
  Forall deposit_ok (StatementData.deposits p)
  /\ Forall withdrawal_ok (StatementData.withdrawals p)
  /\ is_finite (StatementData.beginning_balance p) = true
  /\ is_finite (StatementData.ending_balance p) = true
  /\ is_finite (StatementData.total_fees p) = true.
Proof.
  intros H. destruct (validate_statement_lists _ _ _ _ H) as (Hd & Hw & Hb & He & Hf).
  repeat split; try done.
  - apply list_field_valid in Hd as [[_ ->]|(l & _ & Hl)]; [constructor|].
    induction Hl as [|v x l xs [path' Hx] _ IH]; constructor; [|exact IH].
    by apply validate_deposit_valid in Hx as [? _].
  - apply list_field_valid in Hw as [[_ ->]|(l & _ & Hl)]; [constructor|].
    induction Hl as [|v x l xs [path' Hx] _ IH]; constructor; [|exact IH].
    by apply validate_withdrawal_valid in Hx as [? _].
Qed.

Lemma validated_statement_meets_the_constraints_witness :
  Forall withdrawal_ok (StatementData.withdrawals Cases.parsed).
Proof.
  assert (Hv : validate_statement (lax_float Sample.L0) (lax_decimal Sample.L0)
                 Sample.prepared_dict = Valid Cases.parsed)
    by (vm_compute; reflexivity).
  exact (proj1 (proj2 (validated_statement_meets_the_constraints _ _ _ _ Hv))).
Defined.

(** ** Dates on their way to the database *)

Lemma month2_no_slash a b :
  Pattern.month2 a b = true -> Ascii.eqb a "/" = false /\ Ascii.eqb b "/" = false.
Proof.
  intros H. split.
  - destruct (Ascii.eqb_spec a "/") as [->|]; [|done].
    exfalso. revert H. by vm_compute.
  - destruct (Ascii.eqb_spec b "/") as [->|]; [|done].
    exfalso. revert H. unfold Pattern.month2.
    change (Pattern.in_range 49 57 "/") with false.
    change (Pattern.in_range 48 50 "/") with false.
    by rewrite !andb_false_r.
Qed.

Lemma day2_no_slash a b :
  Pattern.day2 a b = true -> Ascii.eqb a "/" = false /\ Ascii.eqb b "/" = false.
Proof.
  intros H. split.
  - destruct (Ascii.eqb_spec a "/") as [->|]; [|done].
    exfalso. revert H. unfold Pattern.day2.
    change (Pattern.chr "0" "/") with false.
    change (Pattern.in_range 49 50 "/") with false.
    change (Pattern.chr "3" "/") with false.
    done.
  - destruct (Ascii.eqb_spec b "/") as [->|]; [|done].
    exfalso. revert H. unfold Pattern.day2.
    change (Pattern.in_range 49 57 "/") with false.
    change (Py.is_digit "/") with false.
    change (Pattern.in_range 48 49 "/") with false.
    by rewrite !andb_false_r.
Qed.

(** A date of the declared pattern either is [MM/DD], with one slash, or
    has its four-digit year and ten characters. *)
Lemma pattern_date_length s :
  Pattern.date s = true -> Py.count "/" s <> 1%nat -> String.length s = 10%nat.
Proof.
  destruct s as [|m1 [|m2 [|s0 [|d1 [|d2 rest]]]]]; try discriminate.
  unfold Pattern.date. rewrite !andb_true_iff. intros [[[Hm Hs] Hd] Hy] Hc.
  apply month2_no_slash in Hm as [Hm1 Hm2]. apply day2_no_slash in Hd as [Hd1 Hd2].
  unfold Pattern.chr in Hs. apply Ascii.eqb_eq in Hs as <-.
  destruct rest as [|c1 [|y1 [|y2 [|y3 [|y4 [|c rest]]]]]]; try discriminate.
  - exfalso. apply Hc. unfold Py.count. rewrite Hm1, Hm2, Hd1, Hd2. reflexivity.
  - reflexivity.
Qed.

Lemma with_year_date y item t s :
  with_year y item = JObj t -> t !! "date" = Some (JStr s) -> Py.count "/" s <> 1%nat.
Proof.
  unfold with_year. destruct item as [| | | | |t0]; try discriminate.
  destruct (t0 !! "date") as [v|] eqn:Hd.
  2:{ intros [= <-] E. congruence. }
  destruct v as [| | |s0| |]; try (intros [= <-] E; congruence).
  rewrite two_parts_length.
  destruct (Nat.eqb (Py.count "/" s0) 1) eqn:Hc.
  - intros [= <-]. rewrite lookup_insert_eq. intros [= <-].
    rewrite !PyFacts.count_app. apply Nat.eqb_eq in Hc. rewrite Hc.
    change (Py.count "/" "/") with 1%nat. lia.
  - intros [= <-] E. rewrite Hd in E. injection E as <-. by apply Nat.eqb_neq.
Qed.

Lemma backfill_items key y d1 d2 l :
  backfill key y d1 = Ok d2 -> d2 !! key = Some (JArr l) ->
  exists l0, l = map (with_year y) l0.
Proof.
  unfold backfill. intros H Hl.
  destruct (d1 !! key) as [v|] eqn:Hk.
  2:{ injection H as <-. congruence. }
  destruct v as [| | |s|l0|t].
  - discriminate.
  - discriminate.
  - discriminate.
  - destruct (String.eqb s ""); [|discriminate]. injection H as <-. congruence.
  - destruct (map_res _ l0) as [l'|] eqn:Hm; simpl in H; [|discriminate].
    injection H as <-. rewrite lookup_insert_eq in Hl. injection Hl as <-.
    exists l0. by apply map_res_with_year.
  - case_bool_decide; [|discriminate]. injection H as <-. congruence.
Qed.

Lemma prepare_items str_of data d key l :
  key = "deposits" \/ key = "withdrawals" ->
  prepare str_of data = Ok d -> d !! key = Some (JArr l) ->
  exists y l0, l = map (with_year y) l0.
Proof.
  intros Hkey Hp Hl. unfold prepare in Hp. destruct data as [| | | | |d0]; try discriminate.
  destruct (statement_date_parts (JObj d0)) as [parts|]; [|discriminate]. simpl in Hp.
  destruct (set_filename _ _ _ d0) as [d1|]; [|discriminate]. simpl in Hp.
  destruct (backfill "deposits" _ d1) as [d2|] eqn:H2; [|discriminate]. simpl in Hp.
  exists (Py.last parts). destruct Hkey as [-> | ->].
  - rewrite (backfill_other _ _ _ _ "deposits" Hp) in Hl by done.
    exact (backfill_items _ _ _ _ _ H2 Hl).
  - exact (backfill_items _ _ _ _ _ Hp Hl).
Qed.

Lemma dated_items {A} (date : A -> string) (f : list loc_item -> json -> vres A) y l0 xs :
  (forall path v x, f path v = Valid x ->
     Pattern.date (date x) = true
     /\ exists t, v = JObj t /\ t !! "date" = Some (JStr (date x))) ->
  Forall2 (fun v x => exists path', f path' v = Valid x) (map (with_year y) l0) xs ->
  Forall (fun x => String.length (date x) = 10%nat) xs.
Proof.
  intros Hf. revert xs. induction l0 as [|item l0 IH]; intros xs H; simpl in H.
  - apply Forall2_nil_inv_l in H as ->. constructor.
  - apply Forall2_cons_inv_l in H as (x & xs' & [path' Hx] & Hrest & ->).
    constructor; [|by apply IH].
    destruct (Hf _ _ _ Hx) as (Hpat & t & Ht & Hd).
    apply pattern_date_length; [exact Hpat|]. by eapply with_year_date.
Qed.

(** X19.  Every line item that passes validation inside [_process_json_data]
    has a date of ten characters, month, day and a four-digit year: a
    date that came as [MM/DD] has got the year of the statement, a date
    that got a year that is not of four digits has been refused by the
    pattern.  [strptime] with [%m/%d/%Y] is thus never given a date
    without a year. *)
Theorem stored_dates_carry_a_year L data d p :
  prepare (py_str L) data = Ok d ->
  validate_statement (lax_float L) (lax_decimal L) d = Valid p ->
  Forall (fun x => String.length (DepositTransaction.date x) = 10%nat)
    (StatementData.deposits p)
  /\ Forall (fun x => String.length (WithdrawalTransaction.date x) = 10%nat)
       (StatementData.withdrawals p).
Proof.
  intros Hp Hv. destruct (validate_statement_lists _ _ _ _ Hv) as (Hd & Hw & _).
  split.
  - apply list_field_valid in Hd as [[_ ->]|(l & Hl & Hall)]; [constructor|].
    destruct (prepare_items _ _ _ "deposits" _ (or_introl eq_refl) Hp Hl)
      as (y & l0 & ->).
    eapply dated_items; [|exact Hall].
    intros path v x Hx. apply validate_deposit_valid in Hx as [(Hpat & _) Ht]. by split.
  - apply list_field_valid in Hw as [[_ ->]|(l & Hl & Hall)]; [constructor|].
    destruct (prepare_items _ _ _ "withdrawals" _ (or_intror eq_refl) Hp Hl)
      as (y & l0 & ->).
    eapply dated_items; [|exact Hall].
    intros path v x Hx. apply validate_withdrawal_valid in Hx as [(Hpat & _) Ht].
    by split.
Qed.

Lemma stored_dates_carry_a_year_witness :
  Forall (fun x => String.length (WithdrawalTransaction.date x) = 10%nat)
    (StatementData.withdrawals Cases.parsed).
Proof.
  assert (Hp : prepare (py_str Sample.L0) Sample.payload_value
               = Ok Sample.prepared_dict) by (vm_compute; reflexivity).
  assert (Hv : validate_statement (lax_float Sample.L0) (lax_decimal Sample.L0)
                 Sample.prepared_dict = Valid Cases.parsed)
    by (vm_compute; reflexivity).
  exact (proj2 (stored_dates_carry_a_year Sample.L0 _ _ _ Hp Hv)).
Defined.

(** X20.  [_process_json_data] rewrites three keys of the payload and no other:
    [filename], [deposits] and [withdrawals]; what the schema sees under
    any other key is what the model sent. *)
Theorem prepare_rewrites_three_keys str_of d d' k :
  prepare str_of (JObj d) = Ok d' ->
  k <> "filename" -> k <> "deposits" -> k <> "withdrawals" ->
  d' !! k = d !! k.
Proof.
  intros Hp Hf Hd Hw. unfold prepare in Hp.
  destruct (statement_date_parts (JObj d)) as [parts|]; [|discriminate]. simpl in Hp.
  destruct (set_filename _ _ _ d) as [d1|] eqn:H1; [|discriminate]. simpl in Hp.
  destruct (backfill "deposits" _ d1) as [d2|] eqn:H2; [|discriminate]. simpl in Hp.
  rewrite (backfill_other _ _ _ _ k Hp) by done.
  rewrite (backfill_other _ _ _ _ k H2) by done.
  by rewrite (set_filename_other _ _ _ _ _ k H1).
Qed.

Lemma prepare_rewrites_three_keys_witness :
  Sample.prepared_dict !! "ending_balance" = Sample.payload_dict !! "ending_balance".
Proof.
  assert (Hp : prepare (py_str Sample.L0) (JObj Sample.payload_dict)
               = Ok Sample.prepared_dict) by (vm_compute; reflexivity).
  apply (prepare_rewrites_three_keys _ _ _ "ending_balance" Hp); discriminate.
Defined.

(** ** The two ways of removing a code fence *)

Lemma replace_go_skip old new u t :
  Py.replace_go old new (String.length u) (u +:+ t) = Py.replace_go old new O t.
Proof.
  induction u as [|a u IH]; [reflexivity|].
  rewrite PyFacts.app_cons. exact IH.
Qed.

Lemma replace_prefix a old new t :
  Py.replace_go (String a old) new O (String a old +:+ t)
  = new +:+ Py.replace_go (String a old) new O t.
Proof.
  rewrite PyFacts.app_cons at 1.
  change (Py.replace_go (String a old) new O (String a (old +:+ t)))
    with (if Py.startswith (String a old) (String a (old +:+ t))
          then new +:+ Py.replace_go (String a old) new
                         (String.length (String a old) - 1) (old +:+ t)
          else String a (Py.replace_go (String a old) new O (old +:+ t))).
  rewrite <- PyFacts.app_cons, PyFacts.startswith_app.
  change (String.length (String a old) - 1)%nat with (String.length old - 0)%nat.
  by rewrite Nat.sub_0_r, replace_go_skip.
Qed.

Lemma replace_step old new a s :
  Py.startswith old (String a s) = false ->
  Py.replace_go old new O (String a s) = String a (Py.replace_go old new O s).
Proof.
  intros H.
  change (Py.replace_go old new O (String a s))
    with (if Py.startswith old (String a s)
          then new +:+ Py.replace_go old new (String.length old - 1) s
          else String a (Py.replace_go old new O s)).
  by rewrite H.
Qed.

(** A text without a backtick is passed over by a replacement of
    something that starts with one. *)
Lemma replace_no_tick old new s t :
  Py.contains "`" s = false ->
  Py.replace_go (String "`" old) new O (s +:+ t)
  = s +:+ Py.replace_go (String "`" old) new O t.
Proof.
  induction s as [|a s IH]; intros H; [reflexivity|].
  rewrite !PyFacts.app_cons.
  change (Py.contains "`" (String a s))
    with (if Ascii.eqb a "`" then true else Py.contains "`" s) in H.
  destruct (Ascii.eqb_spec a "`") as [|Hne]; [discriminate|].
  rewrite replace_step.
  - by rewrite IH.
  - change (Py.startswith (String "`" old) (String a (s +:+ t)))
      with (if Ascii.eqb "`" a then Py.startswith old (s +:+ t) else false).
    destruct (Ascii.eqb_spec "`" a) as [<-|]; [done | reflexivity].
Qed.

(** X21.  On a response in a code block -- tagged [json] or not -- whose text
    holds no backtick, the cleaning of the command line leaves the text
    and the newline before the closing fence, the cleaning of the agent
    the text alone. *)
Theorem fence_removed_by_both_cleanings tag text :
  tag = "json" \/ tag = "" ->
  Py.contains "`" text = false ->
  Cli.clean (fenced tag text) = text +:+ Re.nl
  /\ unwrap_content (fenced tag text) = text.
Proof.
  intros Htag Htext. split; [|by apply unwrap_fenced].
  unfold Cli.clean.
  assert (Hs : Py.startswith Re.fence (fenced tag text) = true)
    by apply PyFacts.startswith_app.
  rewrite Hs. unfold Py.replace.
  assert (H3 : Py.replace_go Re.fence "" O (text +:+ Re.nl +:+ Re.fence)
               = text +:+ Re.nl).
  { change Re.fence with (String "`" "``") at 1.
    rewrite replace_no_tick by done. reflexivity. }
  destruct Htag as [-> | ->].
  - assert (H1 : Py.replace_go (Re.fence +:+ "json" +:+ Re.nl) "" O (fenced "json" text)
                 = text +:+ Re.nl +:+ Re.fence).
    { change (fenced "json" text)
        with ((Re.fence +:+ "json" +:+ Re.nl) +:+ (text +:+ Re.nl +:+ Re.fence)).
      change (Re.fence +:+ "json" +:+ Re.nl) with (String "`" ("``json" +:+ Re.nl)).
      rewrite replace_prefix, replace_no_tick by done. reflexivity. }
    assert (H2 : Py.replace_go (Re.fence +:+ Re.nl) "" O (text +:+ Re.nl +:+ Re.fence)
                 = text +:+ Re.nl +:+ Re.fence).
    { change (Re.fence +:+ Re.nl) with (String "`" ("``" +:+ Re.nl)).
      rewrite replace_no_tick by done. reflexivity. }
    by rewrite H1, H2, H3.
  - assert (H1 : Py.replace_go (Re.fence +:+ "json" +:+ Re.nl) "" O (fenced "" text)
                 = (Re.fence +:+ Re.nl) +:+ (text +:+ Re.nl +:+ Re.fence)).
    { change (fenced "" text)
        with (String "`" (String "`" (String "`"
                (String (Ascii.ascii_of_nat 10) (text +:+ Re.nl +:+ Re.fence))))).
      rewrite !replace_step by reflexivity.
      change (Re.fence +:+ "json" +:+ Re.nl) with (String "`" ("``json" +:+ Re.nl)).
      rewrite replace_no_tick by done. reflexivity. }
    assert (H2 : Py.replace_go (Re.fence +:+ Re.nl) "" O
                   ((Re.fence +:+ Re.nl) +:+ (text +:+ Re.nl +:+ Re.fence))
                 = text +:+ Re.nl +:+ Re.fence).
    { change (Re.fence +:+ Re.nl) with (String "`" ("``" +:+ Re.nl)).
      rewrite replace_prefix, replace_no_tick by done. reflexivity. }
    by rewrite H1, H2, H3.
Qed.

Lemma fence_removed_by_both_cleanings_witness :
  Cli.clean (fenced "json" Sample.payload_text) = Sample.payload_text +:+ Re.nl
  /\ unwrap_content (fenced "json" Sample.payload_text) = Sample.payload_text.
Proof.
  apply fence_removed_by_both_cleanings; [by left | vm_compute; reflexivity].
Defined.

(** ** A document without text *)

(** X22.  A document that is not passed over -- the existence tests are
    answered, and find no artifact -- and from which no text is extracted
    gets the record [error], "Could not extract text from the PDF": no
    model is called, and neither the database nor the disk is written. *)
Theorem unreadable_document_is_only_recorded
    L O company account_number target_dir name y m l w :
  (check_statement_exists O name w).1 = Ok false ->
  identity_of name = Some (y, m, l) ->
  fs w !! ([company; account_number; y; "json"] ++ [l +:+ m +:+ y +:+ ".json"]) = None ->
  fs w !! (staging ++ [l +:+ m +:+ y +:+ ".json"]) = None ->
  fails O (check_statement_exists O name w).2
    (OpStat ([company; account_number; y; "json"] ++ [l +:+ m +:+ y +:+ ".json"]))
  = None ->
  fails O (tick (check_statement_exists O name w).2)
    (OpStat (staging ++ [l +:+ m +:+ y +:+ ".json"])) = None ->
  pdf_text O (tick (tick (check_statement_exists O name w).2)) (target_dir ++ [name])
  = None
  \/ pdf_text O (tick (tick (check_statement_exists O name w).2)) (target_dir ++ [name])
     = Some "" ->
  let run := pdf_step L O company account_number target_dir name w in
  run.1 = Ok [error name "Could not extract text from the PDF"]
  /\ calls run.2 = calls w /\ db run.2 = db w /\ fs run.2 = fs w.
Proof.
  intros Hc Hid Ho Ht Hso Hst Htext run. subst run.
  pose proof (keeps_check calls quiet_calls O name w) as Kc.
  pose proof (keeps_check db quiet_db O name w) as Kd.
  pose proof (keeps_check fs quiet_fs O name w) as Kf.
  assert (Hrun : pdf_step L O company account_number target_dir name w
                 = (Ok [error name "Could not extract text from the PDF"],
                    tick (tick (tick (check_statement_exists O name w).2)))).
  { unfold pdf_step. unfold bind at 1.
    destruct (check_statement_exists O name w) as [r w1].
    cbn [fst snd] in Hc, Kf, Htext, Hso, Hst |- *. subst r.
    rewrite Hid. unfold bind at 1.
    rewrite (existing_json_answered O _ _ w1 Hso Hst).
    match goal with |- context [bool_decide (is_Some ?x)] =>
      replace x with (@None json) by (symmetry; rewrite Kf; exact Ho) end.
    rewrite bool_decide_eq_false_2 by (intros [? ?]; discriminate).
    match goal with |- context [bool_decide (is_Some ?x)] =>
      replace x with (@None json) by (symmetry; rewrite Kf; exact Ht) end.
    rewrite bool_decide_eq_false_2 by (intros [? ?]; discriminate).
    unfold bind. cbv beta iota.
    destruct Htext as [-> | ->]; reflexivity. }
  rewrite Hrun. simpl. by rewrite Kc, Kd, Kf.
Qed.

Lemma unreadable_document_is_only_recorded_witness :
  let run := pdf_step Sample.L0 Cases.O_unreadable "Acme" "000000954291234"
               ["Acme"; "000000954291234"; "2024"] Sample.pdf Sample.world0 in
  run.1 = Ok [error Sample.pdf "Could not extract text from the PDF"]
  /\ calls run.2 = [] /\ db run.2 = db Sample.world0 /\ fs run.2 = fs Sample.world0.
Proof.
  exact (unreadable_document_is_only_recorded Sample.L0 Cases.O_unreadable "Acme"
           "000000954291234" ["Acme"; "000000954291234"; "2024"] Sample.pdf
           "2024" "03" "1234" Sample.world0 eq_refl eq_refl eq_refl eq_refl
           eq_refl eq_refl (or_introl eq_refl)).
Defined.
